(** * question_decompose_agent: structured-output recovery and result normalisation

    A shallow embedding of the Python sources [react_agent.py], [agent.py]
    and [tools.py].

    - A Python [str] is its UTF-8 byte string.  Offsets returned by [find]
      and [rfind] are byte offsets; the code only uses them to slice the text
      they were computed on, so the slices are those of the code.
    - A dictionary is an association list in insertion order.
    - Code that may raise returns an [outcome].  Only subclasses of
      [Exception] are modelled: these are what [except Exception] catches.
    - The hosted model, the LangChain agent graph and the [json] codec are
      collaborators outside the repository.  The agents are parametric in
      them, so what is proved holds for any behaviour of theirs; a reference
      codec and scripted models are supplied to run the agents on concrete
      transcripts.  A call of a collaborator returns or raises; a call that
      never ends (an agent graph that keeps looping) is outside the model. *)

From Stdlib Require Import List ZArith QArith Bool Lia Ascii String DecimalString.
Import ListNotations.
Open Scope string_scope.
Open Scope Z_scope.
Set Warnings "-register-all".

(** ** Python string primitives *)

Module PyStr.

Definition len (s : string) : Z := Z.of_nat (String.length s).

(** [find_opt sub s]: lowest offset at which [sub] occurs in [s]. *)
Fixpoint find_opt (sub s : string) : option nat :=
  if String.prefix sub s then Some O
  else match s with
       | EmptyString => None
       | String _ r => option_map S (find_opt sub r)
       end.

(** [rfind_opt sub s]: highest offset at which [sub] occurs in [s]. *)
Fixpoint rfind_opt (sub s : string) : option nat :=
  match s with
  | EmptyString => if String.prefix sub s then Some O else None
  | String _ r =>
      match rfind_opt sub r with
      | Some n => Some (S n)
      | None => if String.prefix sub s then Some O else None
      end
  end.

Definition index_or_minus1 (o : option nat) : Z :=
  match o with Some n => Z.of_nat n | None => -1 end.

(** [s.find(sub)] and [s.rfind(sub)]: an offset, or -1. *)
Definition find (s sub : string) : Z := index_or_minus1 (find_opt sub s).
Definition rfind (s sub : string) : Z := index_or_minus1 (rfind_opt sub s).

(** [sub in s] *)
Definition contains (sub s : string) : bool :=
  match find_opt sub s with Some _ => true | None => false end.

(** Slice bounds as Python normalises them: a negative bound counts from the
    end, and both are clamped to [0, len]. *)
Definition clamp (n i : Z) : Z :=
  let j := if i <? 0 then i + n else i in
  Z.max 0 (Z.min n j).

(** [s[i:j]] *)
Definition slice (s : string) (i j : Z) : string :=
  let a := clamp (len s) i in
  let b := clamp (len s) j in
  String.substring (Z.to_nat a) (Z.to_nat (b - a)) s.

(** [s[i:]] *)
Definition slice_from (s : string) (i : Z) : string :=
  let a := clamp (len s) i in
  String.substring (Z.to_nat a) (Z.to_nat (len s - a)) s.

(** *** Whitespace, as [str.strip()] sees it on UTF-8 text.
    The code points with [str.isspace()] true are U+0009..U+000D,
    U+001C..U+0020, U+0085, U+00A0, U+1680, U+2000..U+200A, U+2028, U+2029,
    U+202F, U+205F and U+3000. *)

Definition byte (c : ascii) : nat := nat_of_ascii c.

Definition space1 (c : ascii) : bool :=
  let n := byte c in
  ((9 <=? n) && (n <=? 13) || (28 <=? n) && (n <=? 32))%nat.

Definition space2 (c1 c2 : ascii) : bool :=
  ((byte c1 =? 194) && ((byte c2 =? 133) || (byte c2 =? 160)))%nat.

Definition space3 (c1 c2 c3 : ascii) : bool :=
  let a := byte c1 in let b := byte c2 in let c := byte c3 in
  ((a =? 225) && (b =? 154) && (c =? 128)
   || (a =? 226) && (b =? 128)
        && ((128 <=? c) && (c <=? 138) || (c =? 168) || (c =? 169) || (c =? 175))
   || (a =? 226) && (b =? 129) && (c =? 159)
   || (a =? 227) && (b =? 128) && (c =? 128))%nat.

Fixpoint lstrip (s : string) : string :=
  match s with
  | EmptyString => EmptyString
  | String c1 r1 =>
      if space1 c1 then lstrip r1
      else match r1 with
           | EmptyString => s
           | String c2 r2 =>
               if space2 c1 c2 then lstrip r2
               else match r2 with
                    | EmptyString => s
                    | String c3 r3 =>
                        if space3 c1 c2 c3 then lstrip r3 else s
                    end
           end
  end.

Fixpoint rev (s : string) : string :=
  match s with
  | EmptyString => EmptyString
  | String c r => rev r ++ String c EmptyString
  end.

(** The same scan on the reversed text: the bytes of a character arrive last
    byte first. *)
Fixpoint lstrip_rev (s : string) : string :=
  match s with
  | EmptyString => EmptyString
  | String c1 r1 =>
      if space1 c1 then lstrip_rev r1
      else match r1 with
           | EmptyString => s
           | String c2 r2 =>
               if space2 c2 c1 then lstrip_rev r2
               else match r2 with
                    | EmptyString => s
                    | String c3 r3 =>
                        if space3 c3 c2 c1 then lstrip_rev r3 else s
                    end
           end
  end.

Definition rstrip (s : string) : string := rev (lstrip_rev (rev s)).

(** [s.strip()] *)
Definition strip (s : string) : string := rstrip (lstrip s).

(** [s.lower()], on the ASCII letters.  No code point outside ASCII lowers to
    an ASCII letter of the word compared against below, so the comparison
    [s.lower() == "true"] is decided by this map. *)
Definition lower_ascii (c : ascii) : ascii :=
  let n := byte c in
  if ((65 <=? n) && (n <=? 90))%nat then ascii_of_nat (n + 32) else c.

Fixpoint lower (s : string) : string :=
  match s with
  | EmptyString => EmptyString
  | String c r => String (lower_ascii c) (lower r)
  end.

End PyStr.

(** ** Python values and dictionaries *)

(** The values that flow through the agent: what [json.loads] can build and
    what the result dictionaries hold.  A float is identified by the text
    [json.dumps] writes for it (its [repr], or [NaN], [Infinity],
    [-Infinity]); the code only ever tests a float for truth. *)
Inductive PyVal : Type :=
| PNone
| PBool (b : bool)
| PInt (z : Z)
| PFloat (repr : string)
| PStr (s : string)
| PList (l : list PyVal)
| PDict (d : list (string * PyVal)).

(** A [dict]: keys in insertion order, the first binding of a key is the live
    one. *)
Definition dict : Type := list (string * PyVal).

Fixpoint dict_lookup (d : dict) (k : string) : option PyVal :=
  match d with
  | [] => None
  | (k', v) :: r => if String.eqb k k' then Some v else dict_lookup r k
  end.

(** [k in d] *)
Definition dict_contains (d : dict) (k : string) : bool :=
  match dict_lookup d k with Some _ => true | None => false end.

(** [d.get(k, default)] *)
Definition dict_get (d : dict) (k : string) (default : PyVal) : PyVal :=
  match dict_lookup d k with Some v => v | None => default end.

(** [d[k] = v]: overwrite in place, or append. *)
Fixpoint dict_set (d : dict) (k : string) (v : PyVal) : dict :=
  match d with
  | [] => [(k, v)]
  | (k', v') :: r =>
      if String.eqb k k' then (k', v) :: r else (k', v') :: dict_set r k v
  end.

(** [bool(v)] *)
Definition truthy (v : PyVal) : bool :=
  match v with
  | PNone => false
  | PBool b => b
  | PInt z => negb (z =? 0)
  | PFloat r => negb (String.eqb r "0.0" || String.eqb r "-0.0")
  | PStr s => negb (String.eqb s EmptyString)
  | PList l => match l with [] => false | _ => true end
  | PDict d => match d with [] => false | _ => true end
  end.

(** [type(v).__name__] *)
Definition type_name (v : PyVal) : string :=
  match v with
  | PNone => "NoneType"
  | PBool _ => "bool"
  | PInt _ => "int"
  | PFloat _ => "float"
  | PStr _ => "str"
  | PList _ => "list"
  | PDict _ => "dict"
  end.

(** ** Exceptions *)

(** The exception classes the code distinguishes: [json.JSONDecodeError] is
    caught by name, everything else only by [except Exception].  The last
    constructor stands for any other [Exception] subclass (a transport
    failure of the model endpoint, the agent framework's own errors). *)
Inductive exn : Type :=
| JSONDecodeError (msg : string)
| AttributeError (msg : string)
| TypeError (msg : string)
| OtherException (cls msg : string).

(** [str(e)] *)
Definition exn_str (e : exn) : string :=
  match e with
  | JSONDecodeError m | AttributeError m | TypeError m => m
  | OtherException _ m => m
  end.

Inductive outcome (A : Type) : Type :=
| Ok (a : A)
| Raise (e : exn).
Arguments Ok {A} a.
Arguments Raise {A} e.

Definition bind {A B : Type} (m : outcome A) (k : A -> outcome B) : outcome B :=
  match m with
  | Ok a => k a
  | Raise e => Raise e
  end.

Declare Scope outcome_scope.
Delimit Scope outcome_scope with outcome.
Notation "x <- m ;; k" := (bind m (fun x => k))
  (at level 61, m at next level, right associativity) : outcome_scope.
Open Scope outcome_scope.

(** [try: m  except json.JSONDecodeError: handler] *)
Definition except_JSONDecodeError {A : Type} (m handler : outcome A) : outcome A :=
  match m with
  | Raise (JSONDecodeError _) => handler
  | other => other
  end.

(** [try: m  except Exception as e: handler e] *)
Definition except_Exception {A : Type} (m : outcome A) (handler : exn -> outcome A)
  : outcome A :=
  match m with
  | Raise e => handler e
  | other => other
  end.

(** Attribute access the interpreter refuses: the wording of CPython's
    messages. *)
Definition no_attribute (v : PyVal) (attr : string) : exn :=
  AttributeError ("'" ++ type_name v ++ "' object has no attribute '" ++ attr ++ "'").

Definition not_iterable (v : PyVal) : exn :=
  TypeError ("argument of type '" ++ type_name v ++ "' is not iterable").

(** [v.get(k, default)] on an arbitrary value. *)
Definition py_get (v : PyVal) (k : string) (default : PyVal) : outcome PyVal :=
  match v with
  | PDict d => Ok (dict_get d k default)
  | _ => Raise (no_attribute v "get")
  end.

(** ** The collaborators' data *)

(** The double-quote character. *)
Definition dq : string := String (ascii_of_nat 34) EmptyString.

(** A chat message as the agent graph hands it back: an object, with or
    without a [content] attribute, or a plain dictionary. *)
Inductive Message : Type :=
| MsgObject (content : option PyVal)
| MsgDict (d : dict).

(** What [agent.invoke] returns: a dictionary (of which the code reads the
    keys [output] and [messages]) or some other object, with or without a
    [content] attribute. *)
Inductive InvokeResult : Type :=
| ResDict (output : option PyVal) (messages : option (list Message))
| ResObject (content : option PyVal).

(** A registered tool, as far as the system prompt shows it. *)
Record Tool : Type := mkTool { name : string; description : string }.

(** Sampling temperatures are decimal literals. *)
Definition temperature : Type := Q.
Definition temp_0_3 : temperature := (3 # 10)%Q.
Definition temp_0_5 : temperature := (5 # 10)%Q.

(** ** tools.py *)

Definition complexity_check_description : string :=
  "判断用户问题的复杂度。
    输入：用户原始查询
    输出：{" ++ dq ++ "is_complex" ++ dq ++ ": bool, " ++ dq ++ "reason" ++ dq ++ ": str, " ++ dq ++ "indicators" ++ dq ++ ": list}
    
    复杂问题定义：
    - 包含多个子意图
    - 需要推理或分析
    - 需要多步骤解决
    - 涉及因果关系或对比
    - 多款产品比较
    ".

Definition problem_decompose_description : string :=
  "将复杂问题拆解为多个子问题。
    输入：需要拆解的复杂问题
    输出：{" ++ dq ++ "sub_problems" ++ dq ++ ": [{" ++ dq ++ "id" ++ dq ++ ": int, " ++ dq ++ "content" ++ dq ++ ": str, " ++ dq ++ "type" ++ dq ++ ": str, " ++ dq ++ "dependencies" ++ dq ++ ": list}]}
    
    适用于已被判定为复杂的问题，将其拆解为可独立处理的子问题。
    ".

Definition complexity_check_prompt (query : string) : string :=
  "你是一个问题复杂度分析专家。请判断以下问题是否为复杂问题。

复杂问题的定义（满足以下任一条件即为复杂问题）：
1. 包含多个子意图（如：" ++ dq ++ "帮我找北京的酒店和机票" ++ dq ++ "）
2. 需要推理或分析（如：" ++ dq ++ "为什么房价会上涨？" ++ dq ++ "）
3. 需要多步骤解决（如：" ++ dq ++ "如何从零开始学习Python并找到工作？" ++ dq ++ "）
4. 涉及因果关系或对比（如：" ++ dq ++ "比较Python和Java的优缺点" ++ dq ++ "）
5. 多款产品比较（如：" ++ dq ++ "iPhone 15和华为Mate 60哪个好？" ++ dq ++ "）

请分析以下问题：
" ++ query ++ "

请以JSON格式输出分析结果，包含以下字段：
- is_complex: true/false，表示是否为复杂问题
- reason: 判断理由（详细说明为什么认为该问题是复杂或简单的）
- indicators: 检测到的复杂特征列表（如[" ++ dq ++ "多子意图" ++ dq ++ ", " ++ dq ++ "产品比较" ++ dq ++ "]等，简单问题则为空列表）

只输出JSON格式，不要包含其他说明文字。".

Definition problem_decompose_prompt (query : string) : string :=
  "你是一个问题拆解专家。请将以下复杂问题拆解为多个可独立解决的子问题。

需要拆解的问题：
" ++ query ++ "

拆解要求：
1. 每个子问题应该是独立、具体的，可以单独回答
2. 子问题之间可以有依赖关系（用dependencies字段标明）
3. 子问题的顺序应该符合逻辑
4. 确保拆解后的子问题能够完整回答原问题

请以JSON格式输出拆解结果，格式如下：
{
    " ++ dq ++ "sub_problems" ++ dq ++ ": [
        {
            " ++ dq ++ "id" ++ dq ++ ": 1,
            " ++ dq ++ "content" ++ dq ++ ": " ++ dq ++ "子问题内容" ++ dq ++ ",
            " ++ dq ++ "type" ++ dq ++ ": " ++ dq ++ "信息查询/比较分析/推理判断/建议推荐" ++ dq ++ ",
            " ++ dq ++ "dependencies" ++ dq ++ ": []  // 依赖的子问题ID列表，无依赖则为空
        }
    ]
}

只输出JSON格式，不要包含其他说明文字。".

Definition system_prompt_template (tools tool_names : string) : string :=
  "你是一个专业的问题分析与拆解助手。你的任务是根据用户的问题，判断其复杂度，并在必要时进行拆解。

你有以下工具可以使用：

" ++ tools ++ "

工具名称: " ++ tool_names ++ "

请按照以下 ReAct 框架进行思考和工作：

1. Thought（思考）: 分析当前情况，决定下一步行动
2. Action（行动）: 选择要使用的工具，格式为：Action: 工具名称, 输入: 工具参数
3. Observation（观察）: 观察工具返回的结果
4. 重复以上步骤直到获得足够信息
5. Final Answer（最终答案）: 给出最终答案


重要提示：
- 每个 Action 必须是有效的格式
- 如果问题已经是简单问题（is_complex=false），则不需要拆解，直接输出
- 最终答案必须是 JSON 格式，包含以下字段：
  - original_query: 原始问题
  - is_complex: 是否为复杂问题（true/false）
  - sub_problems: 子问题列表（如果是复杂问题）
  - complexity_analysis: 复杂度分析（reason 和 indicators）

开始工作！".

Definition get_tools : list Tool :=
  [ mkTool "complexity_check" complexity_check_description;
    mkTool "problem_decompose" problem_decompose_description ].

(** The default verdict of the classification tool. *)
Definition complexity_parse_failure (raw_response : string) : PyVal :=
  PDict [ ("is_complex", PBool false);
          ("reason", PStr "解析失败，默认为简单问题");
          ("indicators", PList []);
          ("raw_response", PStr raw_response) ].

(** The fallback decomposition of the decomposition tool. *)
Definition decompose_parse_failure (query raw_response : string) : PyVal :=
  PDict [ ("sub_problems",
           PList [ PDict [ ("id", PInt 1);
                           ("content", PStr query);
                           ("type", PStr "原始问题");
                           ("dependencies", PList []);
                           ("note", PStr "解析失败，返回原始问题") ] ]);
          ("raw_response", PStr raw_response) ].

Section Agent.

(** The hosted model: [Config.get_qwen_model(temperature).invoke(prompt)],
    returning the response's [content] or raising. *)
Variable llm_invoke : temperature -> string -> outcome string.

(** [json.loads] and [json.dumps(_, ensure_ascii=False, indent=2)]. *)
Variable json_loads : string -> outcome PyVal.
Variable json_dumps : PyVal -> string.

(** LangChain's [create_agent(model, tools, system_prompt)], as the function
    [invoke] of the graph it builds, applied to the one user message. *)
Variable create_agent :
  temperature -> list Tool -> string -> string -> outcome InvokeResult.

(** [ComplexityCheckTool._run] *)
Definition ComplexityCheckTool_run (query : string) : outcome string :=
  content <- llm_invoke temp_0_3 (complexity_check_prompt query) ;;
  except_JSONDecodeError
    (result <- json_loads content ;;
     Ok (json_dumps result))
    (Ok (json_dumps (complexity_parse_failure content))).

(** [ProblemDecomposeTool._run] *)
Definition ProblemDecomposeTool_run (query : string) : outcome string :=
  content <- llm_invoke temp_0_5 (problem_decompose_prompt query) ;;
  except_JSONDecodeError
    (result <- json_loads content ;;
     Ok (json_dumps result))
    (Ok (json_dumps (decompose_parse_failure query content))).

(** ** react_agent.py *)

(** [sep.join(l)] *)
Fixpoint join (sep : string) (l : list string) : string :=
  match l with
  | [] => EmptyString
  | [x] => x
  | x :: r => x ++ sep ++ join sep r
  end.

Definition newline : string := String (ascii_of_nat 10) EmptyString.

(** [ReActAgent._create_agent] *)
Definition ReActAgent_create_agent (temp : temperature)
  : string -> outcome InvokeResult :=
  let tools := get_tools in
  let tools_description :=
    join (newline ++ newline)
         (map (fun tool => name tool ++ ": " ++ description tool) tools) in
  let tool_names := join ", " (map name tools) in
  let formatted_system_prompt :=
    system_prompt_template tools_description tool_names in
  create_agent temp tools formatted_system_prompt.

(** The sub-problem synthesised for a complex question that came without a
    decomposition. *)
Definition original_question_sub_problem (query : string) : PyVal :=
  PDict [ ("id", PInt 1);
          ("content", PStr query);
          ("type", PStr "原始问题");
          ("dependencies", PList []) ].

(** Lines 163-164 of [_format_final_result]: a string given for the flag
    is replaced by whether it lowers to [true]. *)
Definition coerce_flag (is_complex : PyVal) : PyVal :=
  match is_complex with
  | PStr s => PBool (String.eqb (PyStr.lower s) "true")
  | other => other
  end.

(** [ReActAgent._format_final_result] *)
Definition ReActAgent_format_final_result (query : string) (result : PyVal)
  : outcome dict :=
  match result with
  | PDict d =>
      let is_complex := coerce_flag (dict_get d "is_complex" (PBool false)) in
      let sub_problems :=
        if dict_contains d "sub_problems"
        then dict_get d "sub_problems" PNone
        else if truthy is_complex
             then PList [original_question_sub_problem query]
             else PList [] in
      Ok [ ("original_query", PStr query);
           ("is_complex", is_complex);
           ("sub_problems", sub_problems);
           ("complexity_analysis",
            PDict [ ("reason", dict_get d "reason" (PStr EmptyString));
                    ("indicators", dict_get d "indicators" (PList [])) ]) ]
  | _ => Raise (no_attribute result "get")
  end.

Definition final_answer_marker : string := "Final Answer:".

(** Lines 94-106 of [process]: the text of the agent's last word. *)
Definition extract_output (result : InvokeResult) : PyVal :=
  match result with
  | ResDict output messages =>
      let output := match output with Some v => v | None => PStr EmptyString end in
      if negb (truthy output) then
        match messages with
        | Some msgs =>
            match List.rev msgs with
            | MsgObject (Some content) :: _ => content
            | MsgDict d :: _ => dict_get d "content" (PStr EmptyString)
            | _ => output
            end
        | None => output
        end
      else output
  | ResObject (Some content) => content
  | ResObject None => PStr EmptyString
  end.

(** The greedy span both branches of [process] cut out of their text: from
    the first opening brace to the last closing brace. *)
Definition json_span (text : string) : option string :=
  let json_start := PyStr.find text "{" in
  let json_end := PyStr.rfind text "}" + 1 in
  if (json_start >=? 0) && (json_end >? json_start)
  then Some (PyStr.slice text json_start json_end)
  else None.

(** The inner [try] block of [process] (lines 109-130): [Ok (Some d)] when it
    returns [d], [Ok None] when control falls out of the block. *)
Definition parse_final_answer (query : string) (output : PyVal)
  : outcome (option dict) :=
  match output with
  | PStr text =>
      let searched :=
        if PyStr.contains final_answer_marker text then
          let final_answer_start :=
            PyStr.find text final_answer_marker + PyStr.len final_answer_marker in
          PyStr.strip (PyStr.slice_from text final_answer_start)
        else text in
      match json_span searched with
      | Some json_str =>
          parsed_result <- json_loads json_str ;;
          formatted <- ReActAgent_format_final_result query parsed_result ;;
          Ok (Some formatted)
      | None => Ok None
      end
  | PList _ | PDict _ => Raise (no_attribute output "find")
  | _ => Raise (not_iterable output)
  end.

(** The dictionary returned when nothing could be parsed. *)
Definition raw_output_result (query : string) (output : PyVal) : dict :=
  [ ("original_query", PStr query);
    ("is_complex", PNone);
    ("sub_problems", PList []);
    ("raw_output", output) ].

(** The dictionary returned from [except Exception as e]. *)
Definition error_result (query : string) (e : exn) : dict :=
  [ ("original_query", PStr query);
    ("is_complex", PNone);
    ("sub_problems", PList []);
    ("error", PStr (exn_str e)) ].

(** The outer [try] block of [ReActAgent.process]. *)
Definition ReActAgent_process_body (temp : temperature) (query : string)
  : outcome dict :=
  result <- ReActAgent_create_agent temp query ;;
  let output := extract_output result in
  parsed <- except_JSONDecodeError (parse_final_answer query output) (Ok None) ;;
  match parsed with
  | Some formatted => Ok formatted
  | None => Ok (raw_output_result query output)
  end.

(** [ReActAgent.process] *)
Definition ReActAgent_process (temp : temperature) (query : string)
  : outcome dict :=
  except_Exception (ReActAgent_process_body temp query)
                   (fun e => Ok (error_result query e)).

(** ** agent.py *)

(** [ReActQuestionDecomposeAgent.process] *)
Definition ReActQuestionDecomposeAgent_process (query : string) : outcome dict :=
  except_Exception (ReActAgent_process temp_0_3 query)
                   (fun e => Ok (error_result query e)).

Definition simple_sub_problem (query : string) : PyVal :=
  PDict [ ("id", PInt 1);
          ("content", PStr query);
          ("type", PStr "简单问题");
          ("dependencies", PList []) ].

(** [SimpleQuestionDecomposeAgent.process] (its progress messages on standard
    output are not part of the returned value and are left out). *)
Definition SimpleQuestionDecomposeAgent_process (query : string) : outcome dict :=
  complexity_result_str <- ComplexityCheckTool_run query ;;
  complexity_result <-
    except_JSONDecodeError
      (json_loads complexity_result_str)
      (Ok (PDict [ ("is_complex", PBool false);
                   ("reason", PStr "解析失败");
                   ("indicators", PList []) ])) ;;
  is_complex <- py_get complexity_result "is_complex" (PBool false) ;;
  sub_problems <-
    (if truthy is_complex then
       decompose_result_str <- ProblemDecomposeTool_run query ;;
       except_JSONDecodeError
         (decompose_result <- json_loads decompose_result_str ;;
          py_get decompose_result "sub_problems" (PList []))
         (Ok (PList [original_question_sub_problem query]))
     else
       Ok (PList [simple_sub_problem query])) ;;
  reason <- py_get complexity_result "reason" (PStr EmptyString) ;;
  indicators <- py_get complexity_result "indicators" (PList []) ;;
  Ok [ ("original_query", PStr query);
       ("is_complex", is_complex);
       ("sub_problems", sub_problems);
       ("complexity_analysis",
        PDict [ ("reason", reason); ("indicators", indicators) ]) ].

End Agent.

(** ** A reference JSON codec

    An executable stand-in for [json.loads] and [json.dumps] on the fragment
    without fractional or exponent number literals and without surrogate
    escapes, used to run the agents on concrete transcripts.  It has the two
    limits of CPython 3.11 that make [json.loads] fail with an exception
    other than [JSONDecodeError]: the recursion limit, reached by deeply
    nested arrays and objects, and the limit on the digits of an integer
    literal. *)

Module RefJSON.

Definition is_char (c : ascii) (s : string) : bool :=
  String.eqb (String c EmptyString) s.

Definition json_ws (c : ascii) : bool :=
  let n := nat_of_ascii c in
  ((n =? 32) || (n =? 9) || (n =? 10) || (n =? 13))%nat.

Fixpoint skip_ws (s : string) : string :=
  match s with
  | String c r => if json_ws c then skip_ws r else s
  | EmptyString => s
  end.

Definition is_digit (c : ascii) : bool :=
  let n := nat_of_ascii c in ((48 <=? n) && (n <=? 57))%nat.

Definition hex_value (c : ascii) : option Z :=
  let n := Z.of_nat (nat_of_ascii c) in
  if (48 <=? n) && (n <=? 57) then Some (n - 48)
  else if (97 <=? n) && (n <=? 102) then Some (n - 87)
  else if (65 <=? n) && (n <=? 70) then Some (n - 55)
  else None.

Definition unsupported (what : string) : exn :=
  OtherException "NotImplementedError" what.

(** UTF-8 bytes of a code point of the basic plane. *)
Definition utf8 (n : Z) : outcome string :=
  let chr k := String (ascii_of_nat (Z.to_nat k)) EmptyString in
  if n <? 128 then Ok (chr n)
  else if n <? 2048 then
    Ok (chr (192 + n / 64) ++ chr (128 + n mod 64))
  else if (55296 <=? n) && (n <=? 57343) then
    Raise (unsupported "surrogate escape")
  else
    Ok (chr (224 + n / 4096) ++ chr (128 + (n / 64) mod 64) ++ chr (128 + n mod 64)).

Definition bad (msg : string) {A : Type} : outcome A := Raise (JSONDecodeError msg).

(** The body of a string literal, after its opening quote. *)
Fixpoint scan_string (s : string) : outcome (string * string) :=
  match s with
  | EmptyString => bad "Unterminated string starting at"
  | String c r =>
      if is_char c dq then Ok (EmptyString, r)
      else if is_char c "\" then
        match r with
        | EmptyString => bad "Unterminated string starting at"
        | String e r' =>
            let simple (x : nat) :=
              p <- scan_string r' ;;
              Ok (String (ascii_of_nat x) (fst p), snd p) in
            if is_char e dq then simple 34%nat
            else if is_char e "\" then simple 92%nat
            else if is_char e "/" then simple 47%nat
            else if is_char e "b" then simple 8%nat
            else if is_char e "f" then simple 12%nat
            else if is_char e "n" then simple 10%nat
            else if is_char e "r" then simple 13%nat
            else if is_char e "t" then simple 9%nat
            else if is_char e "u" then
              match r' with
              | String h1 (String h2 (String h3 (String h4 r''))) =>
                  match hex_value h1, hex_value h2, hex_value h3, hex_value h4 with
                  | Some a, Some b, Some c', Some d =>
                      bytes <- utf8 (((a * 16 + b) * 16 + c') * 16 + d) ;;
                      p <- scan_string r'' ;;
                      Ok (bytes ++ fst p, snd p)
                  | _, _, _, _ => bad "Invalid \uXXXX escape"
                  end
              | _ => bad "Invalid \uXXXX escape"
              end
            else bad "Invalid \escape"
        end
      else if (nat_of_ascii c <? 32)%nat then bad "Invalid control character at"
      else
        p <- scan_string r ;;
        Ok (String c (fst p), snd p)
  end.

Fixpoint span_digits (s : string) : string * string :=
  match s with
  | String c r =>
      if is_digit c then let p := span_digits r in (String c (fst p), snd p)
      else (EmptyString, s)
  | EmptyString => (EmptyString, s)
  end.

Fixpoint digits_value (acc : Z) (s : string) : Z :=
  match s with
  | String c r => digits_value (10 * acc + Z.of_nat (nat_of_ascii c - 48)) r
  | EmptyString => acc
  end.

(** Whether a fraction ([.] and a digit) or an exponent ([e] or [E], an
    optional sign, and a digit) starts here. *)
Definition float_tail (s : string) : bool :=
  match s with
  | String c (String d r) =>
      (is_char c "." && is_digit d)
      || ((is_char c "e" || is_char c "E")
          && (is_digit d
              || ((is_char d "+" || is_char d "-")
                  && match r with String d' _ => is_digit d' | EmptyString => false end)))
  | _ => false
  end.

(** [sys.int_info.default_max_str_digits]: [int] refuses a longer decimal
    text with a plain [ValueError]. *)
Definition max_str_digits : nat := 4300.

Definition too_many_digits (digits : string) : exn :=
  OtherException "ValueError"
    ("Exceeds the limit (4300 digits) for integer string conversion: value has "
     ++ DecimalString.NilZero.string_of_uint (Nat.to_uint (String.length digits))
     ++ " digits; use sys.set_int_max_str_digits() to increase the limit").

(** An integer literal: an optional minus sign, then a lone zero or a run of
    digits that does not start with one; a literal that goes on with a
    fraction or an exponent is outside the fragment. *)
Definition scan_number (s : string) : outcome (PyVal * string) :=
  let negative := String.prefix "-" s in
  let body := if negative then String.substring 1 (String.length s - 1) s else s in
  let p := if String.prefix "0" body
           then ("0", String.substring 1 (String.length body - 1) body)
           else span_digits body in
  match fst p with
  | EmptyString => bad "Expecting value"
  | digits =>
      if float_tail (snd p)
      then Raise (unsupported "float literal")
      else if (max_str_digits <? String.length digits)%nat
      then Raise (too_many_digits digits)
      else let n := digits_value 0 digits in
           Ok (PInt (if negative then - n else n), snd p)
  end.

Definition drop (n : nat) (s : string) : string :=
  String.substring n (String.length s - n) s.

Definition too_deep {A : Type} : outcome A :=
  Raise (OtherException "RecursionError" "maximum recursion depth exceeded").

(** The scanner enters a recursive call for every array and object; with the
    default recursion limit of 1000 and at least one frame of the caller on
    the stack, no more than 999 can be open at once.  (The interpreter's own
    frames use part of the limit, so it gives up a few levels earlier; from
    1000 levels on it always does.) *)
Definition recursion_budget : nat := 999.

Definition recursion_error (what : string) {A : Type} : outcome A :=
  Raise (OtherException "RecursionError"
           ("maximum recursion depth exceeded while decoding a JSON " ++ what
            ++ " from a unicode string")).

(** [fuel] bounds the steps of the scan, [depth] the arrays and objects that
    may still be opened. *)
Fixpoint scan_value (fuel depth : nat) (s : string) : outcome (PyVal * string) :=
  match fuel with
  | O => too_deep
  | S fuel' =>
      match s with
      | EmptyString => bad "Expecting value"
      | String c r =>
          if is_char c dq then
            p <- scan_string r ;; Ok (PStr (fst p), snd p)
          else if is_char c "{" then
            match depth with
            | O => recursion_error "object"
            | S depth' =>
                match skip_ws r with
                | String c' r' =>
                    if is_char c' "}" then Ok (PDict [], r')
                    else
                      p <- scan_members fuel' depth' [] (skip_ws r) ;;
                      Ok (PDict (fst p), snd p)
                | EmptyString =>
                    bad "Expecting property name enclosed in double quotes"
                end
            end
          else if is_char c "[" then
            match depth with
            | O => recursion_error "array"
            | S depth' =>
                match skip_ws r with
                | String c' r' =>
                    if is_char c' "]" then Ok (PList [], r')
                    else
                      p <- scan_elements fuel' depth' [] (skip_ws r) ;;
                      Ok (PList (fst p), snd p)
                | EmptyString => bad "Expecting value"
                end
            end
          else if String.prefix "null" s then Ok (PNone, drop 4 s)
          else if String.prefix "true" s then Ok (PBool true, drop 4 s)
          else if String.prefix "false" s then Ok (PBool false, drop 5 s)
          else if String.prefix "NaN" s then Ok (PFloat "NaN", drop 3 s)
          else if String.prefix "Infinity" s then Ok (PFloat "Infinity", drop 8 s)
          else if String.prefix "-Infinity" s then Ok (PFloat "-Infinity", drop 9 s)
          else scan_number s
      end
  end

with scan_members (fuel depth : nat) (acc : dict) (s : string)
  : outcome (dict * string) :=
  match fuel with
  | O => too_deep
  | S fuel' =>
      match s with
      | String c r =>
          if is_char c dq then
            key <- scan_string r ;;
            match skip_ws (snd key) with
            | String c2 r2 =>
                if is_char c2 ":" then
                  v <- scan_value fuel' depth (skip_ws r2) ;;
                  let acc' := dict_set acc (fst key) (fst v) in
                  match skip_ws (snd v) with
                  | String c3 r3 =>
                      if is_char c3 "}" then Ok (acc', r3)
                      else if is_char c3 "," then scan_members fuel' depth acc' (skip_ws r3)
                      else bad "Expecting ',' delimiter"
                  | EmptyString => bad "Expecting ',' delimiter"
                  end
                else bad "Expecting ':' delimiter"
            | EmptyString => bad "Expecting ':' delimiter"
            end
          else bad "Expecting property name enclosed in double quotes"
      | EmptyString => bad "Expecting property name enclosed in double quotes"
      end
  end

with scan_elements (fuel depth : nat) (acc : list PyVal) (s : string)
  : outcome (list PyVal * string) :=
  match fuel with
  | O => too_deep
  | S fuel' =>
      v <- scan_value fuel' depth s ;;
      let acc' := (acc ++ [fst v])%list in
      match skip_ws (snd v) with
      | String c r =>
          if is_char c "]" then Ok (acc', r)
          else if is_char c "," then scan_elements fuel' depth acc' (skip_ws r)
          else bad "Expecting ',' delimiter"
      | EmptyString => bad "Expecting ',' delimiter"
      end
  end.

(** [json.loads(s)] *)
Definition loads (s : string) : outcome PyVal :=
  p <- scan_value (2 * String.length s + 2) recursion_budget (skip_ws s) ;;
  match skip_ws (snd p) with
  | EmptyString => Ok (fst p)
  | _ => bad "Extra data"
  end.

Definition hex_digit (n : nat) : ascii :=
  if (n <? 10)%nat then ascii_of_nat (48 + n)%nat else ascii_of_nat (87 + n)%nat.

Definition escape_char (c : ascii) : string :=
  let n := nat_of_ascii c in
  if is_char c dq then "\" ++ dq
  else if is_char c "\" then "\\"
  else if (n =? 10)%nat then "\n"
  else if (n =? 13)%nat then "\r"
  else if (n =? 9)%nat then "\t"
  else if (n =? 8)%nat then "\b"
  else if (n =? 12)%nat then "\f"
  else if (n <? 32)%nat then
    "\u00" ++ String (hex_digit (n / 16)%nat) (String (hex_digit (n mod 16)%nat) EmptyString)
  else String c EmptyString.

Fixpoint escape (s : string) : string :=
  match s with
  | EmptyString => EmptyString
  | String c r => escape_char c ++ escape r
  end.

Definition quoted (s : string) : string := dq ++ escape s ++ dq.

Fixpoint spaces (n : nat) : string :=
  match n with
  | O => EmptyString
  | S k => String " " (spaces k)
  end.

Definition break (level : nat) : string :=
  String (ascii_of_nat 10) (spaces (2 * level)).

Definition int_text (z : Z) : string :=
  DecimalString.NilZero.string_of_int (Z.to_int z).

(** The text of [v] at nesting depth [level], with [indent=2]. *)
Fixpoint dumps_at (level : nat) (v : PyVal) {struct v} : string :=
  match v with
  | PNone => "null"
  | PBool true => "true"
  | PBool false => "false"
  | PInt z => int_text z
  | PFloat r => r
  | PStr s => quoted s
  | PList [] => "[]"
  | PList (x :: xs) =>
      "[" ++ break (S level) ++ dumps_at (S level) x
      ++ (fix items (l : list PyVal) : string :=
            match l with
            | [] => EmptyString
            | y :: ys => "," ++ break (S level) ++ dumps_at (S level) y ++ items ys
            end) xs
      ++ break level ++ "]"
  | PDict [] => "{}"
  | PDict ((k, x) :: xs) =>
      "{" ++ break (S level) ++ quoted k ++ ": " ++ dumps_at (S level) x
      ++ (fix items (l : list (string * PyVal)) : string :=
            match l with
            | [] => EmptyString
            | (k', y) :: ys =>
                "," ++ break (S level) ++ quoted k' ++ ": "
                ++ dumps_at (S level) y ++ items ys
            end) xs
      ++ break level ++ "}"
  end.

(** [json.dumps(v, ensure_ascii=False, indent=2)] *)
Definition dumps (v : PyVal) : string := dumps_at 0 v.

End RefJSON.

(** * Specification vocabulary *)

(** Membership of a byte in a text, for stating where braces may stand. *)
Fixpoint has_char (c : ascii) (s : string) : bool :=
  match s with
  | EmptyString => false
  | String c' r => Ascii.eqb c c' || has_char c r
  end.

(** A text without braces, and a byte that is not a brace. *)
Definition no_brace (s : string) : Prop :=
  has_char "{" s = false /\ has_char "}" s = false.

Definition plain (c : ascii) : Prop :=
  Ascii.eqb "{" c = false /\ Ascii.eqb "}" c = false.

(** ** Where the JSON is looked for *)

(** The region of the model's text that is searched, in the specification's
    words: what follows the first occurrence of the marker, or the whole text
    when the marker does not occur. *)
Inductive searched_region : string -> string -> Prop :=
| after_first_marker (a b : string) :
    (forall a' b', a ++ final_answer_marker ++ b = a' ++ final_answer_marker ++ b' ->
                   (String.length a <= String.length a')%nat) ->
    searched_region (a ++ final_answer_marker ++ b) b
| whole_text (text : string) :
    (forall a b, text <> a ++ final_answer_marker ++ b) ->
    searched_region text text.

(** Whether an exception is the one class the code catches by name. *)
Definition is_decode_error (e : exn) : bool :=
  match e with JSONDecodeError _ => true | _ => false end.

(** Extraction fails entirely: no brace span is found (no opening brace, or
    no closing brace after the first opening one), or [json.loads] rejects
    the span as malformed, with a [JSONDecodeError]. *)
Inductive extraction_fails (json_loads : string -> outcome PyVal)
  : string -> Prop :=
| no_opening_brace (region : string) :
    has_char "{" region = false ->
    extraction_fails json_loads region
| no_closing_brace (pre rest : string) :
    has_char "{" pre = false -> has_char "}" rest = false ->
    extraction_fails json_loads (pre ++ "{" ++ rest)
| span_not_json (pre mid post msg : string) :
    has_char "{" pre = false -> has_char "}" post = false ->
    json_loads ("{" ++ mid ++ "}") = Raise (JSONDecodeError msg) ->
    extraction_fails json_loads (pre ++ "{" ++ mid ++ "}" ++ post).

(** ** The canonical schema, in the specification's words *)

Definition is_str (v : PyVal) : bool :=
  match v with PStr _ => true | _ => false end.

Definition is_list (v : PyVal) : bool :=
  match v with PList _ => true | _ => false end.

Definition tri_state (v : PyVal) : bool :=
  match v with PBool _ | PNone => true | _ => false end.

(** [original_query] a string, [is_complex] true, false or null,
    [sub_problems] a sequence, [complexity_analysis] an object with a string
    [reason] and a sequence [indicators]; [error], when present, a string. *)
Definition canonical_schema (d : dict) : bool :=
  match dict_lookup d "original_query", dict_lookup d "is_complex",
        dict_lookup d "sub_problems", dict_lookup d "complexity_analysis" with
  | Some q, Some c, Some s, Some (PDict a) =>
      is_str q && tri_state c && is_list s
      && match dict_lookup a "reason", dict_lookup a "indicators" with
         | Some r, Some i => is_str r && is_list i
         | _, _ => false
         end
      && match dict_lookup d "error" with
         | Some e => is_str e
         | None => true
         end
  | _, _, _, _ => false
  end.

(** ** Scripted collaborators, for running the agents *)

(** An agent graph whose run ends with one message carrying [text]. *)
Definition agent_saying (text : string)
  : temperature -> list Tool -> string -> string -> outcome InvokeResult :=
  fun _ _ _ _ => Ok (ResDict None (Some [MsgObject (Some (PStr text))])).

(** An agent graph whose run raises. *)
Definition agent_raising (e : exn)
  : temperature -> list Tool -> string -> string -> outcome InvokeResult :=
  fun _ _ _ _ => Raise e.

(** A model that answers the classification prompt (sent at temperature 0.3)
    with [classification] and the decomposition prompt (at 0.5) with
    [decomposition]. *)
Definition llm_scripted (classification decomposition : outcome string)
  : temperature -> string -> outcome string :=
  fun temp _ => if Qeq_bool temp temp_0_3 then classification else decomposition.

Definition transport_error : exn :=
  OtherException "TransportError" "connection refused".

(** The specification's prose-then-object response. *)
Definition prose_then_object : string :=
  "I think this is simple: {" ++ dq ++ "is_complex" ++ dq ++ ": false, "
  ++ dq ++ "reason" ++ dq ++ ": " ++ dq ++ "ok" ++ dq ++ "}".

(** A final answer laid out as the system prompt lists its fields, with the
    reason and the indicators inside [complexity_analysis]. *)
Definition prompted_layout : dict :=
  [ ("original_query", PStr "帮我找北京的酒店和机票");
    ("is_complex", PBool true);
    ("sub_problems",
     PList [ PDict [ ("id", PInt 1); ("content", PStr "找北京的酒店");
                     ("type", PStr "信息查询"); ("dependencies", PList []) ];
             PDict [ ("id", PInt 2); ("content", PStr "找去北京的机票");
                     ("type", PStr "信息查询"); ("dependencies", PList []) ] ]);
    ("complexity_analysis",
     PDict [ ("reason", PStr "包含多个子意图");
             ("indicators", PList [PStr "多子意图"]) ]) ].

(** A classification response that parses: a simple verdict. *)
Definition short_simple_verdict : string :=
  "{" ++ dq ++ "is_complex" ++ dq ++ ": false, "
  ++ dq ++ "reason" ++ dq ++ ": " ++ dq ++ "ok" ++ dq ++ "}".

(** A transcript that shows the marker twice. *)
Definition marker_twice : string :=
  "Thought: done. Final Answer: {" ++ dq ++ "is_complex" ++ dq ++ ": true}"
  ++ " and again Final Answer: {" ++ dq ++ "is_complex" ++ dq ++ ": false} bye".

(** * batch_test.py *)

(** ** More of Python's builtins *)

(** A continuation byte of a UTF-8 sequence. *)
Definition continuation (c : ascii) : bool :=
  let n := nat_of_ascii c in ((128 <=? n) && (n <=? 191))%nat.

(** The characters of a text: each leading byte with the continuation bytes
    that follow it. *)
Fixpoint characters (s : string) : list string :=
  match s with
  | EmptyString => []
  | String c r =>
      match r with
      | EmptyString => [String c EmptyString]
      | String c' _ =>
          if continuation c'
          then match characters r with
               | x :: xs => String c x :: xs
               | [] => [String c EmptyString]
               end
          else String c EmptyString :: characters r
      end
  end.

(** The text items of a sequence, or the complaint about the first item that
    is not text. *)
Fixpoint text_items (i : nat) (l : list PyVal) : outcome (list string) :=
  match l with
  | [] => Ok []
  | PStr s :: r => rest <- text_items (S i) r ;; Ok (s :: rest)
  | v :: _ =>
      Raise (TypeError ("sequence item " ++ RefJSON.int_text (Z.of_nat i)
                        ++ ": expected str instance, " ++ type_name v ++ " found"))
  end.

(** The keys of a dictionary, each once, in insertion order. *)
Fixpoint dict_keys (d : dict) : list string :=
  match d with
  | [] => []
  | (k, _) :: r =>
      k :: filter (fun k' => negb (String.eqb k k')) (dict_keys r)
  end.

(** [sep.join(v)]: a text is joined character by character, a dictionary by
    its keys. *)
Definition py_join (sep : string) (v : PyVal) : outcome string :=
  match v with
  | PStr s => Ok (join sep (characters s))
  | PList l => items <- text_items 0 l ;; Ok (join sep items)
  | PDict d => Ok (join sep (dict_keys d))
  | _ => Raise (TypeError "can only join an iterable")
  end.

(** Whether [v[:50]] can be taken (the slice itself is only printed).  A
    dictionary refuses a slice as a key: with a [TypeError] up to CPython
    3.11, with a [KeyError] from 3.12 on. *)
Definition py_head_slice (v : PyVal) : outcome unit :=
  match v with
  | PStr _ | PList _ => Ok tt
  | PDict _ => Raise (TypeError "unhashable type: 'slice'")
  | _ => Raise (TypeError ("'" ++ type_name v ++ "' object is not subscriptable"))
  end.

(** ** [run_batch_test] *)

(** A test case as [load_test_cases] builds it. *)
Record TestCase : Type :=
  mkTestCase { question : string; is_complexity : Z; human_eval : Z }.

(** The record appended from [except Exception as e]. *)
Definition batch_error_record (test_case : TestCase) (e : exn) : dict :=
  [ ("question", PStr (question test_case));
    ("expected", PInt (human_eval test_case));
    ("predicted", PNone);
    ("is_correct", PBool false);
    ("error", PStr (exn_str e)) ].

(** Lines 78-85 of [run_batch_test]: the reason and the indicators read from
    the agent's result. *)
Definition batch_analysis (agent_result : dict) : outcome (PyVal * PyVal) :=
  if dict_contains agent_result "complexity_analysis" then
    let analysis := dict_get agent_result "complexity_analysis" PNone in
    reason <- py_get analysis "reason" (PStr EmptyString) ;;
    indicators <- py_get analysis "indicators" (PList []) ;;
    Ok (reason, indicators)
  else Ok (PStr EmptyString, PList []).

Section Batch.

(** The delay is a Python float, which the loop only hands to [time.sleep];
    the library call returns, or raises ([ValueError] for a negative delay
    and for NaN, [OverflowError] for one too large for the clock). *)
Variable float : Type.
Variable time_sleep : float -> outcome unit.

(** One turn of the loop of [run_batch_test], on the list of records and the
    count of correct predictions: test case number [i] of [total_count].
    The count is raised before the record is built, and the record is
    appended before the reason is printed and the delay is slept; an
    exception after either step is answered by appending the error record.
    What the loop prints is left out. *)
Definition batch_step (agent_process : string -> outcome dict) (delay : float)
  (total_count i : nat) (state : list dict * nat) (test_case : TestCase)
  : list dict * nat :=
  let (results, correct_count) := state in
  let failed (e : exn) (results : list dict) (correct_count : nat) :=
    ((results ++ [batch_error_record test_case e])%list, correct_count) in
  let expected := human_eval test_case in
  match agent_process (question test_case) with
  | Raise e => failed e results correct_count
  | Ok agent_result =>
      let is_complex := dict_get agent_result "is_complex" (PBool false) in
      match batch_analysis agent_result with
      | Raise e => failed e results correct_count
      | Ok (reason, indicators) =>
          let predicted := if truthy is_complex then 1 else 0 in
          let is_correct := predicted =? expected in
          let correct_count :=
            if is_correct then S correct_count else correct_count in
          match (if truthy indicators then py_join "," indicators
                 else Ok EmptyString) with
          | Raise e => failed e results correct_count
          | Ok joined =>
              let result_record :=
                [ ("question", PStr (question test_case));
                  ("expected", PInt expected);
                  ("predicted", PInt predicted);
                  ("is_correct", PBool is_correct);
                  ("is_complex", is_complex);
                  ("reason", reason);
                  ("indicators", PStr joined) ] in
              let results := (results ++ [result_record])%list in
              match (_ <- (if truthy reason then py_head_slice reason else Ok tt) ;;
                     if (i <? total_count)%nat then time_sleep delay else Ok tt) with
              | Raise e => failed e results correct_count
              | Ok _ => (results, correct_count)
              end
          end
      end
  end.

(** The loop over the test cases, counted from [i]. *)
Fixpoint batch_loop (agent_process : string -> outcome dict) (delay : float)
  (total_count i : nat) (state : list dict * nat) (test_cases : list TestCase)
  : list dict * nat :=
  match test_cases with
  | [] => state
  | test_case :: rest =>
      batch_loop agent_process delay total_count (S i)
        (batch_step agent_process delay total_count i state test_case) rest
  end.

(** The accuracy: the quotient of the two counts, which Python rounds to a
    float, and 0 for an empty batch. *)
Definition batch_accuracy (correct_count total_count : nat) : Q :=
  if (0 <? total_count)%nat
  then (Z.of_nat correct_count # Pos.of_nat total_count)%Q
  else 0%Q.

(** [run_batch_test]: the records and the accuracy, for the ReAct agent at
    temperature 0.3. *)
Definition run_batch_test
  (json_loads : string -> outcome PyVal)
  (create_agent : temperature -> list Tool -> string -> string -> outcome InvokeResult)
  (test_cases : list TestCase) (delay : float) : list dict * Q :=
  let agent_process := ReActAgent_process json_loads create_agent temp_0_3 in
  let total_count := List.length test_cases in
  let (results, correct_count) :=
    batch_loop agent_process delay total_count 1 ([], O) test_cases in
  (results, batch_accuracy correct_count total_count).

End Batch.

Arguments batch_step {float} time_sleep agent_process delay total_count i state test_case.
Arguments batch_loop {float} time_sleep agent_process delay total_count i state test_cases.
Arguments run_batch_test {float} time_sleep json_loads create_agent test_cases delay.

(** A clock for running the loop: it sleeps for up to a second, refuses a
    negative delay of up to a second as [time.sleep] does, and covers no
    other delay. *)
Definition sleep_up_to_a_second (delay : Q) : outcome unit :=
  if Qle_bool 0 delay && Qle_bool delay 1 then Ok tt
  else if Qle_bool (-1) delay && negb (Qle_bool 0 delay)
  then Raise (OtherException "ValueError" "sleep length must be non-negative")
  else Raise (RefJSON.unsupported "time.sleep outside [-1, 1]").

(** The loop sleeps only between two test cases: with fewer than two the
    sleep is not reached, and with two or more it returns. *)
Definition sleep_returns {float : Type} (time_sleep : float -> outcome unit)
  (delay : float) (total_count : nat) : Prop :=
  (2 <= total_count)%nat -> time_sleep delay = Ok tt.

(** A record of a test case whose agent result was turned into a record:
    the seven fields of lines 96-104, with the reason as it was read. *)
Definition result_record (test_case : TestCase) (record : dict) (reason : PyVal)
  : Prop :=
  exists (is_complex : PyVal) (joined : string),
    let predicted := if truthy is_complex then 1 else 0 in
    record = [ ("question", PStr (question test_case));
               ("expected", PInt (human_eval test_case));
               ("predicted", PInt predicted);
               ("is_correct", PBool (predicted =? human_eval test_case));
               ("is_complex", is_complex);
               ("reason", reason);
               ("indicators", PStr joined) ].

(** The records one test case leaves in the results. *)
Inductive records_of {float : Type} (time_sleep : float -> outcome unit)
  (delay : float) (test_case : TestCase) : list dict -> Prop :=
| error_record_alone (e : exn) :
    records_of time_sleep delay test_case [batch_error_record test_case e]
| result_record_alone (record : dict) (reason : PyVal) :
    result_record test_case record reason ->
    records_of time_sleep delay test_case [record]
| result_then_error_record (record : dict) (reason : PyVal) (e : exn) :
    result_record test_case record reason ->
    (truthy reason = true /\ py_head_slice reason = Raise e)
    \/ time_sleep delay = Raise e ->
    records_of time_sleep delay test_case [record; batch_error_record test_case e].

(** The records flagged as correct. *)
Definition flagged_correct (results : list dict) : nat :=
  List.length
    (filter (fun r => match dict_lookup r "is_correct" with
                      | Some (PBool true) => true
                      | _ => false
                      end) results).

(** The test cases labelled as simple. *)
Definition labelled_simple (test_cases : list TestCase) : nat :=
  List.length (filter (fun tc => human_eval tc =? 0) test_cases).

(** ** [load_test_cases] *)

(** The byte order mark, U+FEFF, in UTF-8. *)
Definition bom (a b c : ascii) : bool :=
  ((nat_of_ascii a =? 239) && (nat_of_ascii b =? 187) && (nat_of_ascii c =? 191))%nat.

(** [s.replace(mark, '')], for the byte order mark. *)
Fixpoint remove_bom (s : string) : string :=
  match s with
  | EmptyString => EmptyString
  | String a r =>
      match r with
      | String b (String c r') =>
          if bom a b c then remove_bom r' else String a (remove_bom r)
      | _ => String a (remove_bom r)
      end
  end.

(** The cleaning of a column name on line 31: [strip], then the removal of
    byte order marks. *)
Definition clean_key (k : string) : string := remove_bom (PyStr.strip k).

(** A row as [csv.DictReader] yields it for a rectangular file: each field
    name of the header with the text of its cell. *)
Definition csv_row : Type := list (string * string).

(** The dictionary comprehension of line 31: a later column with the same
    cleaned name overwrites an earlier one. *)
Definition clean_row (row : csv_row) : dict :=
  fold_left (fun d kv => dict_set d (clean_key (fst kv)) (PStr (snd kv))) row [].

Section Loader.

(** [int] on a text: [None] stands for its [ValueError]. *)
Variable py_int : string -> option Z.

(** [int(row_cleaned.get(column, 0))] *)
Definition label (row_cleaned : dict) (column : string) : outcome Z :=
  match dict_get row_cleaned column (PInt 0) with
  | PStr text =>
      match py_int text with
      | Some z => Ok z
      | None => Raise (OtherException "ValueError"
                         "invalid literal for int() with base 10")
      end
  | PInt z => Ok z
  | other => Raise (TypeError ("int() argument must be a string, a bytes-like "
                               ++ "object or a real number, not '"
                               ++ type_name other ++ "'"))
  end.

(** [except (KeyError, ValueError)]: [json.JSONDecodeError] is a
    [ValueError] too. *)
Definition key_or_value_error (e : exn) : bool :=
  match e with
  | JSONDecodeError _ => true
  | OtherException cls _ => String.eqb cls "ValueError" || String.eqb cls "KeyError"
  | _ => false
  end.

(** The body of the loop of [load_test_cases]: the test cases with the row's
    one appended, or unchanged when a label is not a number. *)
Definition load_row (test_cases : list TestCase) (row : csv_row)
  : outcome (list TestCase) :=
  let row_cleaned := clean_row row in
  let appended :=
    let question :=
      match dict_get row_cleaned "question" (PStr EmptyString) with
      | PStr text => text
      | _ => EmptyString
      end in
    is_complexity <- label row_cleaned "is_complexity" ;;
    human_eval <- label row_cleaned "hunman_eval" ;;
    Ok (test_cases ++ [mkTestCase question is_complexity human_eval])%list in
  match appended with
  | Raise e => if key_or_value_error e then Ok test_cases else Raise e
  | done => done
  end.

(** [load_test_cases], on the rows read from the file. *)
Fixpoint load_rows (test_cases : list TestCase) (rows : list csv_row)
  : outcome (list TestCase) :=
  match rows with
  | [] => Ok test_cases
  | row :: rest =>
      test_cases <- load_row test_cases row ;;
      load_rows test_cases rest
  end.

Definition load_test_cases (rows : list csv_row) : outcome (list TestCase) :=
  load_rows [] rows.

End Loader.

(** The text of the last column of a row whose cleaned name is [name]. *)
Fixpoint column (name : string) (row : csv_row) : option string :=
  match row with
  | [] => None
  | (k, v) :: rest =>
      match column name rest with
      | Some later => Some later
      | None => if String.eqb name (clean_key k) then Some v else None
      end
  end.

(** A label read from a column: 0 when the column is missing. *)
Definition column_label (py_int : string -> option Z) (name : string)
  (row : csv_row) : option Z :=
  match column name row with
  | Some text => py_int text
  | None => Some 0
  end.

(** The test case of a row, when both of its labels are numbers. *)
Definition test_case_of (py_int : string -> option Z) (row : csv_row)
  : list TestCase :=
  match column_label py_int "is_complexity" row,
        column_label py_int "hunman_eval" row with
  | Some a, Some b =>
      [ mkTestCase (match column "question" row with
                    | Some text => text
                    | None => EmptyString
                    end) a b ]
  | _, _ => []
  end.

(** A reading of decimal digits, to run the loader. *)
Definition digits_only (text : string) : option Z :=
  match RefJSON.span_digits text with
  | (String c r, EmptyString) => Some (RefJSON.digits_value 0 (String c r))
  | _ => None
  end.

(** The record of a test case whose analysis came back without a verdict:
    predicted simple, and correct when labelled simple. *)
Definition unscored_record (test_case : TestCase) : dict :=
  [ ("question", PStr (question test_case));
    ("expected", PInt (human_eval test_case));
    ("predicted", PInt 0);
    ("is_correct", PBool (0 =? human_eval test_case));
    ("is_complex", PNone);
    ("reason", PStr EmptyString);
    ("indicators", PStr EmptyString) ].

(** A single test case, labelled simple. *)
Definition weekday_case : TestCase := mkTestCase "今天星期几？" 0 0.

(** A simple verdict whose indicators are not text. *)
Definition verdict_with_numeric_indicator : string :=
  "{" ++ dq ++ "is_complex" ++ dq ++ ": false, "
  ++ dq ++ "indicators" ++ dq ++ ": [1]}".

(** A simple verdict whose reason is a number. *)
Definition verdict_with_numeric_reason : string :=
  "{" ++ dq ++ "is_complex" ++ dq ++ ": false, "
  ++ dq ++ "reason" ++ dq ++ ": 7}".

(** * main.py and the factory of agent.py *)

(** ** Printing code *)

(** A computation that prints: what it wrote to standard output, and how it
    ended.  What is printed before an exception stays printed. *)
Definition printing (A : Type) : Type := (list string * outcome A)%type.

Definition say (text : string) : printing unit := ([text], Ok tt).

Definition lift {A : Type} (m : outcome A) : printing A := ([], m).

Definition then_ {A B : Type} (m : printing A) (k : A -> printing B) : printing B :=
  match snd m with
  | Ok a => ((fst m ++ fst (k a))%list, snd (k a))
  | Raise e => (fst m, Raise e)
  end.

Declare Scope printing_scope.
Delimit Scope printing_scope with printing.
Notation "x <- m ;; k" := (then_ m (fun x => k))
  (at level 61, m at next level, right associativity) : printing_scope.
Notation "m ;; k" := (then_ m (fun _ => k))
  (at level 61, right associativity) : printing_scope.

(** [for i, x in enumerate(items, i): body i x] *)
Fixpoint for_each {A : Type} (body : nat -> A -> printing unit) (i : nat)
  (items : list A) : printing unit :=
  match items with
  | [] => ([], Ok tt)
  | x :: rest => then_ (body i x) (fun _ => for_each body (S i) rest)
  end.

(** [c * n] *)
Fixpoint rule (c : ascii) (n : nat) : string :=
  match n with
  | O => EmptyString
  | S k => String c (rule c k)
  end.

(** [d[k]] *)
Definition py_item (d : dict) (k : string) : outcome PyVal :=
  match dict_lookup d k with
  | Some v => Ok v
  | None => Raise (OtherException "KeyError" ("'" ++ k ++ "'"))
  end.

(** [v[k]] on an arbitrary value, for a text key. *)
Definition py_subscript (v : PyVal) (k : string) : outcome PyVal :=
  match v with
  | PDict d => py_item d k
  | PStr _ => Raise (TypeError "string indices must be integers, not 'str'")
  | PList _ => Raise (TypeError "list indices must be integers or slices, not str")
  | _ => Raise (TypeError ("'" ++ type_name v ++ "' object is not subscriptable"))
  end.

(** [len(v)] *)
Definition py_len (v : PyVal) : outcome nat :=
  match v with
  | PStr s => Ok (List.length (characters s))
  | PList l => Ok (List.length l)
  | PDict d => Ok (List.length (dict_keys d))
  | _ => Raise (TypeError ("object of type '" ++ type_name v ++ "' has no len()"))
  end.

(** The items [enumerate(v, 1)] walks through. *)
Definition py_iter (v : PyVal) : outcome (list PyVal) :=
  match v with
  | PStr s => Ok (map PStr (characters s))
  | PList l => Ok l
  | PDict d => Ok (map PStr (dict_keys d))
  | _ => Raise (TypeError ("'" ++ type_name v ++ "' object is not iterable"))
  end.

Section FrontEnd.

Variable llm_invoke : temperature -> string -> outcome string.
Variable json_loads : string -> outcome PyVal.
Variable json_dumps : PyVal -> string.
Variable create_agent :
  temperature -> list Tool -> string -> string -> outcome InvokeResult.

(** [repr] of a list or a dictionary, as an f-string shows it. *)
Variable py_repr : PyVal -> string.

(** [str(v)], what an f-string puts for [v]. *)
Definition py_str (v : PyVal) : string :=
  match v with
  | PNone => "None"
  | PBool true => "True"
  | PBool false => "False"
  | PInt z => RefJSON.int_text z
  | PFloat r =>
      if String.eqb r "NaN" then "nan"
      else if String.eqb r "Infinity" then "inf"
      else if String.eqb r "-Infinity" then "-inf"
      else r
  | PStr s => s
  | PList _ | PDict _ => py_repr v
  end.

(** [create_agent(use_react)] of agent.py, as the [process] of the agent it
    builds. *)
Definition agent_create_agent (use_react : bool) : string -> outcome dict :=
  if use_react
  then ReActQuestionDecomposeAgent_process json_loads create_agent
  else SimpleQuestionDecomposeAgent_process llm_invoke json_loads json_dumps.

Open Scope printing_scope.

(** Lines 89-94 of [process_query]: the analysis, when the result has one. *)
Definition print_analysis (result : dict) : printing unit :=
  if truthy (dict_get result "complexity_analysis" PNone) then
    analysis <- lift (py_item result "complexity_analysis") ;;
    reason <- lift (py_get analysis "reason" PNone) ;;
    (if truthy reason then
       shown <- lift (py_subscript analysis "reason") ;;
       say ("判断理由: " ++ py_str shown)
     else lift (Ok tt)) ;;
    indicators <- lift (py_get analysis "indicators" PNone) ;;
    (if truthy indicators then
       shown <- lift (py_subscript analysis "indicators") ;;
       joined <- lift (py_join ", " shown) ;;
       say ("复杂特征: " ++ joined)
     else lift (Ok tt))
  else lift (Ok tt).

(** Lines 98-102 of [process_query]: one sub-problem of the summary. *)
Definition print_sub_problem (i : nat) (sp : PyVal) : printing unit :=
  content <- lift (py_get sp "content" (PStr EmptyString)) ;;
  say ("  " ++ RefJSON.int_text (Z.of_nat i) ++ ". " ++ py_str content) ;;
  kind <- lift (py_get sp "type" PNone) ;;
  (if truthy kind then
     shown <- lift (py_subscript sp "type") ;;
     say ("     类型: " ++ py_str shown)
   else lift (Ok tt)) ;;
  dependencies <- lift (py_get sp "dependencies" PNone) ;;
  (if truthy dependencies then
     shown <- lift (py_subscript sp "dependencies") ;;
     say ("     依赖: " ++ py_str shown)
   else lift (Ok tt)).

(** The [try] block of [process_query]. *)
Definition process_query_body (agent : string -> outcome dict) (query : string)
  : printing unit :=
  result <- lift (agent query) ;;
  say (newline ++ "【分析结果】") ;;
  say (rule "=" 60) ;;
  say (json_dumps (PDict result)) ;;
  say (rule "=" 60) ;;
  say (newline ++ "【摘要】") ;;
  original_query <- lift (py_item result "original_query") ;;
  say ("原始问题: " ++ py_str original_query) ;;
  is_complex <- lift (py_item result "is_complex") ;;
  say ("是否复杂: " ++ (if truthy is_complex then "是" else "否")) ;;
  print_analysis result ;;
  sub_problems <- lift (py_item result "sub_problems") ;;
  count <- lift (py_len sub_problems) ;;
  say (newline ++ "子问题数量: " ++ RefJSON.int_text (Z.of_nat count)) ;;
  items <- lift (py_iter sub_problems) ;;
  for_each print_sub_problem 1 items.

(** [process_query]: what it prints itself on standard output, in order (the
    traceback goes to standard error; an agent that prints does so after the
    first two lines). *)
Definition process_query (agent : string -> outcome dict) (query : string)
  : list string :=
  let body := process_query_body agent query in
  let complaint :=
    match snd body with
    | Ok _ => []
    | Raise e => [ "处理过程中出现错误: " ++ exn_str e ]
    end in
  List.app [ newline ++ "处理中..."; rule "-" 60 ] (List.app (fst body) complaint).

Close Scope printing_scope.

(** ** The interactive session *)

(** Whether a stripped line ends the session. *)
Definition quits (query : string) : bool :=
  let lowered := PyStr.lower query in
  String.eqb lowered "quit" || String.eqb lowered "exit" || String.eqb lowered "q".

Definition prompt : string := newline ++ "请输入问题: ".

(** The [while True] loop of [main], on the lines standard input still holds:
    what is printed (the prompts included), and how the loop ends.  Reading
    past the end of the input raises [EOFError]. *)
Fixpoint interactive_loop (agent : string -> outcome dict) (input : list string)
  : printing unit :=
  match input with
  | [] => ([prompt], Raise (OtherException "EOFError" "EOF when reading a line"))
  | line :: rest =>
      let query := PyStr.strip line in
      if quits query then ([prompt; "再见！"], Ok tt)
      else if String.eqb query EmptyString then
        let later := interactive_loop agent rest in
        ((prompt :: "请输入有效的问题" :: fst later)%list, snd later)
      else
        let later := interactive_loop agent rest in
        (prompt :: List.app (process_query agent query) (fst later), snd later)
  end.

(** The parsed command line. *)
Record Args : Type :=
  mkArgs { arg_query : option string; arg_react : bool; arg_interactive : bool }.

(** [main], after the command line is parsed. *)
Definition main (args : Args) (input : list string) : printing unit :=
  let agent := agent_create_agent (arg_react args) in
  let banner :=
    [ rule "=" 60;
      "问题分析与拆解智能体";
      "使用模式: " ++ (if arg_react args then "ReAct 框架" else "简化版");
      rule "=" 60 ] in
  let session :=
    let loop := interactive_loop agent input in
    (List.app banner
       (List.app [ newline ++ "进入交互模式，输入 'quit' 或 'exit' 退出"; rule "-" 60 ]
                 (fst loop)),
     snd loop) in
  match arg_query args with
  | Some query =>
      if arg_interactive args then session
      else (List.app banner (process_query agent query), Ok tt)
  | None => session
  end.

End FrontEnd.

(** What the session prints for one line that does not end it. *)
Definition session_turn (handle : string -> list string) (line : string)
  : list string :=
  let query := PyStr.strip line in
  if String.eqb query EmptyString then [prompt; "请输入有效的问题"]
  else prompt :: handle query.

(** ** Texts that reach the limits of [json.loads] *)

(** A thousand opening brackets, and an object holding them. *)
Definition deeply_nested : string := rule "[" 1000.

Definition deeply_nested_object : string :=
  "{" ++ dq ++ "a" ++ dq ++ ": " ++ deeply_nested ++ "}".

(** An integer literal of 4301 digits. *)
Definition long_integer : string := rule "1" 4301.

Definition recursion_error_array : exn :=
  OtherException "RecursionError"
    "maximum recursion depth exceeded while decoding a JSON array from a unicode string".

(** * Properties *)

(** ** The primitives on small inputs *)

Example find_first_brace : PyStr.find "ab{cd{" "{" = 2.
Proof. vm_compute. reflexivity. Qed.

Example rfind_last_brace : PyStr.rfind "ab}cd}e" "}" = 5.
Proof. vm_compute. reflexivity. Qed.

Example find_absent : PyStr.find "abc" "{" = -1.
Proof. vm_compute. reflexivity. Qed.

Example slice_negative_bound : PyStr.slice "hello world" (-5) 100 = "world".
Proof. vm_compute. reflexivity. Qed.

Example strip_ideographic_space : PyStr.strip "　
 {a} 　" = "{a}".
Proof. vm_compute. reflexivity. Qed.

Example lower_mixed_case : PyStr.lower "TrUe" = "true".
Proof. vm_compute. reflexivity. Qed.

Example json_span_is_greedy : json_span "a {b} c {d} e" = Some "{b} c {d}".
Proof. vm_compute. reflexivity. Qed.

Example json_span_reversed_braces : json_span "} then {" = None.
Proof. vm_compute. reflexivity. Qed.

Example loads_keeps_last_duplicate :
  RefJSON.loads ("{" ++ dq ++ "a" ++ dq ++ ": 1, " ++ dq ++ "b" ++ dq ++ ": [true, null], "
                 ++ dq ++ "a" ++ dq ++ ": -2}")
  = Ok (PDict [("a", PInt (-2)); ("b", PList [PBool true; PNone])]).
Proof. vm_compute. reflexivity. Qed.

Example loads_stops_after_integer :
  RefJSON.loads "1. hotels 2. flights" = Raise (JSONDecodeError "Extra data").
Proof. vm_compute. reflexivity. Qed.

Example loads_rejects_trailing_text :
  RefJSON.loads "{} and more" = Raise (JSONDecodeError "Extra data").
Proof. vm_compute. reflexivity. Qed.

Example loads_rejects_unclosed_brackets :
  RefJSON.loads "[[[[" = Raise (JSONDecodeError "Expecting value").
Proof. vm_compute. reflexivity. Qed.

Example loads_gives_up_on_deep_nesting :
  RefJSON.loads deeply_nested = Raise recursion_error_array
  /\ RefJSON.loads deeply_nested_object = Raise recursion_error_array.
Proof. split; vm_compute; reflexivity. Qed.

Example loads_refuses_long_integer :
  RefJSON.loads long_integer
  = Raise (OtherException "ValueError"
             ("Exceeds the limit (4300 digits) for integer string conversion: "
              ++ "value has 4301 digits; "
              ++ "use sys.set_int_max_str_digits() to increase the limit"))
  /\ RefJSON.loads (rule "1" 4300) = Ok (PInt ((10 ^ 4300 - 1) / 9)).
Proof. split; vm_compute; reflexivity. Qed.

Example dumps_then_loads_default_verdict :
  RefJSON.loads (RefJSON.dumps (complexity_parse_failure "not json"))
  = Ok (complexity_parse_failure "not json").
Proof. vm_compute. reflexivity. Qed.

Example system_prompt_lists_nested_analysis :
  PyStr.contains "complexity_analysis: 复杂度分析（reason 和 indicators）"
    (system_prompt_template EmptyString EmptyString) = true.
Proof. vm_compute. reflexivity. Qed.

(** The specification's scenario: prose, then an object, no marker. *)
Example prose_then_object_is_recovered :
  ReActAgent_process RefJSON.loads (agent_saying prose_then_object) temp_0_3 "q"
  = Ok [ ("original_query", PStr "q");
         ("is_complex", PBool false);
         ("sub_problems", PList []);
         ("complexity_analysis",
          PDict [ ("reason", PStr "ok"); ("indicators", PList []) ]) ].
Proof. vm_compute. reflexivity. Qed.

(** The single-shot path on a complex question whose decomposition parses. *)
Example single_shot_decomposes :
  match
    SimpleQuestionDecomposeAgent_process
      (llm_scripted
         (Ok ("{" ++ dq ++ "is_complex" ++ dq ++ ": true, " ++ dq ++ "reason" ++ dq
              ++ ": " ++ dq ++ "多子意图" ++ dq ++ ", " ++ dq ++ "indicators" ++ dq
              ++ ": [" ++ dq ++ "多子意图" ++ dq ++ "]}"))
         (Ok ("{" ++ dq ++ "sub_problems" ++ dq ++ ": [{" ++ dq ++ "id" ++ dq ++ ": 1}, {"
              ++ dq ++ "id" ++ dq ++ ": 2}]}")))
      RefJSON.loads RefJSON.dumps "帮我找北京的酒店和机票"
  with
  | Ok d =>
      dict_lookup d "is_complex" = Some (PBool true)
      /\ dict_lookup d "sub_problems"
         = Some (PList [PDict [("id", PInt 1)]; PDict [("id", PInt 2)]])
  | Raise _ => False
  end.
Proof. vm_compute. split; reflexivity. Qed.

(** ** Strings *)

Lemma append_nil_r (s : string) : s ++ EmptyString = s.
Proof. induction s; simpl; congruence. Qed.

Lemma append_assoc (a b c : string) : (a ++ b) ++ c = a ++ b ++ c.
Proof. induction a; simpl; congruence. Qed.

Lemma length_append (a b : string) :
  String.length (a ++ b) = (String.length a + String.length b)%nat.
Proof. induction a; simpl; congruence. Qed.

Lemma append_inj_length (a a' b b' : string) :
  a ++ b = a' ++ b' -> String.length a = String.length a' -> a = a' /\ b = b'.
Proof.
  revert a'. induction a as [|c a IH]; intros [|c' a'] H L; simpl in *;
    try discriminate; auto.
  injection H as -> H. injection L as L.
  destruct (IH _ H L) as [-> ->]. auto.
Qed.

Lemma prefix_nil (s : string) : String.prefix EmptyString s = true.
Proof. destruct s; reflexivity. Qed.

Lemma prefix_iff (p s : string) :
  String.prefix p s = true <-> exists r, s = p ++ r.
Proof.
  revert s. induction p as [|c p IH]; intros s.
  - rewrite prefix_nil. split; [intros _; exists s; reflexivity | reflexivity].
  - destruct s as [|c' s]; simpl.
    + split; [discriminate | intros [r H]; discriminate].
    + destruct (ascii_dec c c') as [->|N].
      * rewrite IH. split; intros [r H]; exists r; congruence.
      * split; [discriminate | intros [r H]; congruence].
Qed.

Lemma find_opt_unfold (sub s : string) :
  PyStr.find_opt sub s =
  if String.prefix sub s then Some O
  else match s with
       | EmptyString => None
       | String _ r => option_map S (PyStr.find_opt sub r)
       end.
Proof. destruct s; reflexivity. Qed.

Lemma find_opt_Some (sub s : string) (n : nat) :
  PyStr.find_opt sub s = Some n ->
  exists a b, s = a ++ sub ++ b /\ String.length a = n.
Proof.
  revert n. induction s as [|c s IH]; intros n; rewrite find_opt_unfold;
    destruct (String.prefix sub _) eqn:P.
  - intros [= <-]. apply prefix_iff in P as [r P].
    exists EmptyString, r. auto.
  - discriminate.
  - intros [= <-]. apply prefix_iff in P as [r P].
    exists EmptyString, r. auto.
  - destruct (PyStr.find_opt sub s) as [m|]; [|discriminate].
    intros [= <-]. destruct (IH m eq_refl) as (a & b & -> & L).
    exists (String c a), b. simpl. auto.
Qed.

Lemma find_opt_first (sub a b : string) :
  exists n, PyStr.find_opt sub (a ++ sub ++ b) = Some n /\ (n <= String.length a)%nat.
Proof.
  induction a as [|c a IH].
  - assert (P : String.prefix sub (sub ++ b) = true)
      by (apply prefix_iff; exists b; reflexivity).
    exists O. rewrite find_opt_unfold. simpl. rewrite P. auto.
  - rewrite find_opt_unfold.
    destruct (String.prefix sub _).
    + exists O. split; [reflexivity | simpl; lia].
    + simpl. destruct IH as (n & -> & L). exists (S n).
      split; [reflexivity | simpl; lia].
Qed.

Lemma find_opt_None (sub s : string) :
  PyStr.find_opt sub s = None -> forall a b, s <> a ++ sub ++ b.
Proof.
  intros H a b ->. destruct (find_opt_first sub a b) as (n & E & _). congruence.
Qed.

(** The marker's first occurrence is where [find] points. *)
Lemma find_first_occurrence (sub a b : string) :
  (forall a' b', a ++ sub ++ b = a' ++ sub ++ b' ->
                 (String.length a <= String.length a')%nat) ->
  PyStr.find_opt sub (a ++ sub ++ b) = Some (String.length a).
Proof.
  intros Hmin. destruct (find_opt_first sub a b) as (n & E & L).
  destruct (find_opt_Some _ _ _ E) as (a' & b' & E' & L').
  apply Hmin in E'. rewrite E. f_equal. lia.
Qed.

Lemma substring_all (s : string) : String.substring 0 (String.length s) s = s.
Proof. induction s; simpl; congruence. Qed.

Lemma substring_skip (a s : string) (n : nat) :
  String.substring (String.length a) n (a ++ s) = String.substring 0 n s.
Proof. induction a; simpl; auto. Qed.

Lemma substring_take (a s : string) :
  String.substring 0 (String.length a) (a ++ s) = a.
Proof. induction a; simpl; [destruct s; reflexivity | congruence]. Qed.

Lemma clamp_inside (n i : Z) : 0 <= i <= n -> PyStr.clamp n i = i.
Proof.
  intros H. unfold PyStr.clamp. destruct (Z.ltb_spec i 0); lia.
Qed.

Lemma slice_from_app (a s : string) :
  PyStr.slice_from (a ++ s) (PyStr.len a) = s.
Proof.
  unfold PyStr.slice_from, PyStr.len. rewrite length_append.
  rewrite clamp_inside by lia.
  rewrite Nat2Z.id.
  replace (Z.to_nat _) with (String.length s) by lia.
  rewrite substring_skip. apply substring_all.
Qed.

Lemma slice_middle (a m b : string) :
  PyStr.slice (a ++ m ++ b) (PyStr.len a) (PyStr.len a + PyStr.len m) = m.
Proof.
  unfold PyStr.slice, PyStr.len. rewrite !length_append.
  rewrite !clamp_inside by lia.
  rewrite Nat2Z.id.
  replace (Z.to_nat _) with (String.length m) by lia.
  rewrite substring_skip. apply substring_take.
Qed.

(** *** Searching for a single byte *)

Abbreviation one c := (String c EmptyString) (only parsing).

Lemma prefix_one (c c' : ascii) (r : string) :
  String.prefix (one c) (String c' r) = Ascii.eqb c c'.
Proof.
  simpl. destruct (ascii_dec c c') as [->|N].
  - rewrite prefix_nil, Ascii.eqb_refl. reflexivity.
  - symmetry. apply Ascii.eqb_neq. exact N.
Qed.

Lemma has_char_app (c : ascii) (a b : string) :
  has_char c (a ++ b) = has_char c a || has_char c b.
Proof. induction a; simpl; [reflexivity | rewrite IHa; apply orb_assoc]. Qed.

Lemma rfind_opt_cons (sub : string) (c : ascii) (r : string) :
  PyStr.rfind_opt sub (String c r) =
  match PyStr.rfind_opt sub r with
  | Some n => Some (S n)
  | None => if String.prefix sub (String c r) then Some O else None
  end.
Proof. reflexivity. Qed.

Lemma find_one_absent (c : ascii) (s : string) :
  has_char c s = false -> PyStr.find_opt (one c) s = None.
Proof.
  induction s as [|c' s IH]; [reflexivity|].
  cbn [has_char]. intros H. apply orb_false_iff in H as [H1 H2].
  rewrite find_opt_unfold, prefix_one, H1, IH by assumption. reflexivity.
Qed.

Lemma find_one_skip (c : ascii) (l s : string) :
  has_char c l = false ->
  PyStr.find_opt (one c) (l ++ s) =
  option_map (Nat.add (String.length l)) (PyStr.find_opt (one c) s).
Proof.
  induction l as [|c' l IH]; cbn [append has_char String.length].
  - intros _. destruct (PyStr.find_opt (one c) s); reflexivity.
  - intros H. apply orb_false_iff in H as [H1 H2].
    rewrite find_opt_unfold, prefix_one, H1, IH by assumption.
    destruct (PyStr.find_opt (one c) s); reflexivity.
Qed.

Lemma find_one_here (c : ascii) (s : string) :
  PyStr.find_opt (one c) (String c s) = Some O.
Proof. rewrite find_opt_unfold, prefix_one, Ascii.eqb_refl. reflexivity. Qed.

Lemma find_one_pad (c : ascii) (s r : string) :
  has_char c r = false ->
  PyStr.find_opt (one c) (s ++ r) = PyStr.find_opt (one c) s.
Proof.
  intros H. induction s as [|c' s IH]; cbn [append].
  - rewrite find_one_absent by assumption. reflexivity.
  - rewrite (find_opt_unfold _ (String c' (s ++ r))),
      (find_opt_unfold _ (String c' s)), !prefix_one, IH.
    reflexivity.
Qed.

Lemma rfind_one_absent (c : ascii) (s : string) :
  has_char c s = false -> PyStr.rfind_opt (one c) s = None.
Proof.
  induction s as [|c' s IH]; [reflexivity|].
  cbn [has_char]. intros H. apply orb_false_iff in H as [H1 H2].
  rewrite rfind_opt_cons, IH, prefix_one, H1 by assumption. reflexivity.
Qed.

Lemma rfind_one_skip (c : ascii) (l s : string) :
  has_char c l = false ->
  PyStr.rfind_opt (one c) (l ++ s) =
  option_map (Nat.add (String.length l)) (PyStr.rfind_opt (one c) s).
Proof.
  induction l as [|c' l IH]; cbn [append has_char String.length].
  - intros _. destruct (PyStr.rfind_opt (one c) s); reflexivity.
  - intros H. apply orb_false_iff in H as [H1 H2].
    rewrite rfind_opt_cons, IH, prefix_one, H1 by assumption.
    destruct (PyStr.rfind_opt (one c) s); reflexivity.
Qed.

Lemma rfind_one_pad (c : ascii) (s r : string) :
  has_char c r = false ->
  PyStr.rfind_opt (one c) (s ++ r) = PyStr.rfind_opt (one c) s.
Proof.
  intros H. induction s as [|c' s IH]; cbn [append].
  - rewrite rfind_one_absent by assumption. reflexivity.
  - rewrite !rfind_opt_cons, !prefix_one, IH. reflexivity.
Qed.

Lemma rfind_one_last (c : ascii) (s post : string) :
  has_char c post = false ->
  PyStr.rfind_opt (one c) (s ++ String c post) = Some (String.length s).
Proof.
  intros H. induction s as [|c' s IH]; cbn [append String.length].
  - rewrite rfind_opt_cons, rfind_one_absent, prefix_one, Ascii.eqb_refl
      by assumption.
    reflexivity.
  - rewrite rfind_opt_cons, IH. reflexivity.
Qed.

Lemma rfind_one_bound (c : ascii) (s : string) (j : nat) :
  PyStr.rfind_opt (one c) s = Some j -> (j < String.length s)%nat.
Proof.
  revert j. induction s as [|c' s IH]; intros j.
  - discriminate.
  - rewrite rfind_opt_cons. cbn [String.length].
    destruct (PyStr.rfind_opt (one c) s) as [k|].
    + intros [= <-]. specialize (IH k eq_refl). lia.
    + rewrite prefix_one. destruct (Ascii.eqb c c'); [|discriminate].
      intros [= <-]. lia.
Qed.

Lemma substring_shift (l x : string) (i n : nat) :
  String.substring (String.length l + i) n (l ++ x) = String.substring i n x.
Proof. induction l; simpl; auto. Qed.

Lemma substring_within (u r : string) (i n : nat) :
  (i + n <= String.length u)%nat ->
  String.substring i n (u ++ r) = String.substring i n u.
Proof.
  revert i n. induction u as [|c u IH]; intros i n H; simpl in *.
  - assert (i = O) by lia. assert (n = O) by lia. subst.
    destruct r; reflexivity.
  - destruct i as [|i].
    + destruct n as [|n]; [reflexivity|].
      f_equal. apply (IH O n). lia.
    + apply IH. lia.
Qed.

Lemma slice_padded (l u r : string) (i k : Z) :
  0 <= i <= k -> k <= PyStr.len u ->
  PyStr.slice (l ++ u ++ r) (PyStr.len l + i) (PyStr.len l + k) = PyStr.slice u i k.
Proof.
  intros Hi Hk. unfold PyStr.slice, PyStr.len in *. rewrite !length_append.
  rewrite !clamp_inside by lia.
  replace (Z.to_nat (Z.of_nat (String.length l) + i))
    with (String.length l + Z.to_nat i)%nat by lia.
  replace (Z.of_nat (String.length l) + k - (Z.of_nat (String.length l) + i))
    with (k - i) by lia.
  rewrite substring_shift. apply substring_within. lia.
Qed.

(** *** The brace span *)

(** The span is found exactly when a closing brace follows the first opening
    one, and it reaches from that opening brace to the last closing one. *)
Lemma json_span_found (pre mid post : string) :
  has_char "{" pre = false -> has_char "}" post = false ->
  json_span (pre ++ "{" ++ mid ++ "}" ++ post) = Some ("{" ++ mid ++ "}").
Proof.
  intros Hpre Hpost. unfold json_span, PyStr.find, PyStr.rfind.
  rewrite find_one_skip by assumption.
  cbn [append]. rewrite find_one_here.
  replace (pre ++ String "{" (mid ++ String "}" post))
    with ((pre ++ String "{" mid) ++ String "}" post)
    by (rewrite append_assoc; reflexivity).
  rewrite rfind_one_last by assumption.
  cbn [option_map PyStr.index_or_minus1].
  rewrite length_append. cbn [String.length].
  destruct (Z.geb_spec (Z.of_nat (String.length pre + 0)) 0); [|lia].
  destruct (Z.gtb_spec (Z.of_nat (String.length pre + S (String.length mid)) + 1)
                       (Z.of_nat (String.length pre + 0))); [|lia].
  cbn [andb]. f_equal.
  rewrite append_assoc. cbn [append].
  pose proof (slice_middle pre (String "{" (mid ++ "}")) post) as E.
  etransitivity; [|exact E]. unfold PyStr.len. cbn [String.length append].
  rewrite length_append, append_assoc. cbn [String.length append].
  f_equal; lia.
Qed.

Lemma json_span_no_open (text : string) :
  has_char "{" text = false -> json_span text = None.
Proof.
  intros H. unfold json_span, PyStr.find.
  rewrite find_one_absent by assumption. reflexivity.
Qed.

Lemma json_span_no_close (pre rest : string) :
  has_char "{" pre = false -> has_char "}" rest = false ->
  json_span (pre ++ "{" ++ rest) = None.
Proof.
  intros Hpre Hrest. unfold json_span, PyStr.find, PyStr.rfind.
  rewrite find_one_skip by assumption.
  cbn [append]. rewrite find_one_here.
  assert (Hrf : forall l, PyStr.rfind_opt "}" (l ++ String "{" rest)
                          = PyStr.rfind_opt "}" l).
  { intros l. apply rfind_one_pad. cbn [has_char]. rewrite Hrest. reflexivity. }
  rewrite Hrf.
  destruct (PyStr.rfind_opt "}" pre) as [j|] eqn:E;
    cbn [option_map PyStr.index_or_minus1].
  - apply rfind_one_bound in E.
    destruct (Z.gtb_spec (Z.of_nat j + 1) (Z.of_nat (String.length pre + 0)));
      [lia|]. rewrite andb_false_r. reflexivity.
  - destruct (Z.gtb_spec (-1 + 1) (Z.of_nat (String.length pre + 0)));
      [lia|]. rewrite andb_false_r. reflexivity.
Qed.

Lemma first_occurrence (c : ascii) (s : string) :
  has_char c s = false
  \/ exists pre rest, s = pre ++ String c rest /\ has_char c pre = false.
Proof.
  induction s as [|c' s IH]; [left; reflexivity|].
  cbn [has_char]. destruct (Ascii.eqb c c') eqn:E.
  - right. apply Ascii.eqb_eq in E as <-.
    exists EmptyString, s. split; reflexivity.
  - destruct IH as [H | (pre & rest & -> & H)]; [left; exact H|].
    right. exists (String c' pre), rest. split; [reflexivity|].
    cbn [has_char]. rewrite E. exact H.
Qed.

Lemma last_occurrence (c : ascii) (s : string) :
  has_char c s = false
  \/ exists pre post, s = pre ++ String c post /\ has_char c post = false.
Proof.
  induction s as [|c' s IH]; [left; reflexivity|].
  destruct IH as [H | (pre & post & -> & H)].
  - cbn [has_char]. destruct (Ascii.eqb c c') eqn:E.
    + right. apply Ascii.eqb_eq in E as <-.
      exists EmptyString, s. split; [reflexivity | exact H].
    + left. exact H.
  - right. exists (String c' pre), post. split; [reflexivity | exact H].
Qed.

(** The three shapes a searched text can have, and the span of each. *)
Lemma json_span_cases (text : string) :
  (has_char "{" text = false /\ json_span text = None)
  \/ (exists pre rest,
        text = pre ++ "{" ++ rest
        /\ has_char "{" pre = false /\ has_char "}" rest = false
        /\ json_span text = None)
  \/ (exists pre mid post,
        text = pre ++ "{" ++ mid ++ "}" ++ post
        /\ has_char "{" pre = false /\ has_char "}" post = false
        /\ json_span text = Some ("{" ++ mid ++ "}")).
Proof.
  destruct (first_occurrence "{" text) as [H | (pre & rest & -> & Hpre)].
  - left. split; [exact H | apply json_span_no_open; exact H].
  - right. destruct (last_occurrence "}" rest) as [H | (mid & post & -> & Hpost)].
    + left. exists pre, rest. repeat split; try assumption.
      apply json_span_no_close; assumption.
    + right. exists pre, mid, post. repeat split; try assumption.
      apply json_span_found; assumption.
Qed.

(** Padding without braces on either side leaves the span as it is. *)
Lemma json_span_padded (l u r : string) :
  no_brace l -> no_brace r -> json_span (l ++ u ++ r) = json_span u.
Proof.
  intros [Hl1 Hl2] [Hr1 Hr2]. unfold json_span, PyStr.find, PyStr.rfind.
  rewrite find_one_skip, rfind_one_skip by assumption.
  rewrite find_one_pad, rfind_one_pad by assumption.
  destruct (PyStr.find_opt "{" u) as [i|]; [|reflexivity].
  destruct (PyStr.rfind_opt "}" u) as [j|] eqn:E;
    cbn [option_map PyStr.index_or_minus1].
  - apply rfind_one_bound in E.
    destruct (Z.geb_spec (Z.of_nat (String.length l + i)) 0); [|lia].
    destruct (Z.geb_spec (Z.of_nat i) 0); [|lia].
    destruct (Z.gtb_spec (Z.of_nat j + 1) (Z.of_nat i));
      destruct (Z.gtb_spec (Z.of_nat (String.length l + j) + 1)
                           (Z.of_nat (String.length l + i)));
      try lia; cbn [andb]; [|reflexivity].
    f_equal.
    rewrite <- (slice_padded l u r (Z.of_nat i) (Z.of_nat j + 1))
      by (unfold PyStr.len; lia).
    unfold PyStr.len. f_equal; lia.
  - destruct (Z.gtb_spec (-1 + 1) (Z.of_nat (String.length l + i))); [lia|].
    destruct (Z.gtb_spec (-1 + 1) (Z.of_nat i)); [lia|].
    rewrite !andb_false_r. reflexivity.
Qed.

(** *** What [strip] removes *)

Lemma plain_of_byte (c : ascii) :
  PyStr.byte c <> 123%nat -> PyStr.byte c <> 125%nat -> plain c.
Proof.
  intros H1 H2. split; apply Ascii.eqb_neq; intros <-; [apply H1 | apply H2];
    reflexivity.
Qed.

Ltac bytes_of H :=
  repeat rewrite ?orb_true_iff, ?andb_true_iff, ?Nat.eqb_eq, ?Nat.leb_le in H.

Lemma space1_plain (c : ascii) : PyStr.space1 c = true -> plain c.
Proof.
  unfold PyStr.space1. intros H. bytes_of H. apply plain_of_byte; lia.
Qed.

Lemma space2_plain (c1 c2 : ascii) :
  PyStr.space2 c1 c2 = true -> plain c1 /\ plain c2.
Proof.
  unfold PyStr.space2. intros H. bytes_of H.
  split; apply plain_of_byte; lia.
Qed.

Lemma space3_plain (c1 c2 c3 : ascii) :
  PyStr.space3 c1 c2 c3 = true -> plain c1 /\ plain c2 /\ plain c3.
Proof.
  unfold PyStr.space3. intros H. bytes_of H.
  repeat split; apply plain_of_byte; lia.
Qed.

Lemma no_brace_nil : no_brace EmptyString.
Proof. split; reflexivity. Qed.

Lemma no_brace_cons (c : ascii) (s : string) :
  plain c -> no_brace s -> no_brace (String c s).
Proof.
  intros [P1 P2] [H1 H2]. split; cbn [has_char]; rewrite ?P1, ?P2; assumption.
Qed.

Lemma no_brace_app (a b : string) : no_brace a -> no_brace b -> no_brace (a ++ b).
Proof.
  intros [A1 A2] [B1 B2]. split; rewrite has_char_app, ?A1, ?A2; assumption.
Qed.

Lemma rev_app (a b : string) : PyStr.rev (a ++ b) = PyStr.rev b ++ PyStr.rev a.
Proof.
  induction a as [|c a IH]; cbn [append PyStr.rev].
  - symmetry. apply append_nil_r.
  - rewrite IH. apply append_assoc.
Qed.

Lemma rev_rev (s : string) : PyStr.rev (PyStr.rev s) = s.
Proof.
  induction s as [|c s IH]; [reflexivity|].
  cbn [PyStr.rev]. rewrite rev_app, IH. reflexivity.
Qed.

Lemma no_brace_rev (s : string) : no_brace s -> no_brace (PyStr.rev s).
Proof.
  induction s as [|c s IH]; [auto|].
  intros [H1 H2]. cbn [has_char] in H1, H2.
  apply orb_false_iff in H1 as [P1 H1]. apply orb_false_iff in H2 as [P2 H2].
  cbn [PyStr.rev]. apply no_brace_app; [apply IH; split; assumption|].
  apply no_brace_cons; [split; assumption | apply no_brace_nil].
Qed.

Ltac strip_keep s := exists EmptyString; split; [reflexivity | apply no_brace_nil].

Lemma lstrip_pad (n : nat) (s : string) :
  (String.length s <= n)%nat ->
  exists l, s = l ++ PyStr.lstrip s /\ no_brace l.
Proof.
  revert s. induction n as [|n IH]; intros [|c1 r1] L; cbn [String.length] in L;
    try lia; try strip_keep s.
  cbn [PyStr.lstrip]. destruct (PyStr.space1 c1) eqn:S1.
  { destruct (IH r1) as (l & E & N); [lia|].
    exists (String c1 l). split; [cbn [append]; congruence|].
    apply no_brace_cons; [apply space1_plain|]; assumption. }
  destruct r1 as [|c2 r2]; [strip_keep s|]. cbn [String.length] in L.
  destruct (PyStr.space2 c1 c2) eqn:S2.
  { destruct (IH r2) as (l & E & N); [lia|].
    apply space2_plain in S2 as [P1 P2].
    exists (String c1 (String c2 l)). split; [cbn [append]; congruence|].
    repeat apply no_brace_cons; assumption. }
  destruct r2 as [|c3 r3]; [strip_keep s|]. cbn [String.length] in L.
  destruct (PyStr.space3 c1 c2 c3) eqn:S3; [|strip_keep s].
  destruct (IH r3) as (l & E & N); [lia|].
  apply space3_plain in S3 as (P1 & P2 & P3).
  exists (String c1 (String c2 (String c3 l))). split; [cbn [append]; congruence|].
  repeat apply no_brace_cons; assumption.
Qed.

Lemma lstrip_rev_pad (n : nat) (s : string) :
  (String.length s <= n)%nat ->
  exists l, s = l ++ PyStr.lstrip_rev s /\ no_brace l.
Proof.
  revert s. induction n as [|n IH]; intros [|c1 r1] L; cbn [String.length] in L;
    try lia; try strip_keep s.
  cbn [PyStr.lstrip_rev]. destruct (PyStr.space1 c1) eqn:S1.
  { destruct (IH r1) as (l & E & N); [lia|].
    exists (String c1 l). split; [cbn [append]; congruence|].
    apply no_brace_cons; [apply space1_plain|]; assumption. }
  destruct r1 as [|c2 r2]; [strip_keep s|]. cbn [String.length] in L.
  destruct (PyStr.space2 c2 c1) eqn:S2.
  { destruct (IH r2) as (l & E & N); [lia|].
    apply space2_plain in S2 as [P2 P1].
    exists (String c1 (String c2 l)). split; [cbn [append]; congruence|].
    repeat apply no_brace_cons; assumption. }
  destruct r2 as [|c3 r3]; [strip_keep s|]. cbn [String.length] in L.
  destruct (PyStr.space3 c3 c2 c1) eqn:S3; [|strip_keep s].
  destruct (IH r3) as (l & E & N); [lia|].
  apply space3_plain in S3 as (P3 & P2 & P1).
  exists (String c1 (String c2 (String c3 l))). split; [cbn [append]; congruence|].
  repeat apply no_brace_cons; assumption.
Qed.

(** [strip] only takes brace-free text off the two ends. *)
Lemma strip_pad (t : string) :
  exists l r, t = l ++ PyStr.strip t ++ r /\ no_brace l /\ no_brace r.
Proof.
  destruct (lstrip_pad (String.length t) t (le_n _)) as (l & El & Nl).
  set (u := PyStr.lstrip t) in *.
  destruct (lstrip_rev_pad _ (PyStr.rev u) (le_n _)) as (r & Er & Nr).
  exists l, (PyStr.rev r). split; [|split; [assumption|]].
  - rewrite El at 1. f_equal. unfold PyStr.strip, PyStr.rstrip. fold u.
    rewrite <- rev_app, <- Er, rev_rev. reflexivity.
  - apply no_brace_rev. assumption.
Qed.

Lemma json_span_strip (t : string) : json_span (PyStr.strip t) = json_span t.
Proof.
  destruct (strip_pad t) as (l & r & E & Nl & Nr).
  rewrite E at 2. symmetry. apply json_span_padded; assumption.
Qed.

(** ** The searched region *)

Lemma contains_first_marker (a b : string) :
  (forall a' b', a ++ final_answer_marker ++ b = a' ++ final_answer_marker ++ b' ->
                 (String.length a <= String.length a')%nat) ->
  PyStr.contains final_answer_marker (a ++ final_answer_marker ++ b) = true
  /\ PyStr.slice_from (a ++ final_answer_marker ++ b)
       (PyStr.find (a ++ final_answer_marker ++ b) final_answer_marker
        + PyStr.len final_answer_marker) = b.
Proof.
  intros Hmin. apply find_first_occurrence in Hmin.
  unfold PyStr.contains, PyStr.find. rewrite Hmin. split; [reflexivity|].
  cbn [PyStr.index_or_minus1].
  rewrite <- append_assoc.
  replace (Z.of_nat (String.length a) + PyStr.len final_answer_marker)
    with (PyStr.len (a ++ final_answer_marker))
    by (unfold PyStr.len; rewrite length_append; lia).
  apply slice_from_app.
Qed.

Lemma contains_no_marker (text : string) :
  (forall a b, text <> a ++ final_answer_marker ++ b) ->
  PyStr.contains final_answer_marker text = false.
Proof.
  intros H. unfold PyStr.contains.
  destruct (PyStr.find_opt final_answer_marker text) as [n|] eqn:E; [|reflexivity].
  apply find_opt_Some in E as (a & b & E & _). destruct (H a b E).
Qed.

(** The inner block of [process] looks for the span in the searched region. *)
Lemma parse_final_answer_region
  (json_loads : string -> outcome PyVal) (query text region : string) :
  searched_region text region ->
  parse_final_answer json_loads query (PStr text) =
  match json_span region with
  | Some json_str =>
      parsed_result <- json_loads json_str ;;
      formatted <- ReActAgent_format_final_result query parsed_result ;;
      Ok (Some formatted)
  | None => Ok None
  end.
Proof.
  intros [a b Hmin | t Habs]; unfold parse_final_answer.
  - destruct (contains_first_marker a b Hmin) as [-> ->].
    rewrite json_span_strip. reflexivity.
  - rewrite contains_no_marker by assumption. reflexivity.
Qed.

(** C5.  Structured extraction parses, as JSON, the substring from the first
    opening brace to the last closing brace of the searched region; the region
    is the text after the first occurrence of the marker [Final Answer:]
    (however often the marker occurs), or the whole text when the marker is
    absent.  The object parsed from that span is what gets normalised. *)
Theorem extraction_parses_greedy_span
  (json_loads : string -> outcome PyVal)
  (query text region pre mid post : string) :
  searched_region text region ->
  region = pre ++ "{" ++ mid ++ "}" ++ post ->
  has_char "{" pre = false ->
  has_char "}" post = false ->
  parse_final_answer json_loads query (PStr text) =
  (parsed_result <- json_loads ("{" ++ mid ++ "}") ;;
   formatted <- ReActAgent_format_final_result query parsed_result ;;
   Ok (Some formatted)).
Proof.
  intros Hregion -> Hpre Hpost.
  rewrite (parse_final_answer_region json_loads query text _ Hregion).
  rewrite json_span_found by assumption. reflexivity.
Qed.

Lemma searched_region_at (a b : string) :
  PyStr.find_opt final_answer_marker (a ++ final_answer_marker ++ b)
  = Some (String.length a) ->
  searched_region (a ++ final_answer_marker ++ b) b.
Proof.
  intros E. constructor. intros a' b' E'.
  destruct (find_opt_first final_answer_marker a' b') as (n & En & Ln).
  rewrite <- E', E in En. injection En as <-. exact Ln.
Qed.

Lemma extraction_parses_greedy_span_witness :
  parse_final_answer RefJSON.loads "q" (PStr prose_then_object)
  = Ok (Some [ ("original_query", PStr "q");
               ("is_complex", PBool false);
               ("sub_problems", PList []);
               ("complexity_analysis",
                PDict [ ("reason", PStr "ok"); ("indicators", PList []) ]) ])
  /\ parse_final_answer RefJSON.loads "q" (PStr marker_twice)
     = (parsed_result <-
          RefJSON.loads
            ("{" ++ dq ++ "is_complex" ++ dq ++ ": true}"
             ++ " and again Final Answer: {" ++ dq ++ "is_complex" ++ dq
             ++ ": false}") ;;
        formatted <- ReActAgent_format_final_result "q" parsed_result ;;
        Ok (Some formatted)).
Proof.
  split.
  - refine (eq_trans
              (extraction_parses_greedy_span RefJSON.loads "q"
                 prose_then_object prose_then_object
                 "I think this is simple: "
                 (dq ++ "is_complex" ++ dq ++ ": false, "
                  ++ dq ++ "reason" ++ dq ++ ": " ++ dq ++ "ok" ++ dq)
                 EmptyString _ _ _ _) _).
    + apply whole_text, find_opt_None. reflexivity.
    + reflexivity.
    + reflexivity.
    + reflexivity.
    + reflexivity.
  - refine (extraction_parses_greedy_span RefJSON.loads "q"
              marker_twice
              (" {" ++ dq ++ "is_complex" ++ dq ++ ": true}"
               ++ " and again Final Answer: {" ++ dq ++ "is_complex" ++ dq
               ++ ": false} bye")
              " "
              (dq ++ "is_complex" ++ dq ++ ": true}"
               ++ " and again Final Answer: {" ++ dq ++ "is_complex" ++ dq
               ++ ": false")
              " bye" _ _ _ _).
    + apply (searched_region_at "Thought: done. "). reflexivity.
    + reflexivity.
    + reflexivity.
    + reflexivity.
Defined.

(** ** The three ways [ReActAgent.process] returns *)

Lemma format_final_result_dict (query : string) (d : dict) :
  ReActAgent_format_final_result query (PDict d)
  = Ok [ ("original_query", PStr query);
         ("is_complex", coerce_flag (dict_get d "is_complex" (PBool false)));
         ("sub_problems",
          if dict_contains d "sub_problems"
          then dict_get d "sub_problems" PNone
          else if truthy (coerce_flag (dict_get d "is_complex" (PBool false)))
               then PList [original_question_sub_problem query]
               else PList []);
         ("complexity_analysis",
          PDict [ ("reason", dict_get d "reason" (PStr EmptyString));
                  ("indicators", dict_get d "indicators" (PList [])) ]) ].
Proof. reflexivity. Qed.

Lemma format_final_result_total (query : string) (d : dict) :
  exists c s,
    ReActAgent_format_final_result query (PDict d)
    = Ok [ ("original_query", PStr query);
           ("is_complex", c);
           ("sub_problems", s);
           ("complexity_analysis",
            PDict [ ("reason", dict_get d "reason" (PStr EmptyString));
                    ("indicators", dict_get d "indicators" (PList [])) ]) ]
    /\ is_str c = false.
Proof.
  unfold ReActAgent_format_final_result. eexists. eexists. split; [reflexivity|].
  destruct (dict_get d "is_complex" (PBool false)); reflexivity.
Qed.

Lemma format_final_result_raises (query : string) (v : PyVal) (e : exn) :
  ReActAgent_format_final_result query v = Raise e -> e = no_attribute v "get".
Proof. destruct v; simpl; congruence. Qed.

Lemma ReActAgent_process_cases
  (json_loads : string -> outcome PyVal)
  (create_agent : temperature -> list Tool -> string -> string -> outcome InvokeResult)
  (temp : temperature) (query : string) :
  (exists e, ReActAgent_process_body json_loads create_agent temp query = Raise e
             /\ ReActAgent_process json_loads create_agent temp query
                = Ok (error_result query e))
  \/ (exists output,
        ReActAgent_process json_loads create_agent temp query
        = Ok (raw_output_result query output))
  \/ (exists d r,
        ReActAgent_format_final_result query (PDict d) = Ok r
        /\ ReActAgent_process json_loads create_agent temp query = Ok r).
Proof.
  unfold ReActAgent_process.
  destruct (ReActAgent_process_body json_loads create_agent temp query)
    as [r|e] eqn:B.
  - right. unfold ReActAgent_process_body in B.
    destruct (ReActAgent_create_agent create_agent temp query) as [res|e];
      [|discriminate].
    cbn [bind] in B.
    destruct (parse_final_answer json_loads query (extract_output res))
      as [[formatted|]|e] eqn:P; cbn [except_JSONDecodeError bind] in B.
    + injection B as <-. right.
      unfold parse_final_answer in P.
      destruct (extract_output res); try discriminate.
      destruct (json_span _); [|discriminate].
      destruct (json_loads s0) as [parsed|]; [|discriminate].
      cbn [bind] in P. destruct parsed; try discriminate P.
      exists d. exists formatted.
      destruct (ReActAgent_format_final_result query (PDict d)); [|discriminate].
      cbn [bind] in P. split; [congruence | reflexivity].
    + injection B as <-. left. eexists. reflexivity.
    + destruct e; cbn [bind] in B; try discriminate.
      injection B as <-. left. eexists. reflexivity.
  - left. exists e. split; reflexivity.
Qed.

(** ** Failed and successful extraction *)

(** Every searched region either fails extraction or holds a span that
    [json.loads] does not reject as malformed. *)
Lemma extraction_fails_or_parses
  (json_loads : string -> outcome PyVal) (region : string) :
  extraction_fails json_loads region
  \/ exists pre mid post,
       region = pre ++ "{" ++ mid ++ "}" ++ post
       /\ has_char "{" pre = false /\ has_char "}" post = false
       /\ forall msg, json_loads ("{" ++ mid ++ "}") <> Raise (JSONDecodeError msg).
Proof.
  destruct (json_span_cases region)
    as [[H _] | [(pre & rest & -> & H1 & H2 & _) | (pre & mid & post & -> & H1 & H2 & _)]].
  - left. apply no_opening_brace. exact H.
  - left. apply no_closing_brace; assumption.
  - destruct (json_loads ("{" ++ mid ++ "}")) as [v|[msg|msg|msg|cls msg]] eqn:E.
    + right. exists pre, mid, post. repeat split; try assumption.
      intros msg. rewrite E. discriminate.
    + left. apply (span_not_json json_loads pre mid post msg); assumption.
    + right. exists pre, mid, post. repeat split; try assumption.
      intros m. rewrite E. discriminate.
    + right. exists pre, mid, post. repeat split; try assumption.
      intros m. rewrite E. discriminate.
    + right. exists pre, mid, post. repeat split; try assumption.
      intros m. rewrite E. discriminate.
Qed.

Lemma failed_extraction_falls_through
  (json_loads : string -> outcome PyVal) (query text region : string) :
  searched_region text region ->
  extraction_fails json_loads region ->
  except_JSONDecodeError (parse_final_answer json_loads query (PStr text)) (Ok None)
  = Ok None.
Proof.
  intros R F. rewrite (parse_final_answer_region json_loads query text region R).
  destruct F as [region H | pre rest H1 H2 | pre mid post msg H1 H2 H3].
  - rewrite json_span_no_open by assumption. reflexivity.
  - rewrite json_span_no_close by assumption. reflexivity.
  - rewrite json_span_found by assumption. rewrite H3. reflexivity.
Qed.

Lemma react_process_on_failed_extraction
  (json_loads : string -> outcome PyVal)
  (create_agent : temperature -> list Tool -> string -> string -> outcome InvokeResult)
  (temp : temperature) (query : string) (res : InvokeResult) (text region : string) :
  ReActAgent_create_agent create_agent temp query = Ok res ->
  extract_output res = PStr text ->
  searched_region text region ->
  extraction_fails json_loads region ->
  ReActAgent_process json_loads create_agent temp query
  = Ok (raw_output_result query (PStr text)).
Proof.
  intros A O R F. unfold ReActAgent_process, ReActAgent_process_body.
  rewrite A. cbn [bind]. rewrite O.
  rewrite (failed_extraction_falls_through json_loads query text region R F).
  reflexivity.
Qed.

(** Every text has its searched region. *)
Lemma searched_region_exists (text : string) :
  exists region, searched_region text region.
Proof.
  destruct (PyStr.find_opt final_answer_marker text) as [n|] eqn:E.
  - destruct (find_opt_Some _ _ _ E) as (a & b & -> & L).
    exists b. apply searched_region_at. rewrite E, L. reflexivity.
  - exists text. apply whole_text, find_opt_None. exact E.
Qed.

(** The guarded block on a text whose searched region holds a span. *)
Lemma react_process_body_on_span
  (json_loads : string -> outcome PyVal)
  (create_agent : temperature -> list Tool -> string -> string -> outcome InvokeResult)
  (temp : temperature) (query : string) (res : InvokeResult)
  (text region pre mid post : string) :
  ReActAgent_create_agent create_agent temp query = Ok res ->
  extract_output res = PStr text ->
  searched_region text region ->
  region = pre ++ "{" ++ mid ++ "}" ++ post ->
  has_char "{" pre = false ->
  has_char "}" post = false ->
  ReActAgent_process_body json_loads create_agent temp query
  = (parsed <-
       except_JSONDecodeError
         (parsed_result <- json_loads ("{" ++ mid ++ "}") ;;
          formatted <- ReActAgent_format_final_result query parsed_result ;;
          Ok (Some formatted))
         (Ok None) ;;
     match parsed with
     | Some formatted => Ok formatted
     | None => Ok (raw_output_result query (PStr text))
     end).
Proof.
  intros A O R -> Hpre Hpost. unfold ReActAgent_process_body.
  rewrite A. cbn [bind]. rewrite O.
  rewrite (parse_final_answer_region json_loads query text _ R).
  rewrite json_span_found by assumption. reflexivity.
Qed.

(** An exception of [json.loads] that is not a [JSONDecodeError] passes the
    inner handler and leaves the guarded block. *)
Lemma react_process_body_on_other_exception
  (json_loads : string -> outcome PyVal)
  (create_agent : temperature -> list Tool -> string -> string -> outcome InvokeResult)
  (temp : temperature) (query : string) (res : InvokeResult)
  (text region pre mid post : string) (e : exn) :
  ReActAgent_create_agent create_agent temp query = Ok res ->
  extract_output res = PStr text ->
  searched_region text region ->
  region = pre ++ "{" ++ mid ++ "}" ++ post ->
  has_char "{" pre = false ->
  has_char "}" post = false ->
  json_loads ("{" ++ mid ++ "}") = Raise e ->
  is_decode_error e = false ->
  ReActAgent_process_body json_loads create_agent temp query = Raise e.
Proof.
  intros A O R E Hpre Hpost J N.
  rewrite (react_process_body_on_span json_loads create_agent temp query res
             text region pre mid post A O R E Hpre Hpost).
  rewrite J. destruct e; try discriminate N; reflexivity.
Qed.

(** A parsed value that is not an object makes the normaliser raise. *)
Lemma react_process_body_on_non_object
  (json_loads : string -> outcome PyVal)
  (create_agent : temperature -> list Tool -> string -> string -> outcome InvokeResult)
  (temp : temperature) (query : string) (res : InvokeResult)
  (text region pre mid post : string) (v : PyVal) :
  ReActAgent_create_agent create_agent temp query = Ok res ->
  extract_output res = PStr text ->
  searched_region text region ->
  region = pre ++ "{" ++ mid ++ "}" ++ post ->
  has_char "{" pre = false ->
  has_char "}" post = false ->
  json_loads ("{" ++ mid ++ "}") = Ok v ->
  (forall d, v <> PDict d) ->
  ReActAgent_process_body json_loads create_agent temp query
  = Raise (no_attribute v "get").
Proof.
  intros A O R E Hpre Hpost J N.
  rewrite (react_process_body_on_span json_loads create_agent temp query res
             text region pre mid post A O R E Hpre Hpost).
  rewrite J. destruct v; try reflexivity. destruct (N d eq_refl).
Qed.

(** A parsed object is normalised and returned. *)
Lemma react_process_on_parsed_object
  (json_loads : string -> outcome PyVal)
  (create_agent : temperature -> list Tool -> string -> string -> outcome InvokeResult)
  (temp : temperature) (query : string) (res : InvokeResult)
  (text region pre mid post : string) (object : dict) :
  ReActAgent_create_agent create_agent temp query = Ok res ->
  extract_output res = PStr text ->
  searched_region text region ->
  region = pre ++ "{" ++ mid ++ "}" ++ post ->
  has_char "{" pre = false ->
  has_char "}" post = false ->
  json_loads ("{" ++ mid ++ "}") = Ok (PDict object) ->
  ReActAgent_process json_loads create_agent temp query
  = ReActAgent_format_final_result query (PDict object).
Proof.
  intros A O R E Hpre Hpost J. unfold ReActAgent_process.
  rewrite (react_process_body_on_span json_loads create_agent temp query res
             text region pre mid post A O R E Hpre Hpost).
  rewrite J. reflexivity.
Qed.

(** The guarded block raises when the output is not a text. *)
Lemma react_process_body_on_non_text
  (json_loads : string -> outcome PyVal)
  (create_agent : temperature -> list Tool -> string -> string -> outcome InvokeResult)
  (temp : temperature) (query : string) (res : InvokeResult) :
  ReActAgent_create_agent create_agent temp query = Ok res ->
  is_str (extract_output res) = false ->
  exists e, ReActAgent_process_body json_loads create_agent temp query = Raise e.
Proof.
  intros A N. unfold ReActAgent_process_body. rewrite A. cbn [bind].
  unfold parse_final_answer.
  destruct (extract_output res); try discriminate N; eexists; reflexivity.
Qed.

(** ** Claims about the call boundary and the result's shape *)

(** C1, as amended.  On the agent-loop path ([ReActAgent.process] behind
    [ReActQuestionDecomposeAgent.process]) the call always returns a
    dictionary: whatever exception the guarded block raises, a failure of the
    agent run on its first model call included, is turned into the result
    with [original_query] the input, [is_complex] null, [sub_problems] empty
    and [error] the exception's text.  The single-shot path has no such
    guard: an exception of its first model call leaves
    [SimpleQuestionDecomposeAgent.process] as it is. *)
Theorem react_process_never_raises
  (llm_invoke : temperature -> string -> outcome string)
  (json_loads : string -> outcome PyVal) (json_dumps : PyVal -> string)
  (create_agent : temperature -> list Tool -> string -> string -> outcome InvokeResult)
  (query : string) :
  (exists d,
      ReActQuestionDecomposeAgent_process json_loads create_agent query = Ok d)
  /\ (forall e,
        ReActAgent_process_body json_loads create_agent temp_0_3 query = Raise e ->
        ReActQuestionDecomposeAgent_process json_loads create_agent query
        = Ok [ ("original_query", PStr query);
               ("is_complex", PNone);
               ("sub_problems", PList []);
               ("error", PStr (exn_str e)) ])
  /\ (forall e,
        ReActAgent_create_agent create_agent temp_0_3 query = Raise e ->
        ReActQuestionDecomposeAgent_process json_loads create_agent query
        = Ok [ ("original_query", PStr query);
               ("is_complex", PNone);
               ("sub_problems", PList []);
               ("error", PStr (exn_str e)) ])
  /\ (forall e,
        llm_invoke temp_0_3 (complexity_check_prompt query) = Raise e ->
        SimpleQuestionDecomposeAgent_process llm_invoke json_loads json_dumps query
        = Raise e).
Proof.
  unfold ReActQuestionDecomposeAgent_process, ReActAgent_process.
  split; [|split; [|split]].
  - destruct (ReActAgent_process_body json_loads create_agent temp_0_3 query);
      eexists; reflexivity.
  - intros e ->. reflexivity.
  - intros e H. unfold ReActAgent_process_body. rewrite H. reflexivity.
  - intros e H.
    unfold SimpleQuestionDecomposeAgent_process, ComplexityCheckTool_run.
    rewrite H. reflexivity.
Qed.

Lemma react_process_never_raises_witness :
  ReActQuestionDecomposeAgent_process RefJSON.loads (agent_raising transport_error)
    "今天星期几？"
  = Ok [ ("original_query", PStr "今天星期几？");
         ("is_complex", PNone);
         ("sub_problems", PList []);
         ("error", PStr "connection refused") ].
Proof.
  apply (proj1 (proj2 (proj2 (react_process_never_raises
                                (llm_scripted (Raise transport_error)
                                              (Raise transport_error))
                                RefJSON.loads RefJSON.dumps
                                (agent_raising transport_error) "今天星期几？")))
           transport_error).
  reflexivity.
Defined.

(** The single-shot path has no such guard: a transport failure of the first
    model call leaves [SimpleQuestionDecomposeAgent.process] as an exception. *)
Lemma simple_process_propagates_transport_error :
  SimpleQuestionDecomposeAgent_process
    (llm_scripted (Raise transport_error) (Raise transport_error))
    RefJSON.loads RefJSON.dumps "今天星期几？"
  = Raise transport_error
  /\ ~ (exists d,
          SimpleQuestionDecomposeAgent_process
            (llm_scripted (Raise transport_error) (Raise transport_error))
            RefJSON.loads RefJSON.dumps "今天星期几？"
          = Ok d).
Proof.
  split; [reflexivity|]. intros [d H]. discriminate H.
Qed.

(** C2, as amended.  [ReActAgent.process] returns a dictionary holding
    [original_query] (the query), [is_complex] and [sub_problems], of the
    shape its outcome path fixes.  Internal error (the guarded block
    raises): [is_complex] null, [sub_problems] empty, [error] the exception's
    text, and no [complexity_analysis].  Extraction failure (no brace span in
    the searched region, or a span [json.loads] rejects with a
    [JSONDecodeError]): [is_complex] null, [sub_problems] empty, [raw_output]
    the text, and no [complexity_analysis].  Successful extraction
    ([json.loads] returns an object for the span): [complexity_analysis] is
    present, an object with exactly the keys [reason] and [indicators], and
    [is_complex] is never a string.  Every call takes one of the three
    paths. *)
Theorem react_process_result_by_path
  (json_loads : string -> outcome PyVal)
  (create_agent : temperature -> list Tool -> string -> string -> outcome InvokeResult)
  (temp : temperature) (query : string) :
  (forall e,
      ReActAgent_process_body json_loads create_agent temp query = Raise e ->
      ReActAgent_process json_loads create_agent temp query
      = Ok [ ("original_query", PStr query);
             ("is_complex", PNone);
             ("sub_problems", PList []);
             ("error", PStr (exn_str e)) ])
  /\ (forall res text region,
        ReActAgent_create_agent create_agent temp query = Ok res ->
        extract_output res = PStr text ->
        searched_region text region ->
        extraction_fails json_loads region ->
        ReActAgent_process json_loads create_agent temp query
        = Ok [ ("original_query", PStr query);
               ("is_complex", PNone);
               ("sub_problems", PList []);
               ("raw_output", PStr text) ])
  /\ (forall res text region pre mid post object,
        ReActAgent_create_agent create_agent temp query = Ok res ->
        extract_output res = PStr text ->
        searched_region text region ->
        region = pre ++ "{" ++ mid ++ "}" ++ post ->
        has_char "{" pre = false ->
        has_char "}" post = false ->
        json_loads ("{" ++ mid ++ "}") = Ok (PDict object) ->
        exists is_complex sub_problems reason indicators,
          ReActAgent_process json_loads create_agent temp query
          = Ok [ ("original_query", PStr query);
                 ("is_complex", is_complex);
                 ("sub_problems", sub_problems);
                 ("complexity_analysis",
                  PDict [ ("reason", reason); ("indicators", indicators) ]) ]
          /\ is_str is_complex = false)
  /\ ((exists e,
          ReActAgent_process_body json_loads create_agent temp query = Raise e)
      \/ (exists res text region,
             ReActAgent_create_agent create_agent temp query = Ok res
             /\ extract_output res = PStr text
             /\ searched_region text region
             /\ extraction_fails json_loads region)
      \/ (exists res text region pre mid post object,
             ReActAgent_create_agent create_agent temp query = Ok res
             /\ extract_output res = PStr text
             /\ searched_region text region
             /\ region = pre ++ "{" ++ mid ++ "}" ++ post
             /\ has_char "{" pre = false
             /\ has_char "}" post = false
             /\ json_loads ("{" ++ mid ++ "}") = Ok (PDict object))).
Proof.
  split; [|split; [|split]].
  - intros e B. unfold ReActAgent_process. rewrite B. reflexivity.
  - intros res text region A O R F.
    apply (react_process_on_failed_extraction _ _ _ _ res text region);
      assumption.
  - intros res text region pre mid post object A O R E Hpre Hpost J.
    rewrite (react_process_on_parsed_object json_loads create_agent temp query
               res text region pre mid post object A O R E Hpre Hpost J).
    destruct (format_final_result_total query object) as (c & s & F & Hc).
    exists c, s, (dict_get object "reason" (PStr EmptyString)),
      (dict_get object "indicators" (PList [])).
    split; assumption.
  - destruct (ReActAgent_create_agent create_agent temp query) as [res|e] eqn:A.
    2:{ left. exists e. unfold ReActAgent_process_body. rewrite A. reflexivity. }
    destruct (is_str (extract_output res)) eqn:T.
    2:{ left. apply (react_process_body_on_non_text _ _ _ _ res); assumption. }
    destruct (extract_output res) as [| | | |text| |] eqn:O; try discriminate T.
    destruct (searched_region_exists text) as (region & R).
    destruct (extraction_fails_or_parses json_loads region)
      as [F | (pre & mid & post & E & Hpre & Hpost & N)].
    { right. left. exists res, text, region. repeat split; assumption. }
    destruct (json_loads ("{" ++ mid ++ "}")) as [v|e] eqn:J.
    + destruct v as [| | | | | |object];
        try (left; eexists;
             apply (react_process_body_on_non_object json_loads create_agent temp
                      query res text region pre mid post _ A O R E Hpre Hpost J);
             discriminate).
      right. right. exists res, text, region, pre, mid, post, object.
      repeat split; assumption.
    + left. exists e.
      apply (react_process_body_on_other_exception json_loads create_agent temp
               query res text region pre mid post e A O R E Hpre Hpost J).
      destruct e; try reflexivity. destruct (N msg eq_refl).
Qed.

Lemma react_process_result_by_path_witness :
  (exists is_complex sub_problems reason indicators,
      ReActAgent_process RefJSON.loads (agent_saying prose_then_object)
        temp_0_3 "今天星期几？"
      = Ok [ ("original_query", PStr "今天星期几？");
             ("is_complex", is_complex);
             ("sub_problems", sub_problems);
             ("complexity_analysis",
              PDict [ ("reason", reason); ("indicators", indicators) ]) ]
      /\ is_str is_complex = false)
  /\ ReActAgent_process RefJSON.loads (agent_saying "I cannot decide.")
       temp_0_3 "今天星期几？"
     = Ok [ ("original_query", PStr "今天星期几？");
            ("is_complex", PNone);
            ("sub_problems", PList []);
            ("raw_output", PStr "I cannot decide.") ]
  /\ ReActAgent_process RefJSON.loads (agent_raising transport_error)
       temp_0_3 "今天星期几？"
     = Ok [ ("original_query", PStr "今天星期几？");
            ("is_complex", PNone);
            ("sub_problems", PList []);
            ("error", PStr "connection refused") ].
Proof.
  split; [|split].
  - apply (proj1 (proj2 (proj2 (react_process_result_by_path RefJSON.loads
                                  (agent_saying prose_then_object)
                                  temp_0_3 "今天星期几？")))
             (ResDict None (Some [MsgObject (Some (PStr prose_then_object))]))
             prose_then_object prose_then_object
             "I think this is simple: "
             (dq ++ "is_complex" ++ dq ++ ": false, "
              ++ dq ++ "reason" ++ dq ++ ": " ++ dq ++ "ok" ++ dq)
             EmptyString
             [("is_complex", PBool false); ("reason", PStr "ok")]).
    + reflexivity.
    + reflexivity.
    + apply whole_text, find_opt_None. reflexivity.
    + reflexivity.
    + reflexivity.
    + reflexivity.
    + vm_compute. reflexivity.
  - apply (proj1 (proj2 (react_process_result_by_path RefJSON.loads
                           (agent_saying "I cannot decide.")
                           temp_0_3 "今天星期几？"))
             (ResDict None (Some [MsgObject (Some (PStr "I cannot decide."))]))
             "I cannot decide." "I cannot decide.").
    + reflexivity.
    + reflexivity.
    + apply whole_text, find_opt_None. reflexivity.
    + apply no_opening_brace. reflexivity.
  - apply (proj1 (react_process_result_by_path RefJSON.loads
                    (agent_raising transport_error) temp_0_3 "今天星期几？")
             transport_error).
    reflexivity.
Defined.

(** The degraded results leave [complexity_analysis] out, and a number given
    for [is_complex] is passed through: the canonical schema does not hold on
    every path. *)
Lemma react_process_breaks_canonical_schema :
  (ReActAgent_process RefJSON.loads (agent_saying "I cannot decide.")
     temp_0_3 "q"
   = Ok [ ("original_query", PStr "q");
          ("is_complex", PNone);
          ("sub_problems", PList []);
          ("raw_output", PStr "I cannot decide.") ]
   /\ canonical_schema [ ("original_query", PStr "q");
                         ("is_complex", PNone);
                         ("sub_problems", PList []);
                         ("raw_output", PStr "I cannot decide.") ] = false)
  /\ (ReActAgent_process RefJSON.loads (agent_raising transport_error)
        temp_0_3 "q"
      = Ok [ ("original_query", PStr "q");
             ("is_complex", PNone);
             ("sub_problems", PList []);
             ("error", PStr "connection refused") ]
      /\ canonical_schema [ ("original_query", PStr "q");
                            ("is_complex", PNone);
                            ("sub_problems", PList []);
                            ("error", PStr "connection refused") ] = false)
  /\ (ReActAgent_process RefJSON.loads
        (agent_saying ("{" ++ dq ++ "is_complex" ++ dq ++ ": 2}"))
        temp_0_3 "q"
      = Ok [ ("original_query", PStr "q");
             ("is_complex", PInt 2);
             ("sub_problems", PList [original_question_sub_problem "q"]);
             ("complexity_analysis",
              PDict [ ("reason", PStr EmptyString); ("indicators", PList []) ]) ]
      /\ canonical_schema
           [ ("original_query", PStr "q");
             ("is_complex", PInt 2);
             ("sub_problems", PList [original_question_sub_problem "q"]);
             ("complexity_analysis",
              PDict [ ("reason", PStr EmptyString); ("indicators", PList []) ]) ]
         = false).
Proof. vm_compute. repeat split. Qed.

(** ** Claims about the normaliser *)

(** C3, as amended.  When the extracted object's [is_complex] is true (or a
    string that lowers to [true]) the normalised result has [is_complex] true;
    if the object has no [sub_problems] key, the result's [sub_problems] is
    exactly one sub-problem with id 1, the original query as content, the
    original-question type tag and no dependencies.  A result with
    [is_complex] true has an empty [sub_problems] only when the model itself
    supplied an empty [sub_problems]. *)
Theorem complex_without_sub_problems_gets_original
  (query : string) (d : dict) :
  (dict_lookup d "is_complex" = Some (PBool true)
   \/ exists s, dict_lookup d "is_complex" = Some (PStr s)
                /\ PyStr.lower s = "true") ->
  exists r,
    ReActAgent_format_final_result query (PDict d) = Ok r
    /\ dict_lookup r "is_complex" = Some (PBool true)
    /\ (dict_contains d "sub_problems" = false ->
        dict_lookup r "sub_problems"
        = Some (PList [ PDict [ ("id", PInt 1);
                                ("content", PStr query);
                                ("type", PStr "原始问题");
                                ("dependencies", PList []) ] ]))
    /\ (dict_lookup r "sub_problems" = Some (PList []) ->
        dict_lookup d "sub_problems" = Some (PList [])).
Proof.
  intros H. rewrite format_final_result_dict. eexists. split; [reflexivity|].
  assert (C : coerce_flag (dict_get d "is_complex" (PBool false)) = PBool true).
  { unfold dict_get. destruct H as [E | (s & E & L)]; rewrite E;
      cbn [coerce_flag]; rewrite ?L; reflexivity. }
  rewrite C. cbn [dict_lookup String.eqb Ascii.eqb Bool.eqb truthy].
  split; [reflexivity|]. unfold dict_contains, dict_get.
  destruct (dict_lookup d "sub_problems") as [v|].
  - split; [discriminate | congruence].
  - split; [reflexivity | discriminate].
Qed.

Lemma complex_without_sub_problems_gets_original_witness :
  exists r,
    ReActAgent_format_final_result "帮我找北京的酒店和机票"
      (PDict [("is_complex", PStr "True"); ("reason", PStr "多子意图")]) = Ok r
    /\ dict_lookup r "sub_problems"
       = Some (PList [ PDict [ ("id", PInt 1);
                               ("content", PStr "帮我找北京的酒店和机票");
                               ("type", PStr "原始问题");
                               ("dependencies", PList []) ] ]).
Proof.
  destruct (complex_without_sub_problems_gets_original "帮我找北京的酒店和机票"
              [("is_complex", PStr "True"); ("reason", PStr "多子意图")])
    as (r & E & _ & S & _).
  - right. exists "True". split; reflexivity.
  - exists r. split; [exact E | apply S; reflexivity].
Defined.

(** A complex verdict that arrives with an empty [sub_problems] keeps it
    empty. *)
Lemma complex_with_empty_sub_problems_stays_empty :
  ReActAgent_process RefJSON.loads
    (agent_saying ("Final Answer: {" ++ dq ++ "is_complex" ++ dq ++ ": true, "
                   ++ dq ++ "sub_problems" ++ dq ++ ": []}"))
    temp_0_3 "帮我找北京的酒店和机票"
  = Ok [ ("original_query", PStr "帮我找北京的酒店和机票");
         ("is_complex", PBool true);
         ("sub_problems", PList []);
         ("complexity_analysis",
          PDict [ ("reason", PStr EmptyString); ("indicators", PList []) ]) ].
Proof. reflexivity. Qed.

(** C4, as amended.  On the single-shot path a result whose [is_complex] is
    false has exactly one sub-problem: the original query, tagged as a simple
    question, without dependencies.  On the agent-loop path the normaliser
    adds nothing for a simple verdict: [sub_problems] is what the model
    supplied, and empty when it supplied none. *)
Theorem simple_verdict_sub_problems
  (llm_invoke : temperature -> string -> outcome string)
  (json_loads : string -> outcome PyVal) (json_dumps : PyVal -> string)
  (query : string) (single_shot : dict) (d agent_loop : dict) :
  SimpleQuestionDecomposeAgent_process llm_invoke json_loads json_dumps query
  = Ok single_shot ->
  dict_lookup single_shot "is_complex" = Some (PBool false) ->
  ReActAgent_format_final_result query (PDict d) = Ok agent_loop ->
  dict_lookup agent_loop "is_complex" = Some (PBool false) ->
  dict_lookup single_shot "sub_problems"
  = Some (PList [ PDict [ ("id", PInt 1);
                          ("content", PStr query);
                          ("type", PStr "简单问题");
                          ("dependencies", PList []) ] ])
  /\ dict_lookup agent_loop "sub_problems"
     = Some (match dict_lookup d "sub_problems" with
             | Some supplied => supplied
             | None => PList []
             end).
Proof.
  intros S Sc F Fc. split.
  - unfold SimpleQuestionDecomposeAgent_process in S.
    destruct (ComplexityCheckTool_run llm_invoke json_loads json_dumps query)
      as [text|]; [|discriminate]. cbn [bind] in S.
    destruct (except_JSONDecodeError (json_loads text) _) as [verdict|];
      [|discriminate]. cbn [bind] in S.
    destruct verdict; try discriminate S. cbn [py_get bind] in S.
    destruct (truthy (dict_get d0 "is_complex" (PBool false))) eqn:T.
    + destruct (bind (ProblemDecomposeTool_run _ _ _ _) _); [|discriminate].
      cbn [bind] in S. injection S as <-.
      cbn [dict_lookup String.eqb Ascii.eqb Bool.eqb] in Sc.
      injection Sc as Sc. rewrite Sc in T. discriminate.
    + cbn [bind] in S. injection S as <-. reflexivity.
  - rewrite format_final_result_dict in F. injection F as <-.
    cbn [dict_lookup String.eqb Ascii.eqb Bool.eqb] in Fc |- *.
    injection Fc as Fc. rewrite Fc. cbn [truthy].
    unfold dict_contains, dict_get.
    destruct (dict_lookup d "sub_problems"); reflexivity.
Qed.

Lemma simple_verdict_sub_problems_witness :
  exists single_shot agent_loop,
    SimpleQuestionDecomposeAgent_process
      (llm_scripted (Ok short_simple_verdict) (Raise transport_error))
      RefJSON.loads RefJSON.dumps "今天星期几？"
    = Ok single_shot
    /\ ReActAgent_format_final_result "今天星期几？"
         (PDict [("is_complex", PBool false)])
       = Ok agent_loop
    /\ dict_lookup single_shot "sub_problems"
       = Some (PList [ PDict [ ("id", PInt 1);
                               ("content", PStr "今天星期几？");
                               ("type", PStr "简单问题");
                               ("dependencies", PList []) ] ])
    /\ dict_lookup agent_loop "sub_problems" = Some (PList []).
Proof.
  exists [ ("original_query", PStr "今天星期几？");
           ("is_complex", PBool false);
           ("sub_problems", PList [simple_sub_problem "今天星期几？"]);
           ("complexity_analysis",
            PDict [ ("reason", PStr "ok"); ("indicators", PList []) ]) ].
  exists [ ("original_query", PStr "今天星期几？");
           ("is_complex", PBool false);
           ("sub_problems", PList []);
           ("complexity_analysis",
            PDict [ ("reason", PStr EmptyString); ("indicators", PList []) ]) ].
  split; [vm_compute; reflexivity|]. split; [vm_compute; reflexivity|].
  apply (simple_verdict_sub_problems
           (llm_scripted (Ok short_simple_verdict) (Raise transport_error))
           RefJSON.loads RefJSON.dumps "今天星期几？" _
           [("is_complex", PBool false)] _);
    vm_compute; reflexivity.
Defined.

(** On the agent-loop path a simple verdict without [sub_problems] comes back
    with none. *)
Lemma agent_loop_simple_verdict_has_no_sub_problem :
  ReActAgent_process RefJSON.loads
    (agent_saying ("Final Answer: {" ++ dq ++ "is_complex" ++ dq ++ ": false, "
                   ++ dq ++ "reason" ++ dq ++ ": " ++ dq ++ "trivial" ++ dq ++ "}"))
    temp_0_3 "今天星期几？"
  = Ok [ ("original_query", PStr "今天星期几？");
         ("is_complex", PBool false);
         ("sub_problems", PList []);
         ("complexity_analysis",
          PDict [ ("reason", PStr "trivial"); ("indicators", PList []) ]) ].
Proof. reflexivity. Qed.

(** ** Claims about failed extraction *)

(** C6, as amended.  On the agent-loop path, when no brace span is found in
    the searched region or [json.loads] rejects the span with a
    [JSONDecodeError], the call returns (it does not raise) the result with
    [is_complex] null, an empty [sub_problems] and the unparsed model text
    under [raw_output]; when [json.loads] fails on the span with any other
    exception (a [RecursionError] on deep nesting, a [ValueError] on an
    over-long integer) the call returns the error result instead, with the
    exception's text under [error] and without the raw text.  On the
    single-shot path a classification response that [json.loads] rejects
    with a [JSONDecodeError] yields the parse-failure default instead:
    [is_complex] false and the one simple sub-problem, without the raw text;
    any other exception of [json.loads] on the response leaves the call. *)
Theorem failed_extraction_results
  (llm_invoke : temperature -> string -> outcome string)
  (json_loads : string -> outcome PyVal) (json_dumps : PyVal -> string)
  (create_agent : temperature -> list Tool -> string -> string -> outcome InvokeResult)
  (temp : temperature) (query : string)
  (res : InvokeResult) (text region content : string) :
  ReActAgent_create_agent create_agent temp query = Ok res ->
  extract_output res = PStr text ->
  searched_region text region ->
  llm_invoke temp_0_3 (complexity_check_prompt query) = Ok content ->
  (extraction_fails json_loads region ->
   ReActAgent_process json_loads create_agent temp query
   = Ok [ ("original_query", PStr query);
          ("is_complex", PNone);
          ("sub_problems", PList []);
          ("raw_output", PStr text) ])
  /\ (forall pre mid post e,
        region = pre ++ "{" ++ mid ++ "}" ++ post ->
        has_char "{" pre = false ->
        has_char "}" post = false ->
        json_loads ("{" ++ mid ++ "}") = Raise e ->
        is_decode_error e = false ->
        ReActAgent_process json_loads create_agent temp query
        = Ok [ ("original_query", PStr query);
               ("is_complex", PNone);
               ("sub_problems", PList []);
               ("error", PStr (exn_str e)) ])
  /\ (forall msg,
        json_loads content = Raise (JSONDecodeError msg) ->
        json_loads (json_dumps (complexity_parse_failure content))
        = Ok (complexity_parse_failure content) ->
        SimpleQuestionDecomposeAgent_process llm_invoke json_loads json_dumps query
        = Ok [ ("original_query", PStr query);
               ("is_complex", PBool false);
               ("sub_problems",
                PList [ PDict [ ("id", PInt 1);
                                ("content", PStr query);
                                ("type", PStr "简单问题");
                                ("dependencies", PList []) ] ]);
               ("complexity_analysis",
                PDict [ ("reason", PStr "解析失败，默认为简单问题");
                        ("indicators", PList []) ]) ])
  /\ (forall e,
        json_loads content = Raise e ->
        is_decode_error e = false ->
        SimpleQuestionDecomposeAgent_process llm_invoke json_loads json_dumps query
        = Raise e).
Proof.
  intros A O R L. split; [|split; [|split]].
  - intros F.
    apply (react_process_on_failed_extraction _ _ _ _ res text region);
      assumption.
  - intros pre mid post e E Hpre Hpost J N. unfold ReActAgent_process.
    rewrite (react_process_body_on_other_exception json_loads create_agent temp
               query res text region pre mid post e A O R E Hpre Hpost J N).
    reflexivity.
  - intros msg D RT.
    unfold SimpleQuestionDecomposeAgent_process, ComplexityCheckTool_run.
    rewrite L. cbn [bind]. rewrite D. cbn [bind except_JSONDecodeError].
    rewrite RT. reflexivity.
  - intros e D N.
    unfold SimpleQuestionDecomposeAgent_process, ComplexityCheckTool_run.
    rewrite L. cbn [bind]. rewrite D.
    destruct e; try discriminate N; reflexivity.
Qed.

Lemma failed_extraction_results_witness :
  (ReActAgent_process RefJSON.loads
     (agent_saying "Final Answer: it is {simple}, I think.") temp_0_3 "今天星期几？"
   = Ok [ ("original_query", PStr "今天星期几？");
          ("is_complex", PNone);
          ("sub_problems", PList []);
          ("raw_output", PStr "Final Answer: it is {simple}, I think.") ]
   /\ SimpleQuestionDecomposeAgent_process
        (llm_scripted (Ok "It is a simple question.") (Raise transport_error))
        RefJSON.loads RefJSON.dumps "今天星期几？"
      = Ok [ ("original_query", PStr "今天星期几？");
             ("is_complex", PBool false);
             ("sub_problems",
              PList [ PDict [ ("id", PInt 1);
                              ("content", PStr "今天星期几？");
                              ("type", PStr "简单问题");
                              ("dependencies", PList []) ] ]);
             ("complexity_analysis",
              PDict [ ("reason", PStr "解析失败，默认为简单问题");
                      ("indicators", PList []) ]) ])
  /\ (ReActAgent_process RefJSON.loads
        (agent_saying ("Final Answer: " ++ deeply_nested_object)) temp_0_3
        "今天星期几？"
      = Ok [ ("original_query", PStr "今天星期几？");
             ("is_complex", PNone);
             ("sub_problems", PList []);
             ("error", PStr (exn_str recursion_error_array)) ]
      /\ SimpleQuestionDecomposeAgent_process
           (llm_scripted (Ok deeply_nested) (Raise transport_error))
           RefJSON.loads RefJSON.dumps "今天星期几？"
         = Raise recursion_error_array).
Proof.
  split.
  - destruct (failed_extraction_results
                (llm_scripted (Ok "It is a simple question.") (Raise transport_error))
                RefJSON.loads RefJSON.dumps
                (agent_saying "Final Answer: it is {simple}, I think.")
                temp_0_3 "今天星期几？"
                (ResDict None
                   (Some [MsgObject
                            (Some (PStr "Final Answer: it is {simple}, I think."))]))
                "Final Answer: it is {simple}, I think."
                " it is {simple}, I think."
                "It is a simple question.")
      as (F & _ & S & _).
    + reflexivity.
    + reflexivity.
    + apply (searched_region_at EmptyString). reflexivity.
    + reflexivity.
    + split.
      * apply F.
        apply (span_not_json RefJSON.loads " it is " "simple" ", I think."
                 "Expecting property name enclosed in double quotes");
          reflexivity.
      * apply (S "Expecting value"); reflexivity.
  - destruct (failed_extraction_results
                (llm_scripted (Ok deeply_nested) (Raise transport_error))
                RefJSON.loads RefJSON.dumps
                (agent_saying ("Final Answer: " ++ deeply_nested_object))
                temp_0_3 "今天星期几？"
                (ResDict None
                   (Some [MsgObject
                            (Some (PStr ("Final Answer: " ++ deeply_nested_object)))]))
                ("Final Answer: " ++ deeply_nested_object)
                (" " ++ deeply_nested_object)
                deeply_nested)
      as (_ & E & _ & S).
    + reflexivity.
    + reflexivity.
    + apply (searched_region_at EmptyString). vm_compute. reflexivity.
    + reflexivity.
    + split.
      * apply (E " " (dq ++ "a" ++ dq ++ ": " ++ deeply_nested) EmptyString
                 recursion_error_array);
          vm_compute; reflexivity.
      * apply (S recursion_error_array); vm_compute; reflexivity.
Defined.

(** The single-shot path answers a failed classification parse with
    [is_complex] false, not null, a non-empty [sub_problems], and no raw
    text. *)
Lemma simple_process_parse_failure_is_not_null :
  SimpleQuestionDecomposeAgent_process
    (llm_scripted (Ok "It is a simple question.") (Raise transport_error))
    RefJSON.loads RefJSON.dumps "今天星期几？"
  = Ok [ ("original_query", PStr "今天星期几？");
         ("is_complex", PBool false);
         ("sub_problems", PList [simple_sub_problem "今天星期几？"]);
         ("complexity_analysis",
          PDict [ ("reason", PStr "解析失败，默认为简单问题");
                  ("indicators", PList []) ]) ].
Proof. vm_compute. reflexivity. Qed.

(** A final text without the marker is searched whole for an object. *)
Example markerless_text_is_searched_whole :
  (forall a b,
      "{" ++ dq ++ "is_complex" ++ dq ++ ": true, "
      ++ dq ++ "reason" ++ dq ++ ": " ++ dq ++ "multi" ++ dq ++ "}"
      <> a ++ final_answer_marker ++ b)
  /\ ReActAgent_process RefJSON.loads
       (agent_saying ("{" ++ dq ++ "is_complex" ++ dq ++ ": true, "
                      ++ dq ++ "reason" ++ dq ++ ": " ++ dq ++ "multi" ++ dq ++ "}"))
       temp_0_3 "帮我找北京的酒店和机票"
     = Ok [ ("original_query", PStr "帮我找北京的酒店和机票");
            ("is_complex", PBool true);
            ("sub_problems",
             PList [original_question_sub_problem "帮我找北京的酒店和机票"]);
            ("complexity_analysis",
             PDict [ ("reason", PStr "multi"); ("indicators", PList []) ]) ].
Proof.
  split; [apply find_opt_None; reflexivity | reflexivity].
Qed.

(** ** Claims about the tools *)

(** C8, as amended.  When [json.loads] rejects the classification tool's
    model response with a [JSONDecodeError], the tool returns (it does not
    raise) the text of the default verdict: [is_complex] false, a
    parse-failure reason, no indicators, and the raw response.  When
    [json.loads] fails on the response with any other exception (a
    [RecursionError] on deep nesting, a [ValueError] on an over-long
    integer), the tool raises that exception. *)
Theorem complexity_tool_parse_failure
  (llm_invoke : temperature -> string -> outcome string)
  (json_loads : string -> outcome PyVal) (json_dumps : PyVal -> string)
  (query content : string) :
  llm_invoke temp_0_3 (complexity_check_prompt query) = Ok content ->
  (forall msg,
      json_loads content = Raise (JSONDecodeError msg) ->
      ComplexityCheckTool_run llm_invoke json_loads json_dumps query
      = Ok (json_dumps
              (PDict [ ("is_complex", PBool false);
                       ("reason", PStr "解析失败，默认为简单问题");
                       ("indicators", PList []);
                       ("raw_response", PStr content) ])))
  /\ (forall e,
        json_loads content = Raise e ->
        is_decode_error e = false ->
        ComplexityCheckTool_run llm_invoke json_loads json_dumps query = Raise e).
Proof.
  intros L. unfold ComplexityCheckTool_run. rewrite L. cbn [bind]. split.
  - intros msg D. rewrite D. reflexivity.
  - intros e D N. rewrite D. destruct e; try discriminate N; reflexivity.
Qed.

Lemma complexity_tool_parse_failure_witness :
  ComplexityCheckTool_run
    (llm_scripted (Ok "It is a simple question.") (Raise transport_error))
    RefJSON.loads RefJSON.dumps "今天星期几？"
  = Ok (RefJSON.dumps
          (PDict [ ("is_complex", PBool false);
                   ("reason", PStr "解析失败，默认为简单问题");
                   ("indicators", PList []);
                   ("raw_response", PStr "It is a simple question.") ]))
  /\ ComplexityCheckTool_run
       (llm_scripted (Ok long_integer) (Raise transport_error))
       RefJSON.loads RefJSON.dumps "今天星期几？"
     = Raise (RefJSON.too_many_digits long_integer).
Proof.
  split.
  - apply (proj1 (complexity_tool_parse_failure
                    (llm_scripted (Ok "It is a simple question.")
                                  (Raise transport_error))
                    RefJSON.loads RefJSON.dumps "今天星期几？"
                    "It is a simple question." eq_refl)
             "Expecting value").
    reflexivity.
  - apply (proj2 (complexity_tool_parse_failure
                    (llm_scripted (Ok long_integer) (Raise transport_error))
                    RefJSON.loads RefJSON.dumps "今天星期几？"
                    long_integer eq_refl)
             (RefJSON.too_many_digits long_integer));
      vm_compute; reflexivity.
Defined.

(** A response of a thousand opening brackets does not parse as JSON, and the
    classification tool raises on it: [json.loads] gives up with a
    [RecursionError], which the tool's handler does not catch. *)
Lemma complexity_tool_raises_on_deep_nesting :
  RefJSON.loads deeply_nested = Raise recursion_error_array
  /\ ComplexityCheckTool_run
       (llm_scripted (Ok deeply_nested) (Raise transport_error))
       RefJSON.loads RefJSON.dumps "今天星期几？"
     = Raise recursion_error_array
  /\ ~ (exists text,
          ComplexityCheckTool_run
            (llm_scripted (Ok deeply_nested) (Raise transport_error))
            RefJSON.loads RefJSON.dumps "今天星期几？"
          = Ok text).
Proof.
  assert (R : ComplexityCheckTool_run
                (llm_scripted (Ok deeply_nested) (Raise transport_error))
                RefJSON.loads RefJSON.dumps "今天星期几？"
              = Raise recursion_error_array)
    by (vm_compute; reflexivity).
  split; [vm_compute; reflexivity | split; [exact R|]].
  intros [text H]. rewrite R in H. discriminate H.
Qed.

(** C9, as amended.  When [json.loads] rejects the decomposition tool's model
    response with a [JSONDecodeError], the tool returns (it does not raise)
    the text of a one-element decomposition whose element has id 1, the
    original query verbatim as content, the original-question type tag and
    no dependencies.  When [json.loads] fails on the response with any other
    exception, the tool raises that exception. *)
Theorem decompose_tool_parse_failure
  (llm_invoke : temperature -> string -> outcome string)
  (json_loads : string -> outcome PyVal) (json_dumps : PyVal -> string)
  (query content : string) :
  llm_invoke temp_0_5 (problem_decompose_prompt query) = Ok content ->
  (forall msg,
      json_loads content = Raise (JSONDecodeError msg) ->
      exists sub_problem,
        ProblemDecomposeTool_run llm_invoke json_loads json_dumps query
        = Ok (json_dumps
                (PDict [ ("sub_problems", PList [PDict sub_problem]);
                         ("raw_response", PStr content) ]))
        /\ dict_lookup sub_problem "id" = Some (PInt 1)
        /\ dict_lookup sub_problem "content" = Some (PStr query)
        /\ dict_lookup sub_problem "type" = Some (PStr "原始问题")
        /\ dict_lookup sub_problem "dependencies" = Some (PList []))
  /\ (forall e,
        json_loads content = Raise e ->
        is_decode_error e = false ->
        ProblemDecomposeTool_run llm_invoke json_loads json_dumps query = Raise e).
Proof.
  intros L. unfold ProblemDecomposeTool_run. rewrite L. cbn [bind]. split.
  - intros msg D. rewrite D. eexists. split; [reflexivity|]. repeat split.
  - intros e D N. rewrite D. destruct e; try discriminate N; reflexivity.
Qed.

Lemma decompose_tool_parse_failure_witness :
  (exists sub_problem,
      ProblemDecomposeTool_run
        (llm_scripted (Raise transport_error) (Ok "hotels, then flights"))
        RefJSON.loads RefJSON.dumps "帮我找北京的酒店和机票"
      = Ok (RefJSON.dumps
              (PDict [ ("sub_problems", PList [PDict sub_problem]);
                       ("raw_response", PStr "hotels, then flights") ]))
      /\ dict_lookup sub_problem "content" = Some (PStr "帮我找北京的酒店和机票"))
  /\ ProblemDecomposeTool_run
       (llm_scripted (Raise transport_error) (Ok long_integer))
       RefJSON.loads RefJSON.dumps "帮我找北京的酒店和机票"
     = Raise (RefJSON.too_many_digits long_integer).
Proof.
  split.
  - destruct (proj1 (decompose_tool_parse_failure
                       (llm_scripted (Raise transport_error)
                                     (Ok "hotels, then flights"))
                       RefJSON.loads RefJSON.dumps "帮我找北京的酒店和机票"
                       "hotels, then flights" eq_refl)
                "Expecting value" eq_refl)
      as (sp & E & _ & C & _).
    exists sp. split; assumption.
  - apply (proj2 (decompose_tool_parse_failure
                    (llm_scripted (Raise transport_error) (Ok long_integer))
                    RefJSON.loads RefJSON.dumps "帮我找北京的酒店和机票"
                    long_integer eq_refl)
             (RefJSON.too_many_digits long_integer));
      vm_compute; reflexivity.
Defined.

(** A response of a thousand opening brackets does not parse as JSON, and the
    decomposition tool raises on it. *)
Lemma decompose_tool_raises_on_deep_nesting :
  RefJSON.loads deeply_nested = Raise recursion_error_array
  /\ ProblemDecomposeTool_run
       (llm_scripted (Raise transport_error) (Ok deeply_nested))
       RefJSON.loads RefJSON.dumps "帮我找北京的酒店和机票"
     = Raise recursion_error_array
  /\ ~ (exists text,
          ProblemDecomposeTool_run
            (llm_scripted (Raise transport_error) (Ok deeply_nested))
            RefJSON.loads RefJSON.dumps "帮我找北京的酒店和机票"
          = Ok text).
Proof.
  assert (R : ProblemDecomposeTool_run
                (llm_scripted (Raise transport_error) (Ok deeply_nested))
                RefJSON.loads RefJSON.dumps "帮我找北京的酒店和机票"
              = Raise recursion_error_array)
    by (vm_compute; reflexivity).
  split; [vm_compute; reflexivity | split; [exact R|]].
  intros [text H]. rewrite R in H. discriminate H.
Qed.

(** C10.  The normaliser fills [complexity_analysis] from the top-level keys
    [reason] and [indicators] of the extracted object and from nothing else:
    an object that carries them only inside a nested [complexity_analysis],
    the layout the system prompt lists, comes back with an empty reason and
    no indicators. *)
Theorem complexity_analysis_reads_top_level_only
  (query : string) (d : dict) :
  dict_contains d "reason" = false ->
  dict_contains d "indicators" = false ->
  (forall object,
      exists r,
        ReActAgent_format_final_result query (PDict object) = Ok r
        /\ dict_lookup r "complexity_analysis"
           = Some (PDict [ ("reason", dict_get object "reason" (PStr EmptyString));
                           ("indicators", dict_get object "indicators" (PList [])) ]))
  /\ exists r,
       ReActAgent_format_final_result query (PDict d) = Ok r
       /\ dict_lookup r "complexity_analysis"
          = Some (PDict [ ("reason", PStr EmptyString); ("indicators", PList []) ]).
Proof.
  intros R I. split.
  - intros object. rewrite format_final_result_dict. eexists.
    split; reflexivity.
  - rewrite format_final_result_dict. eexists. split; [reflexivity|].
    cbn [dict_lookup String.eqb Ascii.eqb Bool.eqb].
    unfold dict_contains in R, I. unfold dict_get.
    destruct (dict_lookup d "reason"); [discriminate|].
    destruct (dict_lookup d "indicators"); [discriminate|].
    reflexivity.
Qed.

Lemma complexity_analysis_reads_top_level_only_witness :
  exists r,
    ReActAgent_format_final_result "帮我找北京的酒店和机票" (PDict prompted_layout) = Ok r
    /\ dict_lookup r "complexity_analysis"
       = Some (PDict [ ("reason", PStr EmptyString); ("indicators", PList []) ]).
Proof.
  apply (proj2 (complexity_analysis_reads_top_level_only
                  "帮我找北京的酒店和机票" prompted_layout eq_refl eq_refl)).
Defined.

(** * Further properties of the agents *)

(** ** [ReActAgent.process] *)

(** X1.  When the agent's last word is not text (a list of content blocks, a
    number, nothing at all), [ReActAgent.process] returns the error result,
    with the interpreter's complaint as [error]; it never reports such a
    value under [raw_output]. *)
Theorem non_text_output_gives_error_result
  (json_loads : string -> outcome PyVal)
  (create_agent : temperature -> list Tool -> string -> string -> outcome InvokeResult)
  (temp : temperature) (query : string) (res : InvokeResult) :
  ReActAgent_create_agent create_agent temp query = Ok res ->
  is_str (extract_output res) = false ->
  exists complaint,
    ReActAgent_process json_loads create_agent temp query
    = Ok [ ("original_query", PStr query);
           ("is_complex", PNone);
           ("sub_problems", PList []);
           ("error", PStr complaint) ].
Proof.
  intros A N. unfold ReActAgent_process, ReActAgent_process_body.
  rewrite A. cbn [bind].
  destruct (extract_output res); try discriminate N;
    eexists; reflexivity.
Qed.

Lemma non_text_output_gives_error_result_witness :
  exists complaint,
    ReActAgent_process RefJSON.loads
      (fun _ _ _ _ =>
         Ok (ResDict None
               (Some [MsgObject
                        (Some (PList [PDict [("type", PStr "text");
                                             ("text", PStr prose_then_object)]]))])))
      temp_0_3 "今天星期几？"
    = Ok [ ("original_query", PStr "今天星期几？");
           ("is_complex", PNone);
           ("sub_problems", PList []);
           ("error", PStr complaint) ].
Proof.
  apply (non_text_output_gives_error_result RefJSON.loads _ temp_0_3 "今天星期几？"
           (ResDict None
              (Some [MsgObject
                       (Some (PList [PDict [("type", PStr "text");
                                            ("text", PStr prose_then_object)]]))])));
    reflexivity.
Defined.

(** X2.  Only the last message of the run is read: whatever messages come
    before it, the result is the one the last message alone would give. *)
Theorem only_last_message_is_read
  (json_loads : string -> outcome PyVal)
  (create_agent create_agent' :
     temperature -> list Tool -> string -> string -> outcome InvokeResult)
  (temp : temperature) (query : string)
  (earlier : list Message) (last_message : Message) :
  ReActAgent_create_agent create_agent temp query
  = Ok (ResDict None (Some (earlier ++ [last_message])%list)) ->
  ReActAgent_create_agent create_agent' temp query
  = Ok (ResDict None (Some [last_message])) ->
  ReActAgent_process json_loads create_agent temp query
  = ReActAgent_process json_loads create_agent' temp query.
Proof.
  intros A A'. unfold ReActAgent_process, ReActAgent_process_body.
  rewrite A, A'. cbn [bind].
  assert (E : extract_output (ResDict None (Some (earlier ++ [last_message])%list))
              = extract_output (ResDict None (Some [last_message]))).
  { unfold extract_output. rewrite List.rev_app_distr. reflexivity. }
  rewrite E. reflexivity.
Qed.

Lemma only_last_message_is_read_witness :
  ReActAgent_process RefJSON.loads
    (fun _ _ _ _ =>
       Ok (ResDict None
             (Some [MsgDict [("role", PStr "user"); ("content", PStr "今天星期几？")];
                    MsgObject (Some (PStr short_simple_verdict));
                    MsgObject (Some (PStr "Done."))])))
    temp_0_3 "今天星期几？"
  = ReActAgent_process RefJSON.loads (agent_saying "Done.") temp_0_3 "今天星期几？".
Proof.
  apply (only_last_message_is_read RefJSON.loads _ _ temp_0_3 "今天星期几？"
           [MsgDict [("role", PStr "user"); ("content", PStr "今天星期几？")];
            MsgObject (Some (PStr short_simple_verdict))]
           (MsgObject (Some (PStr "Done."))));
    reflexivity.
Defined.

(** X3.  A span that is found starts with an opening brace, ends with a
    closing brace and stands in the text; cutting the span out of itself
    gives it back. *)
Theorem json_span_is_braced_and_stable (text span : string) :
  json_span text = Some span ->
  (exists pre mid post,
      text = pre ++ span ++ post /\ span = "{" ++ mid ++ "}")
  /\ json_span span = Some span.
Proof.
  intros H.
  destruct (json_span_cases text)
    as [[_ N] | [(pre & rest & _ & _ & _ & N)
                | (pre & mid & post & -> & Hpre & Hpost & S)]];
    try congruence.
  rewrite S in H. injection H as <-. split.
  - exists pre, mid, post. split; [|reflexivity].
    cbn [append]. rewrite append_assoc. reflexivity.
  - pose proof (json_span_found EmptyString mid EmptyString eq_refl eq_refl) as F.
    cbn [append] in F |- *. exact F.
Qed.

Lemma json_span_is_braced_and_stable_witness :
  json_span "{a} and {b}" = Some "{a} and {b}"
  /\ json_span "say {a} and {b}, done" = Some "{a} and {b}".
Proof.
  split; [|vm_compute; reflexivity].
  apply (json_span_is_braced_and_stable "say {a} and {b}, done").
  vm_compute. reflexivity.
Defined.

(** X4.  The outer guard of [ReActQuestionDecomposeAgent.process] never
    fires: the call returns exactly what [ReActAgent.process] returns at
    temperature 0.3. *)
Theorem react_wrapper_adds_nothing
  (json_loads : string -> outcome PyVal)
  (create_agent : temperature -> list Tool -> string -> string -> outcome InvokeResult)
  (query : string) :
  ReActQuestionDecomposeAgent_process json_loads create_agent query
  = ReActAgent_process json_loads create_agent temp_0_3 query.
Proof.
  unfold ReActQuestionDecomposeAgent_process.
  destruct (ReActAgent_process_cases json_loads create_agent temp_0_3 query)
    as [(e & _ & ->) | [(output & ->) | (d & r & _ & ->)]]; reflexivity.
Qed.

(** ** The flag [is_complex] as a string *)

(** The sixteen spellings of the word, letter case apart. *)
Definition spells_true (s : string) : Prop :=
  exists c1 c2 c3 c4,
    s = String c1 (String c2 (String c3 (String c4 EmptyString)))
    /\ (c1 = "t" \/ c1 = "T")%char /\ (c2 = "r" \/ c2 = "R")%char
    /\ (c3 = "u" \/ c3 = "U")%char /\ (c4 = "e" \/ c4 = "E")%char.

Ltac by_byte c :=
  destruct c as [[] [] [] [] [] [] [] []]; vm_compute;
  (split; [intros H; try discriminate H; auto
          | intros [H | H]; try discriminate H; reflexivity]).

Lemma lower_is_t (c : ascii) :
  PyStr.lower_ascii c = "t"%char <-> (c = "t" \/ c = "T")%char.
Proof. by_byte c. Qed.

Lemma lower_is_r (c : ascii) :
  PyStr.lower_ascii c = "r"%char <-> (c = "r" \/ c = "R")%char.
Proof. by_byte c. Qed.

Lemma lower_is_u (c : ascii) :
  PyStr.lower_ascii c = "u"%char <-> (c = "u" \/ c = "U")%char.
Proof. by_byte c. Qed.

Lemma lower_is_e (c : ascii) :
  PyStr.lower_ascii c = "e"%char <-> (c = "e" \/ c = "E")%char.
Proof. by_byte c. Qed.

Lemma lower_true_iff (s : string) : PyStr.lower s = "true" <-> spells_true s.
Proof.
  split.
  - intros H.
    destruct s as [|c1 [|c2 [|c3 [|c4 [|c5 s]]]]]; try discriminate H.
    cbn [PyStr.lower] in H. injection H as H1 H2 H3 H4.
    exists c1, c2, c3, c4. split; [reflexivity|].
    rewrite <- lower_is_t, <- lower_is_r, <- lower_is_u, <- lower_is_e. auto.
  - intros (c1 & c2 & c3 & c4 & -> & H1 & H2 & H3 & H4).
    apply lower_is_t in H1. apply lower_is_r in H2.
    apply lower_is_u in H3. apply lower_is_e in H4.
    cbn [PyStr.lower]. rewrite H1, H2, H3, H4. reflexivity.
Qed.

Lemma string_flag_coerced (query : string) (d : dict) (s : string) :
  dict_lookup d "is_complex" = Some (PStr s) ->
  exists r b,
    ReActAgent_format_final_result query (PDict d) = Ok r
    /\ dict_lookup r "is_complex" = Some (PBool b).
Proof.
  intros H. rewrite format_final_result_dict. eexists. eexists.
  split; [reflexivity|].
  unfold dict_get. rewrite H. reflexivity.
Qed.

(** X5.  When the extracted object gives [is_complex] as a string, the
    normaliser returns a boolean: true for the word [true] in any letter
    case, false for every other string. *)
Theorem string_flag_is_true_only_for_true
  (query : string) (d : dict) (s : string) :
  dict_lookup d "is_complex" = Some (PStr s) ->
  exists r b,
    ReActAgent_format_final_result query (PDict d) = Ok r
    /\ dict_lookup r "is_complex" = Some (PBool b)
    /\ (b = true <-> spells_true s).
Proof.
  intros H. rewrite format_final_result_dict.
  eexists. exists (String.eqb (PyStr.lower s) "true").
  split; [reflexivity|].
  unfold dict_get. rewrite H. cbn [coerce_flag dict_lookup String.eqb Ascii.eqb Bool.eqb].
  split; [reflexivity|].
  rewrite String.eqb_eq. apply lower_true_iff.
Qed.

Lemma string_flag_is_true_only_for_true_witness :
  exists r b,
    ReActAgent_format_final_result "q" (PDict [("is_complex", PStr "yes")]) = Ok r
    /\ dict_lookup r "is_complex" = Some (PBool b)
    /\ (b = true <-> spells_true "yes").
Proof.
  apply (string_flag_is_true_only_for_true "q" [("is_complex", PStr "yes")] "yes").
  reflexivity.
Defined.

(** ** [SimpleQuestionDecomposeAgent.process] *)

(** X6.  When the single-shot path returns, the result holds exactly the keys
    [original_query] (the query), [is_complex], [sub_problems] and
    [complexity_analysis] (an object with exactly [reason] and
    [indicators]), in that order: it never carries [error] or
    [raw_output]. *)
Theorem simple_process_result_shape
  (llm_invoke : temperature -> string -> outcome string)
  (json_loads : string -> outcome PyVal) (json_dumps : PyVal -> string)
  (query : string) (d : dict) :
  SimpleQuestionDecomposeAgent_process llm_invoke json_loads json_dumps query = Ok d ->
  exists is_complex sub_problems reason indicators,
    d = [ ("original_query", PStr query);
          ("is_complex", is_complex);
          ("sub_problems", sub_problems);
          ("complexity_analysis",
           PDict [ ("reason", reason); ("indicators", indicators) ]) ].
Proof.
  unfold SimpleQuestionDecomposeAgent_process. intros S.
  destruct (ComplexityCheckTool_run llm_invoke json_loads json_dumps query)
    as [text|]; [|discriminate]. cbn [bind] in S.
  destruct (except_JSONDecodeError (json_loads text) _) as [verdict|];
    [|discriminate]. cbn [bind] in S.
  destruct verdict; try discriminate S. cbn [py_get bind] in S.
  match type of S with
  | bind ?m _ = _ => destruct m as [sub|]; [|discriminate]
  end.
  cbn [bind] in S. injection S as <-.
  eexists. eexists. eexists. eexists. reflexivity.
Qed.

Lemma simple_process_result_shape_witness :
  exists is_complex sub_problems reason indicators,
    [ ("original_query", PStr "今天星期几？");
      ("is_complex", PBool false);
      ("sub_problems", PList [simple_sub_problem "今天星期几？"]);
      ("complexity_analysis",
       PDict [ ("reason", PStr "ok"); ("indicators", PList []) ]) ]
    = [ ("original_query", PStr "今天星期几？");
        ("is_complex", is_complex);
        ("sub_problems", sub_problems);
        ("complexity_analysis",
         PDict [ ("reason", reason); ("indicators", indicators) ]) ].
Proof.
  apply (simple_process_result_shape
           (llm_scripted (Ok short_simple_verdict) (Raise transport_error))
           RefJSON.loads RefJSON.dumps "今天星期几？").
  vm_compute. reflexivity.
Defined.

(** X7.  The single-shot path tests the flag for truth without coercing it:
    a classification that gives [is_complex] as a non-empty string, the
    string [false] included, is treated as complex.  The decomposition tool
    is run (a failure of its model call leaves [process]), and a result that
    comes back carries the string itself; the agent-loop normaliser turns the
    same flag into a boolean. *)
Theorem string_flag_counts_as_complex_on_single_shot_path
  (llm_invoke : temperature -> string -> outcome string)
  (json_loads : string -> outcome PyVal) (json_dumps : PyVal -> string)
  (query content : string) (verdict : dict) (s : string) :
  llm_invoke temp_0_3 (complexity_check_prompt query) = Ok content ->
  json_loads content = Ok (PDict verdict) ->
  json_loads (json_dumps (PDict verdict)) = Ok (PDict verdict) ->
  dict_lookup verdict "is_complex" = Some (PStr s) ->
  s <> EmptyString ->
  (forall e,
      llm_invoke temp_0_5 (problem_decompose_prompt query) = Raise e ->
      SimpleQuestionDecomposeAgent_process llm_invoke json_loads json_dumps query
      = Raise e)
  /\ (forall d,
        SimpleQuestionDecomposeAgent_process llm_invoke json_loads json_dumps query
        = Ok d ->
        dict_lookup d "is_complex" = Some (PStr s))
  /\ (exists r b,
        ReActAgent_format_final_result query (PDict verdict) = Ok r
        /\ dict_lookup r "is_complex" = Some (PBool b)).
Proof.
  intros L P RT F N.
  assert (T : truthy (dict_get verdict "is_complex" (PBool false)) = true).
  { unfold dict_get. rewrite F. cbn [truthy].
    destruct (String.eqb_spec s EmptyString); [contradiction | reflexivity]. }
  assert (G : dict_get verdict "is_complex" (PBool false) = PStr s).
  { unfold dict_get. rewrite F. reflexivity. }
  split; [|split].
  - intros e D.
    unfold SimpleQuestionDecomposeAgent_process, ComplexityCheckTool_run,
      ProblemDecomposeTool_run.
    rewrite L. cbn [bind]. rewrite P. cbn [bind except_JSONDecodeError].
    rewrite RT. cbn [bind except_JSONDecodeError py_get]. rewrite T, D. reflexivity.
  - intros d S.
    unfold SimpleQuestionDecomposeAgent_process, ComplexityCheckTool_run in S.
    rewrite L in S. cbn [bind] in S. rewrite P in S.
    cbn [bind except_JSONDecodeError] in S. rewrite RT in S.
    cbn [bind except_JSONDecodeError py_get] in S. rewrite T, G in S.
    match type of S with
    | bind ?m _ = _ => destruct m as [sub|]; [|discriminate]
    end.
    cbn [bind] in S. injection S as <-. reflexivity.
  - destruct (string_flag_coerced query verdict s F) as (r & b & E & H).
    exists r, b. split; assumption.
Qed.

Lemma string_flag_counts_as_complex_on_single_shot_path_witness :
  SimpleQuestionDecomposeAgent_process
    (llm_scripted (Ok ("{" ++ dq ++ "is_complex" ++ dq ++ ": " ++ dq ++ "false" ++ dq ++ "}"))
                  (Raise transport_error))
    RefJSON.loads RefJSON.dumps "今天星期几？"
  = Raise transport_error.
Proof.
  assert (N : "false" <> EmptyString) by discriminate.
  apply (proj1 (string_flag_counts_as_complex_on_single_shot_path
                  (llm_scripted
                     (Ok ("{" ++ dq ++ "is_complex" ++ dq ++ ": " ++ dq ++ "false" ++ dq ++ "}"))
                     (Raise transport_error))
                  RefJSON.loads RefJSON.dumps "今天星期几？"
                  ("{" ++ dq ++ "is_complex" ++ dq ++ ": " ++ dq ++ "false" ++ dq ++ "}")
                  [("is_complex", PStr "false")] "false"
                  eq_refl eq_refl eq_refl eq_refl N)
           transport_error).
  reflexivity.
Defined.

(** X8.  The classification tool passes on any JSON value it can parse; when
    that value is not an object, the single-shot path raises an
    [AttributeError] on reading the verdict from it. *)
Theorem non_object_verdict_raises_on_single_shot_path
  (llm_invoke : temperature -> string -> outcome string)
  (json_loads : string -> outcome PyVal) (json_dumps : PyVal -> string)
  (query content : string) (v : PyVal) :
  llm_invoke temp_0_3 (complexity_check_prompt query) = Ok content ->
  json_loads content = Ok v ->
  json_loads (json_dumps v) = Ok v ->
  (forall d, v <> PDict d) ->
  exists complaint,
    SimpleQuestionDecomposeAgent_process llm_invoke json_loads json_dumps query
    = Raise (AttributeError complaint).
Proof.
  intros L P RT N.
  unfold SimpleQuestionDecomposeAgent_process, ComplexityCheckTool_run.
  rewrite L. cbn [bind]. rewrite P. cbn [bind except_JSONDecodeError].
  rewrite RT. cbn [bind except_JSONDecodeError].
  destruct v; try (eexists; reflexivity).
  destruct (N d eq_refl).
Qed.

Lemma non_object_verdict_raises_on_single_shot_path_witness :
  exists complaint,
    SimpleQuestionDecomposeAgent_process
      (llm_scripted (Ok "[true]") (Raise transport_error))
      RefJSON.loads RefJSON.dumps "今天星期几？"
    = Raise (AttributeError complaint).
Proof.
  apply (non_object_verdict_raises_on_single_shot_path
           (llm_scripted (Ok "[true]") (Raise transport_error))
           RefJSON.loads RefJSON.dumps "今天星期几？" "[true]" (PList [PBool true]));
    [reflexivity | reflexivity | reflexivity | discriminate].
Defined.

(** X9.  On the single-shot path, a complex verdict whose decomposition
    response [json.loads] rejects with a [JSONDecodeError] comes back with
    the decomposition tool's one-element fallback as [sub_problems], its
    note included; the raw response the tool attached is dropped.  When
    [json.loads] fails on the decomposition response with any other
    exception, the call raises that exception. *)
Theorem decomposition_parse_failure_on_single_shot_path
  (llm_invoke : temperature -> string -> outcome string)
  (json_loads : string -> outcome PyVal) (json_dumps : PyVal -> string)
  (query content : string) (verdict : dict) (response : string) :
  llm_invoke temp_0_3 (complexity_check_prompt query) = Ok content ->
  json_loads content = Ok (PDict verdict) ->
  json_loads (json_dumps (PDict verdict)) = Ok (PDict verdict) ->
  truthy (dict_get verdict "is_complex" (PBool false)) = true ->
  llm_invoke temp_0_5 (problem_decompose_prompt query) = Ok response ->
  (forall msg,
      json_loads response = Raise (JSONDecodeError msg) ->
      json_loads (json_dumps (decompose_parse_failure query response))
      = Ok (decompose_parse_failure query response) ->
      SimpleQuestionDecomposeAgent_process llm_invoke json_loads json_dumps query
      = Ok [ ("original_query", PStr query);
             ("is_complex", dict_get verdict "is_complex" (PBool false));
             ("sub_problems",
              PList [ PDict [ ("id", PInt 1);
                              ("content", PStr query);
                              ("type", PStr "原始问题");
                              ("dependencies", PList []);
                              ("note", PStr "解析失败，返回原始问题") ] ]);
             ("complexity_analysis",
              PDict [ ("reason", dict_get verdict "reason" (PStr EmptyString));
                      ("indicators", dict_get verdict "indicators" (PList [])) ]) ])
  /\ (forall e,
        json_loads response = Raise e ->
        is_decode_error e = false ->
        SimpleQuestionDecomposeAgent_process llm_invoke json_loads json_dumps query
        = Raise e).
Proof.
  intros L P RT T L2.
  unfold SimpleQuestionDecomposeAgent_process, ComplexityCheckTool_run,
    ProblemDecomposeTool_run.
  rewrite L. cbn [bind]. rewrite P. cbn [bind except_JSONDecodeError].
  rewrite RT. cbn [bind except_JSONDecodeError py_get]. rewrite T, L2.
  cbn [bind]. split.
  - intros msg P2 RT2. rewrite P2. cbn [bind except_JSONDecodeError].
    rewrite RT2. reflexivity.
  - intros e P2 N. rewrite P2. destruct e; try discriminate N; reflexivity.
Qed.

Lemma decomposition_parse_failure_on_single_shot_path_witness :
  SimpleQuestionDecomposeAgent_process
    (llm_scripted (Ok ("{" ++ dq ++ "is_complex" ++ dq ++ ": true}"))
                  (Ok "hotels, then flights"))
    RefJSON.loads RefJSON.dumps "帮我找北京的酒店和机票"
  = Ok [ ("original_query", PStr "帮我找北京的酒店和机票");
         ("is_complex", PBool true);
         ("sub_problems",
          PList [ PDict [ ("id", PInt 1);
                          ("content", PStr "帮我找北京的酒店和机票");
                          ("type", PStr "原始问题");
                          ("dependencies", PList []);
                          ("note", PStr "解析失败，返回原始问题") ] ]);
         ("complexity_analysis",
          PDict [ ("reason", PStr EmptyString); ("indicators", PList []) ]) ]
  /\ SimpleQuestionDecomposeAgent_process
       (llm_scripted (Ok ("{" ++ dq ++ "is_complex" ++ dq ++ ": true}"))
                     (Ok deeply_nested))
       RefJSON.loads RefJSON.dumps "帮我找北京的酒店和机票"
     = Raise recursion_error_array.
Proof.
  split.
  - apply (proj1 (decomposition_parse_failure_on_single_shot_path
                    (llm_scripted (Ok ("{" ++ dq ++ "is_complex" ++ dq ++ ": true}"))
                                  (Ok "hotels, then flights"))
                    RefJSON.loads RefJSON.dumps "帮我找北京的酒店和机票"
                    ("{" ++ dq ++ "is_complex" ++ dq ++ ": true}")
                    [("is_complex", PBool true)] "hotels, then flights"
                    eq_refl eq_refl eq_refl eq_refl eq_refl)
             "Expecting value");
      vm_compute; reflexivity.
  - apply (proj2 (decomposition_parse_failure_on_single_shot_path
                    (llm_scripted (Ok ("{" ++ dq ++ "is_complex" ++ dq ++ ": true}"))
                                  (Ok deeply_nested))
                    RefJSON.loads RefJSON.dumps "帮我找北京的酒店和机票"
                    ("{" ++ dq ++ "is_complex" ++ dq ++ ": true}")
                    [("is_complex", PBool true)] deeply_nested
                    eq_refl eq_refl eq_refl eq_refl eq_refl)
             recursion_error_array);
      vm_compute; reflexivity.
Defined.

(** X10.  For a verdict that is not truthy the single-shot path never runs
    the decomposition tool: the result does not depend on what the model
    would answer to any prompt other than the classification prompt. *)
Theorem simple_verdict_skips_decomposition
  (llm_invoke llm_invoke' : temperature -> string -> outcome string)
  (json_loads : string -> outcome PyVal) (json_dumps : PyVal -> string)
  (query : string) (d : dict) (is_complex : PyVal) :
  llm_invoke' temp_0_3 (complexity_check_prompt query)
  = llm_invoke temp_0_3 (complexity_check_prompt query) ->
  SimpleQuestionDecomposeAgent_process llm_invoke json_loads json_dumps query = Ok d ->
  dict_lookup d "is_complex" = Some is_complex ->
  truthy is_complex = false ->
  SimpleQuestionDecomposeAgent_process llm_invoke' json_loads json_dumps query = Ok d.
Proof.
  intros Same S C T.
  unfold SimpleQuestionDecomposeAgent_process, ComplexityCheckTool_run in *.
  rewrite Same.
  destruct (llm_invoke temp_0_3 (complexity_check_prompt query)) as [content|];
    [|discriminate]. cbn [bind] in *.
  destruct (except_JSONDecodeError _ _) as [text|]; [|discriminate].
  cbn [bind] in *.
  destruct (except_JSONDecodeError (json_loads text) _) as [verdict|];
    [|discriminate]. cbn [bind] in *.
  destruct verdict; try discriminate S. cbn [py_get bind] in *.
  destruct (truthy (dict_get d0 "is_complex" (PBool false))) eqn:V.
  - match type of S with
    | bind ?m _ = _ => destruct m as [sub|]; [|discriminate]
    end.
    cbn [bind] in S. injection S as <-.
    cbn [dict_lookup String.eqb Ascii.eqb Bool.eqb] in C. injection C as <-.
    congruence.
  - exact S.
Qed.

Lemma simple_verdict_skips_decomposition_witness :
  SimpleQuestionDecomposeAgent_process
    (llm_scripted (Ok short_simple_verdict) (Ok "never asked"))
    RefJSON.loads RefJSON.dumps "今天星期几？"
  = Ok [ ("original_query", PStr "今天星期几？");
         ("is_complex", PBool false);
         ("sub_problems", PList [simple_sub_problem "今天星期几？"]);
         ("complexity_analysis",
          PDict [ ("reason", PStr "ok"); ("indicators", PList []) ]) ].
Proof.
  apply (simple_verdict_skips_decomposition
           (llm_scripted (Ok short_simple_verdict) (Raise transport_error))
           (llm_scripted (Ok short_simple_verdict) (Ok "never asked"))
           RefJSON.loads RefJSON.dumps "今天星期几？" _ (PBool false));
    vm_compute; reflexivity.
Defined.

(** * Properties of the batch run *)

Example join_characters :
  py_join "," (PStr "多子意图") = Ok "多,子,意,图".
Proof. vm_compute. reflexivity. Qed.

Example join_refuses_numbers :
  py_join "," (PList [PStr "a"; PInt 1])
  = Raise (TypeError "sequence item 1: expected str instance, int found").
Proof. vm_compute. reflexivity. Qed.

Lemma flagged_correct_app (a b : list dict) :
  flagged_correct (a ++ b) = (flagged_correct a + flagged_correct b)%nat.
Proof.
  unfold flagged_correct. rewrite filter_app, length_app. reflexivity.
Qed.

(** What one turn does to the state: it appends one or two records and
    raises the count by at most one, and by at least the number of appended
    records that are flagged as correct. *)
Lemma batch_step_spec {float : Type} (time_sleep : float -> outcome unit)
  (agent_process : string -> outcome dict) (delay : float)
  (total_count i : nat) (results : list dict) (correct_count : nat)
  (test_case : TestCase) :
  exists added gained,
    batch_step time_sleep agent_process delay total_count i
      (results, correct_count) test_case
    = ((results ++ added)%list, (correct_count + gained)%nat)
    /\ (1 <= List.length added <= 2)%nat
    /\ (gained <= 1)%nat
    /\ (flagged_correct added <= gained)%nat.
Proof.
  assert (Gain : forall b : bool,
             (if b then S correct_count else correct_count)
             = (correct_count + (if b then 1 else 0))%nat)
    by (intros []; lia).
  unfold batch_step.
  destruct (agent_process (question test_case)) as [agent_result|e].
  2:{ exists [batch_error_record test_case e], O.
      rewrite Nat.add_0_r. repeat split; cbn; lia. }
  destruct (batch_analysis agent_result) as [[reason indicators]|e].
  2:{ exists [batch_error_record test_case e], O.
      rewrite Nat.add_0_r. repeat split; cbn; lia. }
  set (is_correct := (if truthy (dict_get agent_result "is_complex" (PBool false))
                      then 1 else 0) =? human_eval test_case).
  rewrite Gain.
  destruct (if truthy indicators then py_join "," indicators else Ok EmptyString)
    as [joined|e].
  2:{ exists [batch_error_record test_case e], (if is_correct then 1 else 0)%nat.
      repeat split; try (cbn; lia); destruct is_correct; cbn; lia. }
  match goal with
  | |- context [bind ?m ?k] => destruct (bind m k) as [u|e]
  end.
  - eexists [_], (if is_correct then 1 else 0)%nat.
    repeat split; try (cbn; lia); destruct is_correct; cbn; lia.
  - eexists [_; batch_error_record test_case e], (if is_correct then 1 else 0)%nat.
    rewrite <- app_assoc.
    repeat split; try (cbn; lia); destruct is_correct; cbn; lia.
Qed.

Lemma batch_loop_spec {float : Type} (time_sleep : float -> outcome unit)
  (agent_process : string -> outcome dict) (delay : float)
  (total_count : nat) (test_cases : list TestCase) :
  forall (i : nat) (results : list dict) (correct_count : nat),
  exists added gained,
    batch_loop time_sleep agent_process delay total_count i
      (results, correct_count) test_cases
    = ((results ++ added)%list, (correct_count + gained)%nat)
    /\ (List.length test_cases <= List.length added <= 2 * List.length test_cases)%nat
    /\ (gained <= List.length test_cases)%nat
    /\ (flagged_correct added <= gained)%nat.
Proof.
  induction test_cases as [|test_case rest IH]; intros i results correct_count.
  - exists [], O. rewrite app_nil_r, Nat.add_0_r. repeat split; cbn; lia.
  - cbn [batch_loop].
    destruct (batch_step_spec time_sleep agent_process delay total_count i results
                correct_count test_case)
      as (a1 & g1 & -> & L1 & G1 & F1).
    destruct (IH (S i) (results ++ a1)%list (correct_count + g1)%nat)
      as (a2 & g2 & -> & L2 & G2 & F2).
    exists (a1 ++ a2)%list, (g1 + g2)%nat.
    rewrite app_assoc, Nat.add_assoc, length_app, flagged_correct_app.
    cbn [List.length]. repeat split; lia.
Qed.

Lemma run_batch_test_unfold {float : Type} (time_sleep : float -> outcome unit)
  (json_loads : string -> outcome PyVal)
  (create_agent : temperature -> list Tool -> string -> string -> outcome InvokeResult)
  (test_cases : list TestCase) (delay : float) :
  run_batch_test time_sleep json_loads create_agent test_cases delay
  = (fst (batch_loop time_sleep (ReActAgent_process json_loads create_agent temp_0_3)
            delay (List.length test_cases) 1 ([], O) test_cases),
     batch_accuracy
       (snd (batch_loop time_sleep
               (ReActAgent_process json_loads create_agent temp_0_3) delay
               (List.length test_cases) 1 ([], O) test_cases))
       (List.length test_cases)).
Proof.
  unfold run_batch_test. destruct (batch_loop _ _ _ _ _ _ _). reflexivity.
Qed.

(** The records of one turn, one of the three shapes of [records_of]. *)
Lemma batch_step_records {float : Type} (time_sleep : float -> outcome unit)
  (agent_process : string -> outcome dict) (delay : float)
  (total_count i : nat) (results : list dict) (correct_count : nat)
  (test_case : TestCase) :
  exists group correct_count',
    batch_step time_sleep agent_process delay total_count i
      (results, correct_count) test_case
    = ((results ++ group)%list, correct_count')
    /\ records_of time_sleep delay test_case group.
Proof.
  unfold batch_step.
  destruct (agent_process (question test_case)) as [agent_result|e].
  2:{ eexists. eexists. split; [reflexivity | apply error_record_alone]. }
  destruct (batch_analysis agent_result) as [[reason indicators]|e].
  2:{ eexists. eexists. split; [reflexivity | apply error_record_alone]. }
  destruct (if truthy indicators then py_join "," indicators else Ok EmptyString)
    as [joined|e].
  2:{ eexists. eexists. split; [reflexivity | apply error_record_alone]. }
  set (is_complex := dict_get agent_result "is_complex" (PBool false)).
  set (predicted := if truthy is_complex then 1 else 0).
  assert (R : result_record test_case
                [ ("question", PStr (question test_case));
                  ("expected", PInt (human_eval test_case));
                  ("predicted", PInt predicted);
                  ("is_correct", PBool (predicted =? human_eval test_case));
                  ("is_complex", is_complex);
                  ("reason", reason);
                  ("indicators", PStr joined) ] reason).
  { exists is_complex, joined. reflexivity. }
  destruct (truthy reason) eqn:V.
  - destruct (py_head_slice reason) as [u|e] eqn:P; cbn [bind].
    + destruct (i <? total_count)%nat.
      * destruct (time_sleep delay) as [u'|e] eqn:Z.
        -- eexists. eexists. split; [reflexivity|].
           eapply result_record_alone. exact R.
        -- eexists. eexists. split; [rewrite <- app_assoc; reflexivity|].
           eapply result_then_error_record; [exact R|]. right. exact Z.
      * eexists. eexists. split; [reflexivity|].
        eapply result_record_alone. exact R.
    + eexists. eexists. split; [rewrite <- app_assoc; reflexivity|].
      eapply result_then_error_record; [exact R|]. left. split; assumption.
  - cbn [bind].
    destruct (i <? total_count)%nat.
    + destruct (time_sleep delay) as [u'|e] eqn:Z.
      * eexists. eexists. split; [reflexivity|].
        eapply result_record_alone. exact R.
      * eexists. eexists. split; [rewrite <- app_assoc; reflexivity|].
        eapply result_then_error_record; [exact R|]. right. exact Z.
    + eexists. eexists. split; [reflexivity|].
      eapply result_record_alone. exact R.
Qed.

Lemma batch_loop_records {float : Type} (time_sleep : float -> outcome unit)
  (agent_process : string -> outcome dict) (delay : float)
  (total_count : nat) (test_cases : list TestCase) :
  forall (i : nat) (results : list dict) (correct_count : nat),
  exists groups,
    fst (batch_loop time_sleep agent_process delay total_count i
           (results, correct_count) test_cases)
    = (results ++ List.concat groups)%list
    /\ Forall2 (records_of time_sleep delay) test_cases groups.
Proof.
  induction test_cases as [|test_case rest IH]; intros i results correct_count.
  - exists []. cbn. rewrite app_nil_r. split; [reflexivity | constructor].
  - cbn [batch_loop].
    destruct (batch_step_records time_sleep agent_process delay total_count i
                results correct_count test_case)
      as (group & c' & -> & G).
    destruct (IH (S i) (results ++ group)%list c') as (groups & -> & F).
    exists (group :: groups). cbn [List.concat]. rewrite app_assoc.
    split; [reflexivity | constructor; assumption].
Qed.

(** X11.  [run_batch_test] returns the records of the test cases one test
    case after the other, one record or two for each: an error record alone
    (the exception came before a record was appended), a result record
    alone, or a result record followed by an error record for the same test
    case, whose exception was raised after the append, by slicing a reason
    that is not empty or by the sleep.  So there are at least as many records
    as test cases and at most twice as many. *)
Theorem batch_records_per_test_case {float : Type}
  (time_sleep : float -> outcome unit)
  (json_loads : string -> outcome PyVal)
  (create_agent : temperature -> list Tool -> string -> string -> outcome InvokeResult)
  (test_cases : list TestCase) (delay : float) :
  (exists groups,
      fst (run_batch_test time_sleep json_loads create_agent test_cases delay)
      = List.concat groups
      /\ Forall2 (records_of time_sleep delay) test_cases groups)
  /\ (List.length test_cases
      <= List.length
           (fst (run_batch_test time_sleep json_loads create_agent test_cases delay))
      <= 2 * List.length test_cases)%nat.
Proof.
  rewrite run_batch_test_unfold. cbn [fst]. split.
  - apply (batch_loop_records time_sleep
             (ReActAgent_process json_loads create_agent temp_0_3) delay
             (List.length test_cases) test_cases 1%nat [] O).
  - destruct (batch_loop_spec time_sleep
                (ReActAgent_process json_loads create_agent temp_0_3)
                delay (List.length test_cases) test_cases 1%nat [] O)
      as (added & gained & -> & L & _). cbn [fst app]. exact L.
Qed.

(** A reason that is a number: the record is appended, then printing the
    reason fails and an error record follows. *)
Example numeric_reason_gives_two_records :
  run_batch_test sleep_up_to_a_second RefJSON.loads
    (agent_saying verdict_with_numeric_reason) [weekday_case] (1 # 2)%Q
  = ([ [ ("question", PStr "今天星期几？");
         ("expected", PInt 0);
         ("predicted", PInt 0);
         ("is_correct", PBool true);
         ("is_complex", PBool false);
         ("reason", PInt 7);
         ("indicators", PStr EmptyString) ];
       [ ("question", PStr "今天星期几？");
         ("expected", PInt 0);
         ("predicted", PNone);
         ("is_correct", PBool false);
         ("error", PStr "'int' object is not subscriptable") ] ],
     1%Q).
Proof. vm_compute. reflexivity. Qed.

(** A negative delay: the sleep after the first record raises, so the first
    test case gets an error record after its result record; the last test
    case is not followed by a sleep. *)
Example negative_delay_gives_error_records :
  map (fun record => (dict_lookup record "predicted", dict_lookup record "error"))
      (fst (run_batch_test sleep_up_to_a_second RefJSON.loads
              (agent_saying short_simple_verdict)
              [ mkTestCase "今天星期几？" 0 0; mkTestCase "帮我找北京的酒店和机票" 1 1 ]
              (- (1 # 2))%Q))
  = [ (Some (PInt 0), None);
      (Some PNone, Some (PStr "sleep length must be non-negative"));
      (Some (PInt 0), None) ].
Proof. vm_compute. reflexivity. Qed.

Lemma batch_accuracy_monotone (a b total_count : nat) :
  (a <= b)%nat ->
  (batch_accuracy a total_count <= batch_accuracy b total_count)%Q.
Proof.
  intros H. unfold batch_accuracy.
  destruct (0 <? total_count)%nat; [|apply Qle_refl].
  unfold Qle. cbn [Qnum Qden]. nia.
Qed.

Lemma batch_accuracy_at_most_one (c total_count : nat) :
  (c <= total_count)%nat -> (batch_accuracy c total_count <= 1)%Q.
Proof.
  intros H. unfold batch_accuracy.
  destruct (Nat.ltb_spec 0 total_count) as [P|P]; [|discriminate].
  unfold Qle. cbn [Qnum Qden].
  pose proof (positive_nat_Z (Pos.of_nat total_count)) as E.
  rewrite Nat2Pos.id in E by lia. lia.
Qed.

(** X12.  The accuracy [run_batch_test] reports is at most 1 and at least the
    share of the test cases that have a record flagged as correct: the
    count behind it is raised before the record is built, so a test case
    whose record could not be built still counts when the prediction was
    right.  This holds whatever the sleep does. *)
Theorem batch_accuracy_bounds {float : Type}
  (time_sleep : float -> outcome unit)
  (json_loads : string -> outcome PyVal)
  (create_agent : temperature -> list Tool -> string -> string -> outcome InvokeResult)
  (test_cases : list TestCase) (delay : float) :
  (batch_accuracy
     (flagged_correct
        (fst (run_batch_test time_sleep json_loads create_agent test_cases delay)))
     (List.length test_cases)
   <= snd (run_batch_test time_sleep json_loads create_agent test_cases delay))%Q
  /\ (snd (run_batch_test time_sleep json_loads create_agent test_cases delay) <= 1)%Q.
Proof.
  rewrite run_batch_test_unfold. cbn [fst snd].
  destruct (batch_loop_spec time_sleep
              (ReActAgent_process json_loads create_agent temp_0_3)
              delay (List.length test_cases) test_cases 1%nat [] O)
    as (added & gained & -> & _ & G & F). cbn [fst snd app Nat.add].
  split.
  - apply batch_accuracy_monotone. exact F.
  - apply batch_accuracy_at_most_one. exact G.
Qed.

(** Indicators that are not text: the prediction is counted as correct, but
    the only record of the test case is an error record. *)
Example counted_correct_but_flagged_wrong :
  run_batch_test sleep_up_to_a_second RefJSON.loads
    (agent_saying verdict_with_numeric_indicator) [weekday_case] (1 # 2)%Q
  = ([ [ ("question", PStr "今天星期几？");
         ("expected", PInt 0);
         ("predicted", PNone);
         ("is_correct", PBool false);
         ("error",
          PStr "sequence item 0: expected str instance, int found") ] ],
     1%Q).
Proof. vm_compute. reflexivity. Qed.

Lemma sleep_between_returns {float : Type} (time_sleep : float -> outcome unit)
  (delay : float) (total_count i : nat) :
  sleep_returns time_sleep delay total_count -> (1 <= i)%nat ->
  (if (i <? total_count)%nat then time_sleep delay else Ok tt) = Ok tt.
Proof.
  intros S I. destruct (Nat.ltb_spec i total_count) as [L|L]; [|reflexivity].
  apply S. lia.
Qed.

(** One turn on a result without a verdict and without an analysis. *)
Lemma batch_step_unscored {float : Type} (time_sleep : float -> outcome unit)
  (agent_process : string -> outcome dict) (delay : float)
  (total_count i : nat) (results : list dict) (correct_count : nat)
  (test_case : TestCase) (d : dict) :
  sleep_returns time_sleep delay total_count -> (1 <= i)%nat ->
  agent_process (question test_case) = Ok d ->
  dict_lookup d "is_complex" = Some PNone ->
  dict_contains d "complexity_analysis" = false ->
  batch_step time_sleep agent_process delay total_count i
    (results, correct_count) test_case
  = ((results ++ [unscored_record test_case])%list,
     (correct_count + labelled_simple [test_case])%nat).
Proof.
  intros S I A N C. unfold batch_step, batch_analysis, dict_get.
  rewrite A, C, N. cbn [truthy bind].
  rewrite (sleep_between_returns time_sleep delay total_count i S I).
  unfold labelled_simple, unscored_record. cbn [filter].
  rewrite (Z.eqb_sym (human_eval test_case) 0).
  destruct (0 =? human_eval test_case); cbn; f_equal; lia.
Qed.

Lemma labelled_simple_cons (test_case : TestCase) (rest : list TestCase) :
  labelled_simple (test_case :: rest)
  = (labelled_simple [test_case] + labelled_simple rest)%nat.
Proof.
  unfold labelled_simple. cbn [filter].
  destruct (human_eval test_case =? 0); reflexivity.
Qed.

Lemma batch_loop_unscored {float : Type} (time_sleep : float -> outcome unit)
  (agent_process : string -> outcome dict) (delay : float)
  (total_count : nat) (test_cases : list TestCase) :
  sleep_returns time_sleep delay total_count ->
  (forall test_case,
      In test_case test_cases ->
      exists d,
        agent_process (question test_case) = Ok d
        /\ dict_lookup d "is_complex" = Some PNone
        /\ dict_contains d "complexity_analysis" = false) ->
  forall (i : nat) (results : list dict) (correct_count : nat),
    (1 <= i)%nat ->
    batch_loop time_sleep agent_process delay total_count i
      (results, correct_count) test_cases
    = ((results ++ map unscored_record test_cases)%list,
       (correct_count + labelled_simple test_cases)%nat).
Proof.
  intros S. induction test_cases as [|test_case rest IH];
    intros H i results correct_count I.
  - cbn. rewrite app_nil_r, Nat.add_0_r. reflexivity.
  - cbn [batch_loop map].
    destruct (H test_case (or_introl eq_refl)) as (d & A & N & C).
    rewrite (batch_step_unscored time_sleep _ _ _ _ _ _ _ d S I A N C).
    rewrite IH by (try (intros tc J; apply H; right; exact J); lia).
    rewrite <- app_assoc, <- Nat.add_assoc, <- labelled_simple_cons. reflexivity.
Qed.

(** X13.  When the agent run fails for every question (the endpoint is
    down) and the sleep between two test cases returns, [run_batch_test]
    still scores the batch: each test case gets one record with prediction 0
    and a null [is_complex], flagged correct exactly when the case is
    labelled 0, and the accuracy reported is the share of the test cases
    labelled 0.  (The sleep is reached only when there are at least two test
    cases.) *)
Theorem batch_scores_failures_as_simple {float : Type}
  (time_sleep : float -> outcome unit)
  (json_loads : string -> outcome PyVal)
  (create_agent : temperature -> list Tool -> string -> string -> outcome InvokeResult)
  (test_cases : list TestCase) (delay : float) :
  ((2 <= List.length test_cases)%nat -> time_sleep delay = Ok tt) ->
  (forall test_case,
      In test_case test_cases ->
      exists e,
        ReActAgent_create_agent create_agent temp_0_3 (question test_case) = Raise e) ->
  run_batch_test time_sleep json_loads create_agent test_cases delay
  = (map (fun test_case =>
            [ ("question", PStr (question test_case));
              ("expected", PInt (human_eval test_case));
              ("predicted", PInt 0);
              ("is_correct", PBool (0 =? human_eval test_case));
              ("is_complex", PNone);
              ("reason", PStr EmptyString);
              ("indicators", PStr EmptyString) ]) test_cases,
     batch_accuracy (labelled_simple test_cases) (List.length test_cases)).
Proof.
  intros D H. rewrite run_batch_test_unfold.
  rewrite (batch_loop_unscored time_sleep _ delay _ test_cases D);
    [reflexivity | | lia].
  intros test_case I. destruct (H test_case I) as (e & A).
  exists (error_result (question test_case) e). split; [|split; reflexivity].
  unfold ReActAgent_process, ReActAgent_process_body. rewrite A. reflexivity.
Qed.

Lemma batch_scores_failures_as_simple_witness :
  run_batch_test sleep_up_to_a_second RefJSON.loads (agent_raising transport_error)
    [ mkTestCase "今天星期几？" 0 0; mkTestCase "帮我找北京的酒店和机票" 1 1 ] (1 # 2)%Q
  = ([ [ ("question", PStr "今天星期几？");
         ("expected", PInt 0);
         ("predicted", PInt 0);
         ("is_correct", PBool true);
         ("is_complex", PNone);
         ("reason", PStr EmptyString);
         ("indicators", PStr EmptyString) ];
       [ ("question", PStr "帮我找北京的酒店和机票");
         ("expected", PInt 1);
         ("predicted", PInt 0);
         ("is_correct", PBool false);
         ("is_complex", PNone);
         ("reason", PStr EmptyString);
         ("indicators", PStr EmptyString) ] ],
     (1 # 2)%Q).
Proof.
  apply (batch_scores_failures_as_simple sleep_up_to_a_second RefJSON.loads
           (agent_raising transport_error)
           [ mkTestCase "今天星期几？" 0 0; mkTestCase "帮我找北京的酒店和机票" 1 1 ]
           (1 # 2)%Q (fun _ => eq_refl)).
  intros test_case _. exists transport_error. reflexivity.
Defined.

(** One turn when nothing fails after the record is appended. *)
Lemma batch_step_one_record {float : Type} (time_sleep : float -> outcome unit)
  (agent_process : string -> outcome dict) (delay : float)
  (total_count i : nat) (results : list dict) (correct_count : nat)
  (test_case : TestCase) :
  sleep_returns time_sleep delay total_count -> (1 <= i)%nat ->
  (forall d reason indicators,
      agent_process (question test_case) = Ok d ->
      batch_analysis d = Ok (reason, indicators) ->
      is_str reason = true) ->
  exists record correct_count',
    batch_step time_sleep agent_process delay total_count i
      (results, correct_count) test_case
    = ((results ++ [record])%list, correct_count')
    /\ dict_lookup record "question" = Some (PStr (question test_case))
    /\ dict_lookup record "expected" = Some (PInt (human_eval test_case)).
Proof.
  intros S I T. unfold batch_step.
  destruct (agent_process (question test_case)) as [agent_result|e].
  2:{ eexists. eexists. split; [reflexivity|]. split; reflexivity. }
  specialize (T agent_result).
  destruct (batch_analysis agent_result) as [[reason indicators]|e].
  2:{ eexists. eexists. split; [reflexivity|]. split; reflexivity. }
  specialize (T reason indicators eq_refl eq_refl).
  destruct (if truthy indicators then py_join "," indicators else Ok EmptyString)
    as [joined|e].
  2:{ eexists. eexists. split; [reflexivity|]. split; reflexivity. }
  destruct reason; try discriminate T.
  destruct (truthy (PStr s)); cbn [py_head_slice bind];
    rewrite (sleep_between_returns time_sleep delay total_count i S I);
    eexists; eexists; (split; [reflexivity|]); split; reflexivity.
Qed.

(** X14.  When the sleep between two test cases returns and the reasons are
    text, [run_batch_test] returns exactly one record for each test case, in
    the order of the test cases, each carrying its test case's question and
    expected label.  (The sleep is reached only when there are at least two
    test cases.) *)
Theorem batch_records_follow_test_cases {float : Type}
  (time_sleep : float -> outcome unit)
  (json_loads : string -> outcome PyVal)
  (create_agent : temperature -> list Tool -> string -> string -> outcome InvokeResult)
  (test_cases : list TestCase) (delay : float) :
  ((2 <= List.length test_cases)%nat -> time_sleep delay = Ok tt) ->
  (forall test_case d reason indicators,
      In test_case test_cases ->
      ReActAgent_process json_loads create_agent temp_0_3 (question test_case) = Ok d ->
      batch_analysis d = Ok (reason, indicators) ->
      is_str reason = true) ->
  map (fun record => (dict_lookup record "question", dict_lookup record "expected"))
      (fst (run_batch_test time_sleep json_loads create_agent test_cases delay))
  = map (fun test_case => (Some (PStr (question test_case)),
                           Some (PInt (human_eval test_case))))
        test_cases.
Proof.
  intros D T. rewrite run_batch_test_unfold. cbn [fst].
  set (agent_process := ReActAgent_process json_loads create_agent temp_0_3) in *.
  change ((2 <= List.length test_cases)%nat -> time_sleep delay = Ok tt)
    with (sleep_returns time_sleep delay (List.length test_cases)) in D.
  revert D. generalize (List.length test_cases). intros total_count D.
  assert (G : forall i results correct_count,
             (1 <= i)%nat ->
             map (fun record => (dict_lookup record "question",
                                 dict_lookup record "expected"))
                 (fst (batch_loop time_sleep agent_process delay total_count i
                         (results, correct_count) test_cases))
             = (map (fun record => (dict_lookup record "question",
                                    dict_lookup record "expected")) results
                ++ map (fun test_case => (Some (PStr (question test_case)),
                                          Some (PInt (human_eval test_case))))
                       test_cases)%list).
  { induction test_cases as [|test_case rest IH]; intros i results correct_count I.
    - cbn. rewrite app_nil_r. reflexivity.
    - cbn [batch_loop].
      destruct (batch_step_one_record time_sleep agent_process delay total_count i
                  results correct_count test_case D I)
        as (record & c' & -> & Q1 & Q2).
      { intros d reason indicators. apply T. left. reflexivity. }
      rewrite IH by (try (intros tc d r ind J; apply T; right; exact J); lia).
      rewrite map_app. cbn [map]. rewrite Q1, Q2, <- app_assoc. reflexivity. }
  apply (G 1%nat [] O). lia.
Qed.

Lemma batch_records_follow_test_cases_witness :
  map (fun record => (dict_lookup record "question", dict_lookup record "expected"))
      (fst (run_batch_test sleep_up_to_a_second RefJSON.loads
              (agent_saying short_simple_verdict)
              [ mkTestCase "今天星期几？" 0 0; mkTestCase "帮我找北京的酒店和机票" 1 1 ]
              (1 # 2)%Q))
  = [ (Some (PStr "今天星期几？"), Some (PInt 0));
      (Some (PStr "帮我找北京的酒店和机票"), Some (PInt 1)) ].
Proof.
  apply (batch_records_follow_test_cases sleep_up_to_a_second RefJSON.loads
           (agent_saying short_simple_verdict)
           [ mkTestCase "今天星期几？" 0 0; mkTestCase "帮我找北京的酒店和机票" 1 1 ]
           (1 # 2)%Q (fun _ => eq_refl)).
  intros test_case d reason indicators [<- | [<- | []]] P A;
    vm_compute in P; injection P as <-;
    vm_compute in A; injection A as <- _; reflexivity.
Defined.

(** * Properties of the loader *)

Example clean_key_drops_space_and_mark :
  clean_key (" " ++ String (ascii_of_nat 239) (String (ascii_of_nat 187)
                     (String (ascii_of_nat 191) "question")) ++ " ")
  = "question".
Proof. vm_compute. reflexivity. Qed.

(** Insert, then look up. *)
Lemma dict_lookup_set (d : dict) (k k' : string) (v : PyVal) :
  dict_lookup (dict_set d k v) k'
  = if String.eqb k' k then Some v else dict_lookup d k'.
Proof.
  induction d as [|[k0 v0] r IH]; cbn [dict_set dict_lookup].
  - reflexivity.
  - destruct (String.eqb_spec k k0) as [->|N]; cbn [dict_lookup].
    + destruct (String.eqb k' k0); reflexivity.
    + destruct (String.eqb_spec k' k0) as [->|N'].
      * destruct (String.eqb_spec k0 k); [congruence | reflexivity].
      * exact IH.
Qed.

Lemma clean_row_lookup (row : csv_row) (name : string) :
  forall d,
    dict_lookup
      (fold_left (fun d kv => dict_set d (clean_key (fst kv)) (PStr (snd kv))) row d)
      name
    = match column name row with
      | Some text => Some (PStr text)
      | None => dict_lookup d name
      end.
Proof.
  induction row as [|[k v] rest IH]; intros d; cbn [fold_left column fst snd].
  - reflexivity.
  - rewrite IH, dict_lookup_set.
    destruct (column name rest); [reflexivity|].
    destruct (String.eqb name (clean_key k)); reflexivity.
Qed.

Lemma label_of_column (py_int : string -> option Z) (row : csv_row) (name : string) :
  label py_int (clean_row row) name
  = match column_label py_int name row with
    | Some z => Ok z
    | None => Raise (OtherException "ValueError"
                       "invalid literal for int() with base 10")
    end.
Proof.
  unfold label, column_label, dict_get, clean_row.
  rewrite clean_row_lookup. cbn [dict_lookup].
  destruct (column name row) as [text|]; [|reflexivity].
  destruct (py_int text); reflexivity.
Qed.

Lemma load_row_spec (py_int : string -> option Z)
  (test_cases : list TestCase) (row : csv_row) :
  load_row py_int test_cases row = Ok (test_cases ++ test_case_of py_int row)%list.
Proof.
  unfold load_row, test_case_of. rewrite !label_of_column.
  unfold dict_get, clean_row. rewrite clean_row_lookup. cbn [dict_lookup].
  destruct (column_label py_int "is_complexity" row);
    destruct (column_label py_int "hunman_eval" row);
    cbn [bind key_or_value_error String.eqb Ascii.eqb Bool.eqb orb];
    rewrite ?app_nil_r; try reflexivity.
  destruct (column "question" row); reflexivity.
Qed.

Lemma load_rows_spec (py_int : string -> option Z) (rows : list csv_row) :
  forall test_cases,
    load_rows py_int test_cases rows
    = Ok (test_cases ++ flat_map (test_case_of py_int) rows)%list.
Proof.
  induction rows as [|row rest IH]; intros test_cases; cbn [load_rows flat_map].
  - rewrite app_nil_r. reflexivity.
  - rewrite load_row_spec. cbn [bind]. rewrite IH, app_assoc. reflexivity.
Qed.

(** X15.  On the rows of a rectangular file [load_test_cases] never raises.
    It keeps, in order, the rows whose two label columns read as numbers and
    drops the others; a missing label column reads as 0 and a missing
    question as the empty text; column names are compared after stripping
    white space and byte order marks, and of two columns with the same name
    the later one is read. *)
Theorem load_test_cases_keeps_parsable_rows
  (py_int : string -> option Z) (rows : list csv_row) :
  load_test_cases py_int rows = Ok (flat_map (test_case_of py_int) rows).
Proof.
  unfold load_test_cases. rewrite load_rows_spec. reflexivity.
Qed.

Example load_skips_unreadable_label :
  load_test_cases digits_only
    [ [ ("question", "今天星期几？"); ("is_complexity", "0"); (" hunman_eval", "0") ];
      [ ("question", "为什么房价会上涨？"); ("is_complexity", "1"); (" hunman_eval", "yes") ];
      [ ("question", "帮我找北京的酒店和机票"); (" hunman_eval", "1") ] ]
  = Ok [ mkTestCase "今天星期几？" 0 0; mkTestCase "帮我找北京的酒店和机票" 0 1 ].
Proof. vm_compute. reflexivity. Qed.

Lemma column_absent (name : string) (row : csv_row) :
  (forall kv, In kv row -> clean_key (fst kv) <> name) -> column name row = None.
Proof.
  induction row as [|[k v] rest IH]; intros H; cbn [column]; [reflexivity|].
  rewrite IH by (intros kv I; apply H; right; exact I).
  destruct (String.eqb_spec name (clean_key k)) as [E|]; [|reflexivity].
  destruct (H (k, v) (or_introl eq_refl)). symmetry. exact E.
Qed.

(** X16.  The expected label is read from the column named [hunman_eval]:
    when no column of the file has that name, a column named [human_eval]
    notwithstanding, every test case loaded has the expected label 0. *)
Theorem expected_label_needs_the_misspelt_column
  (py_int : string -> option Z) (rows : list csv_row)
  (test_cases : list TestCase) (test_case : TestCase) :
  (forall row kv, In row rows -> In kv row -> clean_key (fst kv) <> "hunman_eval") ->
  load_test_cases py_int rows = Ok test_cases ->
  In test_case test_cases ->
  human_eval test_case = 0.
Proof.
  intros H L I. unfold load_test_cases in L. rewrite load_rows_spec in L.
  injection L as <-. apply in_flat_map in I as (row & R & I).
  unfold test_case_of, column_label in I.
  rewrite (column_absent "hunman_eval" row) in I by (intros kv K; apply (H row kv R K)).
  destruct (match column "is_complexity" row with
            | Some text => py_int text
            | None => Some 0
            end); [|destruct I].
  destruct I as [<- | []]. reflexivity.
Qed.

Lemma expected_label_needs_the_misspelt_column_witness :
  human_eval (mkTestCase "帮我找北京的酒店和机票" 1 0) = 0.
Proof.
  apply (expected_label_needs_the_misspelt_column digits_only
           [ [ ("question", "帮我找北京的酒店和机票");
               ("is_complexity", "1");
               ("human_eval", "1") ] ]
           [ mkTestCase "帮我找北京的酒店和机票" 1 0 ]).
  - intros row kv [<- | []] [<- | [<- | [<- | []]]]; vm_compute; discriminate.
  - vm_compute. reflexivity.
  - left. reflexivity.
Defined.

(** * Properties of the command line front end *)

Lemma then_lift_raise {A B : Type} (e : exn) (k : A -> printing B) :
  then_ (lift (Raise e)) k = ([], Raise e).
Proof. reflexivity. Qed.

(** X17.  [process_query] contains a failure of the agent: when
    [agent.process] raises, as the single-shot agent does when its first
    model call fails, [process_query] prints its two opening lines and one
    line with the exception's text, and returns. *)
Theorem process_query_reports_agent_failure
  (llm_invoke : temperature -> string -> outcome string)
  (json_loads : string -> outcome PyVal) (json_dumps : PyVal -> string)
  (create_agent : temperature -> list Tool -> string -> string -> outcome InvokeResult)
  (py_repr : PyVal -> string) (query : string) (e : exn) :
  llm_invoke temp_0_3 (complexity_check_prompt query) = Raise e ->
  process_query json_dumps py_repr
    (agent_create_agent llm_invoke json_loads json_dumps create_agent false) query
  = [ newline ++ "处理中...";
      rule "-" 60;
      "处理过程中出现错误: " ++ exn_str e ].
Proof.
  intros L. unfold process_query, process_query_body, agent_create_agent.
  assert (S : SimpleQuestionDecomposeAgent_process llm_invoke json_loads json_dumps
                query = Raise e).
  { unfold SimpleQuestionDecomposeAgent_process, ComplexityCheckTool_run.
    rewrite L. reflexivity. }
  rewrite S, then_lift_raise. reflexivity.
Qed.

Lemma process_query_reports_agent_failure_witness :
  process_query RefJSON.dumps (fun _ => EmptyString)
    (agent_create_agent
       (llm_scripted (Raise transport_error) (Raise transport_error))
       RefJSON.loads RefJSON.dumps (agent_raising transport_error) false)
    "今天星期几？"
  = [ newline ++ "处理中...";
      rule "-" 60;
      "处理过程中出现错误: connection refused" ].
Proof.
  apply (process_query_reports_agent_failure
           (llm_scripted (Raise transport_error) (Raise transport_error))
           RefJSON.loads RefJSON.dumps (agent_raising transport_error)
           (fun _ => EmptyString) "今天星期几？" transport_error).
  reflexivity.
Defined.

(** X18.  A result without a verdict is summarised as a simple question:
    for a result whose [is_complex] is null, without [complexity_analysis]
    and with no sub-problems, [process_query] prints the result as JSON, the
    query, the line saying it is not complex, and a count of 0; an [error]
    in the result shows in the JSON text only. *)
Theorem process_query_shows_null_verdict_as_simple
  (json_dumps : PyVal -> string) (py_repr : PyVal -> string)
  (agent : string -> outcome dict) (query : string) (result : dict) :
  agent query = Ok result ->
  dict_lookup result "original_query" = Some (PStr query) ->
  dict_lookup result "is_complex" = Some PNone ->
  dict_lookup result "complexity_analysis" = None ->
  dict_lookup result "sub_problems" = Some (PList []) ->
  process_query json_dumps py_repr agent query
  = [ newline ++ "处理中...";
      rule "-" 60;
      newline ++ "【分析结果】";
      rule "=" 60;
      json_dumps (PDict result);
      rule "=" 60;
      newline ++ "【摘要】";
      "原始问题: " ++ query;
      "是否复杂: 否";
      newline ++ "子问题数量: 0" ].
Proof.
  intros A Q C N S.
  unfold process_query, process_query_body, print_analysis, py_item, dict_get.
  rewrite A. cbn [then_ lift say fst snd]. rewrite Q.
  cbn [then_ lift say fst snd]. rewrite C.
  cbn [then_ lift say fst snd truthy]. rewrite N.
  cbn [then_ lift say fst snd truthy]. rewrite S. reflexivity.
Qed.

Lemma process_query_shows_null_verdict_as_simple_witness :
  process_query RefJSON.dumps (fun _ => EmptyString)
    (agent_create_agent
       (llm_scripted (Raise transport_error) (Raise transport_error))
       RefJSON.loads RefJSON.dumps (agent_raising transport_error) true)
    "今天星期几？"
  = [ newline ++ "处理中...";
      rule "-" 60;
      newline ++ "【分析结果】";
      rule "=" 60;
      RefJSON.dumps (PDict (error_result "今天星期几？" transport_error));
      rule "=" 60;
      newline ++ "【摘要】";
      "原始问题: 今天星期几？";
      "是否复杂: 否";
      newline ++ "子问题数量: 0" ].
Proof.
  apply (process_query_shows_null_verdict_as_simple RefJSON.dumps (fun _ => EmptyString)
           (agent_create_agent
              (llm_scripted (Raise transport_error) (Raise transport_error))
              RefJSON.loads RefJSON.dumps (agent_raising transport_error) true)
           "今天星期几？" (error_result "今天星期几？" transport_error));
    reflexivity.
Defined.

(** X19.  The interactive session ends at the first line that, stripped and
    lowered, reads [quit], [exit] or [q]: lines after it are not read.  Up to
    there every line is answered in turn, a blank line by a reminder and any
    other line by [process_query] on the stripped line.  When the input runs
    out before such a line, the session ends in [EOFError]. *)
Theorem session_ends_at_first_quit
  (json_dumps : PyVal -> string) (py_repr : PyVal -> string)
  (agent : string -> outcome dict) (before : list string) :
  (forall line, In line before -> quits (PyStr.strip line) = false) ->
  (forall line after,
      quits (PyStr.strip line) = true ->
      interactive_loop json_dumps py_repr agent (before ++ line :: after)%list
      = ((flat_map (session_turn (process_query json_dumps py_repr agent)) before
          ++ [prompt; "再见！"])%list,
         Ok tt))
  /\ interactive_loop json_dumps py_repr agent before
     = ((flat_map (session_turn (process_query json_dumps py_repr agent)) before
         ++ [prompt])%list,
        Raise (OtherException "EOFError" "EOF when reading a line")).
Proof.
  induction before as [|first rest IH]; intros H.
  - split; [|reflexivity].
    intros line after Q. cbn [app interactive_loop flat_map]. rewrite Q. reflexivity.
  - assert (Q1 : quits (PyStr.strip first) = false) by (apply H; left; reflexivity).
    destruct IH as [IH1 IH2]; [intros l I; apply H; right; exact I|].
    split.
    + intros line after Q.
      cbn [app interactive_loop flat_map]. rewrite Q1, (IH1 line after Q).
      unfold session_turn. cbn [fst snd].
      destruct (String.eqb (PyStr.strip first) EmptyString);
        cbn [app]; rewrite ?app_assoc; reflexivity.
    + cbn [interactive_loop flat_map]. rewrite Q1, IH2.
      unfold session_turn. cbn [fst snd].
      destruct (String.eqb (PyStr.strip first) EmptyString);
        cbn [app]; rewrite ?app_assoc; reflexivity.
Qed.

Lemma session_ends_at_first_quit_witness :
  interactive_loop RefJSON.dumps (fun _ => EmptyString)
    (fun _ => Raise transport_error)
    [ "  "; " 今天星期几？ "; " QUIT "; "为什么房价会上涨？" ]
  = ([ prompt; "请输入有效的问题";
       prompt; newline ++ "处理中..."; rule "-" 60;
       "处理过程中出现错误: connection refused";
       prompt; "再见！" ],
     Ok tt).
Proof.
  apply (proj1 (session_ends_at_first_quit RefJSON.dumps (fun _ => EmptyString)
                  (fun _ => Raise transport_error) [ "  "; " 今天星期几？ " ]
                  ltac:(intros line [<- | [<- | []]]; vm_compute; reflexivity))
           " QUIT " [ "为什么房价会上涨？" ]).
  vm_compute. reflexivity.
Defined.

(** * One more property of the extraction *)

(** X20.  Nothing before the marker is searched: when the text after the
    first occurrence of the marker holds no opening brace, the result is the
    degraded one carrying the raw text, whatever stands before the marker, a
    complete JSON object included. *)
Theorem object_before_marker_is_ignored
  (json_loads : string -> outcome PyVal)
  (create_agent : temperature -> list Tool -> string -> string -> outcome InvokeResult)
  (temp : temperature) (query : string) (res : InvokeResult)
  (before after : string) :
  ReActAgent_create_agent create_agent temp query = Ok res ->
  extract_output res = PStr (before ++ final_answer_marker ++ after) ->
  (forall a' b',
      before ++ final_answer_marker ++ after = a' ++ final_answer_marker ++ b' ->
      (String.length before <= String.length a')%nat) ->
  has_char "{" after = false ->
  ReActAgent_process json_loads create_agent temp query
  = Ok [ ("original_query", PStr query);
         ("is_complex", PNone);
         ("sub_problems", PList []);
         ("raw_output", PStr (before ++ final_answer_marker ++ after)) ].
Proof.
  intros A O First H.
  apply (react_process_on_failed_extraction json_loads create_agent temp query res
           (before ++ final_answer_marker ++ after) after A O).
  - apply after_first_marker. exact First.
  - apply no_opening_brace. exact H.
Qed.

Lemma object_before_marker_is_ignored_witness :
  ReActAgent_process RefJSON.loads
    (agent_saying (short_simple_verdict ++ " Final Answer: see above"))
    temp_0_3 "今天星期几？"
  = Ok [ ("original_query", PStr "今天星期几？");
         ("is_complex", PNone);
         ("sub_problems", PList []);
         ("raw_output",
          PStr ((short_simple_verdict ++ " ") ++ final_answer_marker ++ " see above")) ].
Proof.
  apply (object_before_marker_is_ignored RefJSON.loads
           (agent_saying (short_simple_verdict ++ " Final Answer: see above"))
           temp_0_3 "今天星期几？"
           (ResDict None
              (Some [MsgObject
                       (Some (PStr (short_simple_verdict ++ " Final Answer: see above")))]))
           (short_simple_verdict ++ " ") " see above").
  - reflexivity.
  - vm_compute. reflexivity.
  - intros a' b' E.
    destruct (find_opt_first final_answer_marker a' b') as (n & F & L).
    rewrite <- E in F. vm_compute in F. injection F as <-.
    vm_compute. exact L.
  - reflexivity.
Defined.
